(** * zoolanding-data-dropper-lambda: the ingestion handler, embedded and verified

    A shallow embedding of [src/lambda_function.py].  Python text is a list of
    code points, Python numbers are unbounded integers or binary64 floats,
    exceptions are values of an error type, and the handler is a computation
    over the process state it can touch: the lazily created storage client,
    the lines written to standard output, and the put-object requests sent.

    What the handler takes from outside the repository (the JSON and base64
    codecs, the SDK, the clock, the environment) is gathered in one record,
    [Runtime], so that every statement quantifies over all its behaviours. *)

From Stdlib Require Import ZArith List String Ascii Bool Lia.
From Stdlib Require Import Floats.SpecFloat.
From Stdlib Require DecimalString HexadecimalString.
From Stdlib Require Import Strings.Byte.
Import ListNotations.
Open Scope Z_scope.
Set Warnings "-register-all".

(* ------------------------------------------------------------------ *)
(** ** Python text and bytes *)

(** A Python [str] is a sequence of code points. *)
Definition pystr := list Z.

(** An ASCII literal of this file as Python text. *)
Definition py (s : string) : pystr :=
  map (fun a => Z.of_N (N_of_ascii a)) (list_ascii_of_string s).

(** The double quote, which a literal of this file cannot hold. *)
Definition dq : pystr := [34].

Definition pystr_eqb (a b : pystr) : bool :=
  if list_eq_dec Z.eq_dec a b then true else false.

(** [s[-n:]]: the last [n] code points, or all of [s] when it is shorter. *)
Definition last_chars (n : nat) (s : pystr) : pystr :=
  skipn (List.length s - n) s.

(** [needle in haystack] for text. *)
Fixpoint startswith (p s : pystr) : bool :=
  match p, s with
  | [], _ => true
  | _ :: _, [] => false
  | a :: p', b :: s' => (a =? b) && startswith p' s'
  end.

Fixpoint contains (needle hay : pystr) : bool :=
  startswith needle hay ||
  match hay with
  | [] => false
  | _ :: hay' => contains needle hay'
  end.

(** [str(n)] and [f"{n}"] for an integer. *)
Definition str_of_int (n : Z) : pystr :=
  py (DecimalString.NilZero.string_of_int (Z.to_int n)).

(** The lowercase hexadecimal digits of a natural number. *)
Definition hex_digits (n : Z) : pystr :=
  py (HexadecimalString.NilZero.string_of_uint (N.to_hex_uint (Z.to_N n))).

(** [hex(n)]. *)
Definition hex (n : Z) : pystr :=
  if n <? 0 then py "-0x" ++ hex_digits (- n) else py "0x" ++ hex_digits n.

(** [s.zfill(w)] for the digits of a number that is not negative. *)
Definition zfill (w : nat) (s : pystr) : pystr :=
  repeat 48 (w - List.length s) ++ s.

(** [str.isspace] on one code point: the characters [str.strip()] removes. *)
Definition py_isspace (c : Z) : bool :=
  ((9 <=? c) && (c <=? 13)) || ((28 <=? c) && (c <=? 32)) ||
  (c =? 133) || (c =? 160) || (c =? 5760) ||
  ((8192 <=? c) && (c <=? 8202)) ||
  (c =? 8232) || (c =? 8233) || (c =? 8239) || (c =? 8287) || (c =? 12288).

Fixpoint lstrip (s : pystr) : pystr :=
  match s with
  | [] => []
  | c :: s' => if py_isspace c then lstrip s' else s
  end.

(** [s.strip()]. *)
Definition strip (s : pystr) : pystr := rev (lstrip (rev (lstrip s))).

Definition byte_of_Z (z : Z) : byte :=
  match Byte.of_N (Z.to_N z) with
  | Some b => b
  | None => x00
  end.

(** The UTF-8 bytes of one code point; a surrogate has none. *)
Definition utf8_of_codepoint (c : Z) : option (list byte) :=
  if (c <? 0) || (1114111 <? c) then None
  else if c <? 128 then Some [byte_of_Z c]
  else if c <? 2048 then
    Some [byte_of_Z (Z.lor 192 (Z.shiftr c 6));
          byte_of_Z (Z.lor 128 (Z.land c 63))]
  else if (55296 <=? c) && (c <=? 57343) then None
  else if c <? 65536 then
    Some [byte_of_Z (Z.lor 224 (Z.shiftr c 12));
          byte_of_Z (Z.lor 128 (Z.land (Z.shiftr c 6) 63));
          byte_of_Z (Z.lor 128 (Z.land c 63))]
  else
    Some [byte_of_Z (Z.lor 240 (Z.shiftr c 18));
          byte_of_Z (Z.lor 128 (Z.land (Z.shiftr c 12) 63));
          byte_of_Z (Z.lor 128 (Z.land (Z.shiftr c 6) 63));
          byte_of_Z (Z.lor 128 (Z.land c 63))].

(** The bytes of [s.encode("utf-8")], or [None] where Python raises
    [UnicodeEncodeError]. *)
Fixpoint utf8_bytes (s : pystr) : option (list byte) :=
  match s with
  | [] => Some []
  | c :: s' =>
      match utf8_of_codepoint c, utf8_bytes s' with
      | Some b, Some bs => Some (b ++ bs)
      | _, _ => None
      end
  end.

(* ------------------------------------------------------------------ *)
(** ** Python values and exceptions *)

(** The values an event, a context attribute or a parsed JSON document can
    hold.  A float is a binary64 number. *)
Inductive pyval : Type :=
| PNone
| PBool (b : bool)
| PInt (n : Z)
| PFloat (f : spec_float)
| PStr (s : pystr)
| PBytes (b : list byte)
| PList (l : list pyval)
| PDict (d : list (pystr * pyval)).

(** Exception classes, as far as the handler tells them apart.  A class
    stands for itself and its subclasses: [ValueError] covers
    [json.JSONDecodeError], [binascii.Error] and the [UnicodeError]s. *)
Inductive exc_class : Type :=
| ValueError | OverflowError | AttributeError | RuntimeError | TypeError
| OtherException.

(** A raised exception: its class and [str(e)]. *)
Record pyexc : Type := Exc { exc_class_of : exc_class; exc_str : pystr }.

(** [isinstance(e, ValueError)]. *)
Definition is_ValueError (e : pyexc) : bool :=
  match exc_class_of e with
  | ValueError => true
  | _ => false
  end.

(** [type(v).__name__]. *)
Definition type_name (v : pyval) : pystr :=
  match v with
  | PNone => py "NoneType"
  | PBool _ => py "bool"
  | PInt _ => py "int"
  | PFloat _ => py "float"
  | PStr _ => py "str"
  | PBytes _ => py "bytes"
  | PList _ => py "list"
  | PDict _ => py "dict"
  end.

(** Truth value of a Python object, as [if v:] takes it. *)
Definition truthy (v : pyval) : bool :=
  match v with
  | PNone => false
  | PBool b => b
  | PInt n => negb (n =? 0)
  | PFloat (S754_zero _) => false
  | PFloat _ => true
  | PStr s => negb (Nat.eqb (List.length s) 0)
  | PBytes b => negb (Nat.eqb (List.length b) 0)
  | PList l => negb (Nat.eqb (List.length l) 0)
  | PDict d => negb (Nat.eqb (List.length d) 0)
  end.

(** A Python dict with text keys, in insertion order. *)
Definition pydict := list (pystr * pyval).

Fixpoint dict_lookup (d : pydict) (k : pystr) : option pyval :=
  match d with
  | [] => None
  | (k', v) :: d' => if pystr_eqb k' k then Some v else dict_lookup d' k
  end.

(** [d.get(k, default)]. *)
Definition dict_get (d : pydict) (k : pystr) (default : pyval) : pyval :=
  match dict_lookup d k with
  | Some v => v
  | None => default
  end.

(** [o.get(k)] on any object: only a dict has the method. *)
Definition py_get (o : pyval) (k : pystr) : pyexc + pyval :=
  match o with
  | PDict d => inr (dict_get d k PNone)
  | _ => inl (Exc AttributeError
                (py "'" ++ type_name o ++ py "' object has no attribute 'get'"))
  end.

(** Results of operations that can raise. *)
Definition bindE {A B : Type} (r : pyexc + A) (k : A -> pyexc + B) : pyexc + B :=
  match r with
  | inl e => inl e
  | inr a => k a
  end.

(* ------------------------------------------------------------------ *)
(** ** Numbers: unbounded integers and binary64 floats *)

Definition prec : Z := 53.
Definition emax : Z := 1024.

(** The least integer too large for a binary64: halfway from the largest
    finite one, [2^1024 - 2^971], to [2^1024], where the tie goes up. *)
Definition FLOAT_OVERFLOW : Z := 2 ^ 1024 - 2 ^ 970.

(** [float(n)] for an integer, which is also how [math.isfinite(n)],
    [f * n] and [n / 1000.0] read an integer operand: the nearest binary64,
    ties to even, and [OverflowError] from [FLOAT_OVERFLOW] on. *)
Definition float_of_int (n : Z) : pyexc + spec_float :=
  if FLOAT_OVERFLOW <=? Z.abs n then
    inl (Exc OverflowError (py "int too large to convert to float"))
  else inr (binary_normalize prec emax n 0 false).

Definition float_isfinite (f : spec_float) : bool :=
  match f with
  | S754_zero _ | S754_finite _ _ _ => true
  | S754_infinity _ | S754_nan => false
  end.

Definition signed (s : bool) (m : positive) : Z :=
  if s then Z.neg m else Z.pos m.

(** [f >= n] for a float and an integer; Python compares the exact values. *)
Definition float_ge_int (f : spec_float) (n : Z) : bool :=
  match f with
  | S754_zero _ => n <=? 0
  | S754_infinity s => negb s
  | S754_nan => false
  | S754_finite s m e =>
      if 0 <=? e then n <=? signed s m * 2 ^ e
      else n * 2 ^ (- e) <=? signed s m
  end.

(** [int(f)]: truncation toward zero. *)
Definition int_of_float (f : spec_float) : pyexc + Z :=
  match f with
  | S754_zero _ => inr 0
  | S754_infinity _ =>
      inl (Exc OverflowError (py "cannot convert float infinity to integer"))
  | S754_nan =>
      inl (Exc ValueError (py "cannot convert float NaN to integer"))
  | S754_finite s m e =>
      inr (if 0 <=? e then signed s m * 2 ^ e
           else Z.quot (signed s m) (2 ^ (- e)))
  end.

Definition int_of_bool (b : bool) : Z := if b then 1 else 0.

(** [isinstance(ts, (int, float))]; [bool] is a subclass of [int]. *)
Definition isinstance_int_float (v : pyval) : bool :=
  match v with
  | PBool _ | PInt _ | PFloat _ => true
  | _ => false
  end.

Definition not_a_number (v : pyval) : pyexc :=
  Exc TypeError (py "must be real number, not " ++ type_name v).

(** [math.isfinite(x)]. *)
Definition math_isfinite (x : pyval) : pyexc + bool :=
  match x with
  | PBool b => bindE (float_of_int (int_of_bool b)) (fun _ => inr true)
  | PInt n => bindE (float_of_int n) (fun _ => inr true)
  | PFloat f => inr (float_isfinite f)
  | _ => inl (not_a_number x)
  end.

(** [x >= n] for a number [x] and an integer [n]. *)
Definition py_ge_int (x : pyval) (n : Z) : pyexc + bool :=
  match x with
  | PBool b => inr (n <=? int_of_bool b)
  | PInt k => inr (n <=? k)
  | PFloat f => inr (float_ge_int f n)
  | _ => inl (not_a_number x)
  end.

(** [x * n] for a number [x] and an integer [n]. *)
Definition py_mul_int (x : pyval) (n : Z) : pyexc + pyval :=
  match x with
  | PBool b => inr (PInt (int_of_bool b * n))
  | PInt k => inr (PInt (k * n))
  | PFloat f => bindE (float_of_int n) (fun g => inr (PFloat (SFmul prec emax f g)))
  | _ => inl (not_a_number x)
  end.

(** [int(x)] for a number. *)
Definition py_int (x : pyval) : pyexc + Z :=
  match x with
  | PBool b => inr (int_of_bool b)
  | PInt k => inr k
  | PFloat f => int_of_float f
  | _ => inl (not_a_number x)
  end.

(** The source's [_normalize_timestamp_to_ms]. *)
Definition _normalize_timestamp_to_ms (ts : pyval) : pyexc + Z :=
  let invalid := Exc ValueError (py "Missing or invalid timestamp") in
  if negb (isinstance_int_float ts) then inl invalid
  else
    bindE (math_isfinite ts) (fun finite =>
    if negb finite then inl invalid
    else
      bindE (py_ge_int ts (10 ^ 12)) (fun is_ms =>
      bindE (if is_ms then inr ts else py_mul_int ts 1000) py_int)).

(* ------------------------------------------------------------------ *)
(** ** UTC calendar dates *)

Definition _DAYS_IN_MONTH : list Z :=
  [-1; 31; 28; 31; 30; 31; 30; 31; 31; 30; 31; 30; 31].

Definition _DAYS_BEFORE_MONTH : list Z :=
  [-1; 0; 31; 59; 90; 120; 151; 181; 212; 243; 273; 304; 334].

Definition table (t : list Z) (i : Z) : Z := nth (Z.to_nat i) t 0.

(** The proleptic Gregorian date of a day number (1 is 0001-01-01), the
    conversion [datetime] does. *)
Definition _ord2ymd (ordinal : Z) : Z * Z * Z :=
  let n := ordinal - 1 in
  let n400 := n / 146097 in
  let n := n mod 146097 in
  let year := n400 * 400 + 1 in
  let n100 := n / 36524 in
  let n := n mod 36524 in
  let n4 := n / 1461 in
  let n := n mod 1461 in
  let n1 := n / 365 in
  let n := n mod 365 in
  let year := year + n100 * 100 + n4 * 4 + n1 in
  if (n1 =? 4) || (n100 =? 4) then (year - 1, 12, 31)
  else
    let leapyear := (n1 =? 3) && (negb (n4 =? 24) || (n100 =? 3)) in
    let month := Z.shiftr (n + 50) 5 in
    let preceding :=
      table _DAYS_BEFORE_MONTH month
      + int_of_bool ((2 <? month) && leapyear) in
    if n <? preceding then
      let month := month - 1 in
      let preceding :=
        preceding
        - (table _DAYS_IN_MONTH month + int_of_bool ((month =? 2) && leapyear)) in
      (year, month, n - preceding + 1)
    else (year, month, n - preceding + 1).

(** Day number of 1970-01-01, and the last day [datetime] can hold
    (9999-12-31). *)
Definition EPOCH_ORDINAL : Z := 719163.
Definition MAX_ORDINAL : Z := 3652059.
Definition MS_PER_DAY : Z := 86400000.

(* ------------------------------------------------------------------ *)
(** ** The response envelope *)

(** The values the handler's response payloads hold. *)
Inductive jscalar : Type :=
| JBool (b : bool)
| JStr (s : pystr)
| JInt (n : Z).

Definition backslash : pystr := [92].

(** A backslash, [u] and four hexadecimal digits. *)
Definition u_escape (n : Z) : pystr :=
  backslash ++ py "u" ++ zfill 4 (hex_digits n).

(** One character of a JSON string as [json.dumps] writes it with
    [ensure_ascii] left on. *)
Definition escape_char (c : Z) : pystr :=
  if c =? 92 then backslash ++ backslash
  else if c =? 34 then backslash ++ dq
  else if c =? 8 then backslash ++ py "b"
  else if c =? 12 then backslash ++ py "f"
  else if c =? 10 then backslash ++ py "n"
  else if c =? 13 then backslash ++ py "r"
  else if c =? 9 then backslash ++ py "t"
  else if (32 <=? c) && (c <=? 126) then [c]
  else if c <? 65536 then u_escape c
  else
    let n := c - 65536 in
    u_escape (Z.lor 55296 (Z.land (Z.shiftr n 10) 1023))
    ++ u_escape (Z.lor 56320 (Z.land n 1023)).

Definition json_string (s : pystr) : pystr :=
  dq ++ flat_map escape_char s ++ dq.

Definition json_scalar (v : jscalar) : pystr :=
  match v with
  | JBool true => py "true"
  | JBool false => py "false"
  | JStr s => json_string s
  | JInt n => str_of_int n
  end.

Fixpoint join (sep : pystr) (parts : list pystr) : pystr :=
  match parts with
  | [] => []
  | [x] => x
  | x :: rest => x ++ sep ++ join sep rest
  end.

(** [json.dumps(payload, separators=(",", ":"))] for a payload dict. *)
Definition json_dumps_compact (payload : list (pystr * jscalar)) : pystr :=
  py "{"
  ++ join (py ",")
       (map (fun kv => json_string (fst kv) ++ py ":" ++ json_scalar (snd kv))
            payload)
  ++ py "}".

Record Response : Type := {
  statusCode : Z;
  headers : list (pystr * pystr);
  body : pystr
}.

Definition _json_response (status : Z) (payload : list (pystr * jscalar))
  : Response :=
  {| statusCode := status;
     headers := [(py "Content-Type", py "application/json")];
     body := json_dumps_compact payload |}.

Definition _bad_request (msg : pystr) : Response :=
  _json_response 400 [(py "ok", JBool false); (py "error", JStr msg)].

Definition _server_error : Response :=
  _json_response 500
    [(py "ok", JBool false); (py "error", JStr (py "Internal error"))].

(* ------------------------------------------------------------------ *)
(** ** What the handler takes from outside the repository *)

(** A storage client handle. *)
Inductive S3Client : Type := BotoS3Client.

Record Runtime : Type := {
  (** [os.environ] when the module is loaded *)
  environ : pystr -> option pystr;
  (** [str.upper] *)
  str_upper : pystr -> pystr;
  (** [json.loads(text)] *)
  json_loads : pystr -> pyexc + pyval;
  (** [json.dumps(obj)] with its defaults *)
  json_dumps : pyval -> pyexc + pystr;
  (** [base64.b64decode(text)] *)
  b64decode : pystr -> pyexc + list byte;
  (** [data.decode("utf-8")] *)
  utf8_decode : list byte -> pyexc + pystr;
  (** [str(e)] of the [UnicodeEncodeError] that [text.encode("utf-8")] raises *)
  encode_error_str : pystr -> pystr;
  (** the [boto3] module: [None] when its import failed, else what
      [boto3.client("s3")] does *)
  boto3 : option (pyexc + S3Client);
  (** [put_object(Bucket, Key, Body, ContentType)]: [None] when it returns *)
  put_object : pystr -> pystr -> list byte -> pystr -> option pyexc;
  (** [int(datetime.now(tz=timezone.utc).timestamp() * 1000)] *)
  now_ms : Z;
  (** what [datetime.fromtimestamp] raises for a time outside years 1 to 9999 *)
  fromtimestamp_error : Z -> pyexc;
  (** [traceback.format_exc()] while the exception is handled *)
  format_exc : pyexc -> pystr
}.

(** [os.getenv(name, default)]. *)
Definition os_getenv (rt : Runtime) (name default : pystr) : pystr :=
  match environ rt name with
  | Some v => v
  | None => default
  end.

(** The module's configuration globals. *)
Record Globals : Type := {
  RAW_BUCKET_NAME : pystr;
  LOG_LEVEL : pystr;
  DRY_RUN : bool
}.

(** [value in {"1", "true", "TRUE", "yes", "YES"}]. *)
Definition dry_run_enabled (value : pystr) : bool :=
  existsb (pystr_eqb value)
    [py "1"; py "true"; py "TRUE"; py "yes"; py "YES"].

(** The globals as the module sets them when it is imported. *)
Definition module_globals (rt : Runtime) : Globals :=
  {| RAW_BUCKET_NAME :=
       os_getenv rt (py "RAW_BUCKET_NAME") (py "zoolanding-data-raw");
     LOG_LEVEL := str_upper rt (os_getenv rt (py "LOG_LEVEL") (py "INFO"));
     DRY_RUN := dry_run_enabled (os_getenv rt (py "DRY_RUN") (py "0")) |}.

(** [text.encode("utf-8")]. *)
Definition encode_utf8 (rt : Runtime) (text : pystr) : pyexc + list byte :=
  match utf8_bytes text with
  | Some b => inr b
  | None => inl (Exc ValueError (encode_error_str rt text))
  end.

(** [datetime.fromtimestamp(ts_ms / 1000.0, tz=timezone.utc)], down to the
    day.  The division reads [ts_ms] as a float; inside the years a
    [datetime] holds that float is exact to well under a millisecond, so the
    day is the floor of [ts_ms] over the milliseconds of a day. *)
Definition utc_date (rt : Runtime) (ts_ms : Z) : pyexc + Z * Z * Z :=
  bindE (float_of_int ts_ms) (fun _ =>
  let ordinal := ts_ms / MS_PER_DAY + EPOCH_ORDINAL in
  if (1 <=? ordinal) && (ordinal <=? MAX_ORDINAL) then inr (_ord2ymd ordinal)
  else inl (fromtimestamp_error rt ts_ms)).

(** The source's [_derive_date_parts]: [%Y] as the C library of the Lambda
    platform writes it (no padding, so four digits from year 1000 on), [%m]
    and [%d] on two digits. *)
Definition _derive_date_parts (rt : Runtime) (ts_ms : Z)
  : pyexc + pystr * pystr * pystr :=
  bindE (utc_date rt ts_ms) (fun ymd =>
  let '(y, m, d) := ymd in
  inr (str_of_int y, zfill 2 (str_of_int m), zfill 2 (str_of_int d))).

(** The invocation context, as far as the handler reads it: the attribute
    [aws_request_id], [PNone] when it is absent or reading it raises. *)
Record LambdaContext : Type := { aws_request_id : pyval }.

(** The source's [_get_request_id]. *)
Definition _get_request_id (rt : Runtime) (context : LambdaContext) : pystr :=
  match aws_request_id context with
  | PStr reqId =>
      if (8 <=? List.length reqId)%nat then last_chars 8 reqId
      else last_chars 8 (hex (now_ms rt))
  | _ => last_chars 8 (hex (now_ms rt))
  end.

(** The source's [_decode_body]. *)
Definition _decode_body (rt : Runtime) (event : pydict) : pyexc + pystr :=
  let body := dict_get event (py "body") PNone in
  match body with
  | PNone | PStr [] => inl (Exc ValueError (py "Missing body"))
  | _ =>
      let is_b64 := dict_get event (py "isBase64Encoded") (PBool false) in
      if truthy is_b64 then
        match body with
        | PStr s => bindE (b64decode rt s) (utf8_decode rt)
        | _ => inl (Exc ValueError (py "Body is base64Encoded but not a string"))
        end
      else
        match body with
        | PStr s => inr s
        | PBytes b => utf8_decode rt b
        | _ => json_dumps rt body
        end
  end.

(* ------------------------------------------------------------------ *)
(** ** The process: state, effects and exceptions *)

(** One line the module prints: the record's level, message and fields. *)
Record LogRecord : Type := {
  log_level : pystr;
  log_message : pystr;
  log_fields : list (pystr * pyval)
}.

(** One [put_object] call. *)
Record PutObject : Type := {
  Bucket : pystr;
  Key : pystr;
  Body : list byte;
  ContentType : pystr
}.

(** What an invocation can change: the global [S3], standard output and the
    requests sent to the object store. *)
Record Process : Type := {
  S3 : option S3Client;
  stdout : list LogRecord;
  s3_requests : list PutObject
}.

(** A computation that may change the process and may raise; what it
    changed before raising stays changed. *)
Definition M (A : Type) : Type := Process -> (pyexc + A) * Process.

Definition ret {A : Type} (a : A) : M A := fun p => (inr a, p).

Definition raise {A : Type} (e : pyexc) : M A := fun p => (inl e, p).

Definition bind {A B : Type} (m : M A) (k : A -> M B) : M B :=
  fun p =>
    match m p with
    | (inl e, p') => (inl e, p')
    | (inr a, p') => k a p'
    end.

(** A pure operation that can raise, run in the process. *)
Definition lift {A : Type} (r : pyexc + A) : M A := fun p => (r, p).

(** A state change that cannot raise. *)
Definition effect (f : Process -> Process) : M unit := fun p => (inr tt, f p).

(** [try: m  except Exception as e: h e], where [h] returns. *)
Definition try_except {A : Type} (m : M A) (h : pyexc -> Process -> A * Process)
  : Process -> A * Process :=
  fun p =>
    match m p with
    | (inl e, p') => h e p'
    | (inr a, p') => (a, p')
    end.

Declare Scope py_scope.
Delimit Scope py_scope with py.
Notation "x <- m ;; k" := (bind m (fun x => k))
  (at level 61, m at next level, right associativity) : py_scope.
Notation "m ;; k" := (bind m (fun _ => k))
  (at level 61, right associativity) : py_scope.
Open Scope py_scope.

Section Handler.

Variable rt : Runtime.
Variable g : Globals.

(** [order.get(level, 20)]. *)
Definition level_order (level : pystr) : Z :=
  if pystr_eqb level (py "DEBUG") then 10
  else if pystr_eqb level (py "INFO") then 20
  else if pystr_eqb level (py "ERROR") then 40
  else 20.

Definition _should_log (level : pystr) : bool :=
  level_order (LOG_LEVEL g) <=? level_order level.

(** The source's [_log]: one record on standard output when the level
    passes; it never raises. *)
Definition _log (level message : pystr) (fields : list (pystr * pyval))
  (p : Process) : Process :=
  if _should_log level then
    {| S3 := S3 p;
       stdout := stdout p ++ [{| log_level := level;
                                 log_message := message;
                                 log_fields := fields |}];
       s3_requests := s3_requests p |}
  else p.

Definition log (level message : pystr) (fields : list (pystr * pyval))
  : M unit :=
  effect (_log level message fields).

(** The source's [_get_s3_client]. *)
Definition _get_s3_client : M (option S3Client) :=
  fun p =>
    match S3 p with
    | Some client => (inr (Some client), p)
    | None =>
        if DRY_RUN g then
          (log (py "DEBUG") (py "DRY_RUN enabled; skipping S3 client init") [] ;;
           ret None) p
        else
          match boto3 rt with
          | None =>
              (log (py "ERROR")
                 (py "boto3 not available and DRY_RUN is disabled; cannot upload to S3")
                 [] ;;
               raise (Exc RuntimeError
                 (py "boto3 is not available and DRY_RUN is disabled; cannot upload to S3")))
                p
          | Some (inl e) => (inl e, p)
          | Some (inr client) =>
              (effect (fun p => {| S3 := Some client;
                                   stdout := stdout p;
                                   s3_requests := s3_requests p |}) ;;
               log (py "DEBUG") (py "Initialized S3 client") [] ;;
               ret (Some client)) p
          end
    end.

(** [s3.put_object(Bucket=..., Key=..., Body=text.encode("utf-8"),
    ContentType=...)] on what [_get_s3_client] returned. *)
Definition s3_put_object (s3 : option S3Client) (bucket key text ctype : pystr)
  : M unit :=
  match s3 with
  | None =>
      raise (Exc AttributeError
               (py "'NoneType' object has no attribute 'put_object'"))
  | Some _ =>
      data <- lift (encode_utf8 rt text) ;;
      effect (fun p => {| S3 := S3 p;
                          stdout := stdout p;
                          s3_requests :=
                            s3_requests p ++ [{| Bucket := bucket;
                                                 Key := key;
                                                 Body := data;
                                                 ContentType := ctype |}] |}) ;;
      match put_object rt bucket key data ctype with
      | Some e => raise e
      | None => ret tt
      end
  end.

(** A block that handles its own exceptions, run inside a larger one. *)
Definition handled {A : Type} (f : Process -> A * Process) : M A :=
  fun p => let (a, p') := f p in (inr a, p').

(** [list(o.keys())[:12]]. *)
Definition first_keys (o : pyval) : pyexc + pyval :=
  match o with
  | PDict d => inr (PList (map PStr (firstn 12 (map fst d))))
  | _ => inl (Exc AttributeError
                (py "'" ++ type_name o ++ py "' object has no attribute 'keys'"))
  end.

(** [isinstance(app_name, str) and app_name.strip()]: the name when the test
    passes. *)
Definition valid_app_name (app_name : pyval) : option pystr :=
  match app_name with
  | PStr s => if truthy (PStr (strip s)) then Some s else None
  | _ => None
  end.

(** The f-string of step 5. *)
Definition storage_key (app_name yyyy mm dd : pystr) (ts_ms : Z)
  (short_reqId : pystr) : pystr :=
  app_name ++ py "/" ++ yyyy ++ py "/" ++ mm ++ py "/" ++ dd ++ py "/"
  ++ str_of_int ts_ms ++ py "-" ++ short_reqId ++ py ".json".

(** The body dict of step 7. *)
Definition success_body (key : pystr) (size_bytes : Z)
  : list (pystr * jscalar) :=
  [(py "ok", JBool true);
   (py "bucket", JStr (RAW_BUCKET_NAME g));
   (py "key", JStr key);
   (py "size", JInt size_bytes)]
  ++ (if DRY_RUN g then [(py "dryRun", JBool true)] else []).

(** The [try] block of step 6, live mode. *)
Definition upload (short_reqId app_name : pystr) (ts_ms : Z)
  (key body_str : pystr) (size_bytes : Z) : M unit :=
  s3 <- _get_s3_client ;;
  s3_put_object s3 (RAW_BUCKET_NAME g) key body_str (py "application/json") ;;
  log (py "INFO") (py "Uploaded analytics payload")
    [(py "requestId", PStr short_reqId);
     (py "appName", PStr app_name);
     (py "timestampMs", PInt ts_ms);
     (py "bucket", PStr (RAW_BUCKET_NAME g));
     (py "key", PStr key);
     (py "size", PInt size_bytes)].

(** Step 6: [Some response] when the step returns from the handler. *)
Definition store (short_reqId app_name : pystr) (ts_ms : Z)
  (key body_str : pystr) (size_bytes : Z) : M (option Response) :=
  if DRY_RUN g then
    log (py "INFO") (py "Dry-run: would upload")
      [(py "requestId", PStr short_reqId);
       (py "appName", PStr app_name);
       (py "timestampMs", PInt ts_ms);
       (py "bucket", PStr (RAW_BUCKET_NAME g));
       (py "key", PStr key);
       (py "size", PInt size_bytes);
       (py "dryRun", PBool true)] ;;
    ret None
  else
    handled (try_except
      (upload short_reqId app_name ts_ms key body_str size_bytes ;; ret None)
      (fun s3e p =>
         (Some _server_error,
          _log (py "ERROR") (py "S3 upload failed")
            [(py "requestId", PStr short_reqId);
             (py "appName", PStr app_name);
             (py "bucket", PStr (RAW_BUCKET_NAME g));
             (py "key", PStr key);
             (py "error", PStr (exc_str s3e));
             (py "stack", PStr (format_exc rt s3e))] p))).

(** Steps 3 to 7, on the parsed payload. *)
Definition process_payload (short_reqId body_str : pystr) (payload : pyval)
  : M Response :=
  app_name <- lift (py_get payload (py "appName")) ;;
  match valid_app_name app_name with
  | None =>
      log (py "ERROR") (py "Invalid appName")
        [(py "requestId", PStr short_reqId)] ;;
      ret (_bad_request (py "Missing or invalid appName"))
  | Some app_name =>
      ts <- lift (py_get payload (py "timestamp")) ;;
      match _normalize_timestamp_to_ms ts with
      | inl e =>
          if is_ValueError e then
            log (py "ERROR") (exc_str e)
              [(py "requestId", PStr short_reqId);
               (py "appName", PStr app_name)] ;;
            ret (_bad_request (exc_str e))
          else raise e
      | inr ts_ms =>
          ts_again <- lift (py_get payload (py "timestamp")) ;;
          keys <- lift (first_keys payload) ;;
          log (py "DEBUG") (py "Validated payload")
            [(py "requestId", PStr short_reqId);
             (py "appName", PStr app_name);
             (py "timestampType", PStr (type_name ts_again));
             (py "timestampMs", PInt ts_ms);
             (py "keys", keys)] ;;
          parts <- lift (_derive_date_parts rt ts_ms) ;;
          let '(yyyy, mm, dd) := parts in
          log (py "DEBUG") (py "Derived date parts")
            [(py "requestId", PStr short_reqId);
             (py "yyyy", PStr yyyy);
             (py "mm", PStr mm);
             (py "dd", PStr dd)] ;;
          let key := storage_key app_name yyyy mm dd ts_ms short_reqId in
          data <- lift (encode_utf8 rt body_str) ;;
          let size_bytes := Z.of_nat (List.length data) in
          returned <- store short_reqId app_name ts_ms key body_str size_bytes ;;
          match returned with
          | Some response => ret response
          | None => ret (_json_response 200 (success_body key size_bytes))
          end
      end
  end.

(** The outer [try] block of the handler: steps 1 and 2, then the rest. *)
Definition handler_body (event : pydict) (short_reqId : pystr) : M Response :=
  body_str <- lift (_decode_body rt event) ;;
  log (py "DEBUG") (py "Decoded body")
    [(py "requestId", PStr short_reqId);
     (py "decodedLen", PInt (Z.of_nat (List.length body_str)))] ;;
  match json_loads rt body_str with
  | inl e =>
      log (py "ERROR") (py "Invalid JSON")
        [(py "requestId", PStr short_reqId);
         (py "error", PStr (exc_str e))] ;;
      ret (_bad_request (py "Body is not valid JSON"))
  | inr payload => process_payload short_reqId body_str payload
  end.

(** The source's [lambda_handler]. *)
Definition lambda_handler (event : pydict) (context : LambdaContext)
  : Process -> Response * Process :=
  let short_reqId := _get_request_id rt context in
  try_except (handler_body event short_reqId)
    (fun e p =>
       if is_ValueError e then
         (_bad_request (exc_str e),
          _log (py "ERROR") (py "Bad request")
            [(py "requestId", PStr short_reqId);
             (py "error", PStr (exc_str e))] p)
       else
         (_server_error,
          _log (py "ERROR") (py "Unhandled error")
            [(py "requestId", PStr short_reqId);
             (py "error", PStr (exc_str e));
             (py "stack", PStr (format_exc rt e))] p)).

End Handler.

(* ------------------------------------------------------------------ *)
(** ** The storage step, seen from outside *)

(** The client [_get_s3_client] hands out in live mode: the cached one, or a
    fresh one when [boto3] is there and builds it. *)
Definition live_client (rt : Runtime) (cached : option S3Client)
  : option S3Client :=
  match cached with
  | Some client => Some client
  | None =>
      match boto3 rt with
      | Some (inr client) => Some client
      | _ => None
      end
  end.

Definition json_put (g : Globals) (key : pystr) (data : list byte) : PutObject :=
  {| Bucket := RAW_BUCKET_NAME g;
     Key := key;
     Body := data;
     ContentType := py "application/json" |}.

(** The put-object requests one invocation sends for [key] and [data]. *)
Definition sent (rt : Runtime) (g : Globals) (cached : option S3Client)
  (key : pystr) (data : list byte) : list PutObject :=
  if DRY_RUN g then []
  else
    match live_client rt cached with
    | Some _ => [json_put g key data]
    | None => []
    end.

(** The storage step goes through: dry-run, or a client is there and
    [put_object] returns. *)
Definition stored (rt : Runtime) (g : Globals) (cached : option S3Client)
  (key : pystr) (data : list byte) : bool :=
  DRY_RUN g ||
  match live_client rt cached with
  | Some _ =>
      match put_object rt (RAW_BUCKET_NAME g) key data (py "application/json") with
      | None => true
      | Some _ => false
      end
  | None => false
  end.

(** What one invocation comes to.  It is rejected as a client error, or it
    breaks before the storage step, or it reaches the storage step with the
    decoded body text and its bytes. *)
Inductive Outcome (rt : Runtime) (g : Globals) (event : pydict)
  (context : LambdaContext) (p : Process) (response : Response)
  (p' : Process) : Prop :=
| Rejected (msg : pystr) :
    response = _bad_request msg ->
    s3_requests p' = s3_requests p ->
    Outcome rt g event context p response p'
| Broken :
    response = _server_error ->
    s3_requests p' = s3_requests p ->
    Outcome rt g event context p response p'
| ReachedStorage (body_str key : pystr) (data : list byte) :
    _decode_body rt event = inr body_str ->
    utf8_bytes body_str = Some data ->
    response = (if stored rt g (S3 p) key data
                then _json_response 200
                       (success_body g key (Z.of_nat (List.length data)))
                else _server_error) ->
    s3_requests p' = s3_requests p ++ sent rt g (S3 p) key data ->
    Outcome rt g event context p response p'.

(* ------------------------------------------------------------------ *)
(** ** Words of the specification *)

Definition ascii_lower (c : Z) : Z :=
  if (65 <=? c) && (c <=? 90) then c + 32 else c.

(** A value that reads [1], [true] or [yes] when case is ignored. *)
Definition true_like (value : pystr) : bool :=
  existsb (pystr_eqb (map ascii_lower value)) [py "1"; py "true"; py "yes"].

(** [x == n] for a Python value and an integer, on exact values. *)
Definition py_eq_int (x : pyval) (n : Z) : bool :=
  match x with
  | PBool b => int_of_bool b =? n
  | PInt k => k =? n
  | PFloat (S754_zero _) => n =? 0
  | PFloat (S754_finite s m e) =>
      if 0 <=? e then signed s m * 2 ^ e =? n
      else signed s m =? n * 2 ^ (- e)
  | _ => false
  end.

(** A timestamp already in milliseconds that [math.isfinite] reads: an
    integer below [FLOAT_OVERFLOW], or a finite binary64. *)
Definition millisecond_value (ts : pyval) : Prop :=
  match ts with
  | PInt n => 10 ^ 12 <= n < FLOAT_OVERFLOW
  | PFloat f =>
      valid_binary prec emax f = true
      /\ float_isfinite f = true
      /\ float_ge_int f (10 ^ 12) = true
  | _ => False
  end.

(* ------------------------------------------------------------------ *)
(** ** Example invocations *)

Definition quoted (s : string) : pystr := dq ++ py s ++ dq.

(** The JSON text of an object with [appName] and [timestamp], the
    timestamp as it is written. *)
Definition document (app_name timestamp : string) : pystr :=
  py "{" ++ quoted "appName" ++ py ":" ++ quoted app_name ++ py ","
  ++ quoted "timestamp" ++ py ":" ++ py timestamp ++ py "}".

Definition parsed (app_name : string) (timestamp : pyval) : pyval :=
  PDict [(py "appName", PStr (py app_name)); (py "timestamp", timestamp)].

(** Some binary64 numbers: 1700000000.0, 1700000000000.5, 0.29, -1e306. *)
Definition float_1700000000 : spec_float :=
  S754_finite false 7130316800000000 (-22).
Definition float_1700000000000_5 : spec_float :=
  S754_finite false 6963200000002048 (-12).
Definition float_0_29 : spec_float :=
  S754_finite false 5224175567749775 (-54).
Definition float_minus_1e306 : spec_float :=
  S754_finite true 6413338752028713 964.

(** The demo document with one more field, whose text is the lone
    surrogate U+D800. *)
Definition surrogate_document : pystr :=
  py "{" ++ quoted "appName" ++ py ":" ++ quoted "demo" ++ py ","
  ++ quoted "timestamp" ++ py ":1700000000," ++ quoted "note" ++ py ":"
  ++ dq ++ [55296] ++ dq ++ py "}".

Definition parse_error : pyexc :=
  Exc ValueError
    (py "Expecting property name enclosed in double quotes: line 1 column 2 (char 1)").

(** What [json.loads] answers on the documents of the examples. *)
Definition example_documents : list (pystr * (pyexc + pyval)) :=
  [(document "demo" "1700000000", inr (parsed "demo" (PInt 1700000000)));
   (surrogate_document,
    inr (PDict [(py "appName", PStr (py "demo"));
                (py "timestamp", PInt 1700000000);
                (py "note", PStr [55296])]));
   (document "demo" "true", inr (parsed "demo" (PBool true)));
   (document "demo" "-1e306", inr (parsed "demo" (PFloat float_minus_1e306)));
   (document "   " "1700000000", inr (parsed "   " (PInt 1700000000)));
   (document "demo" "null", inr (parsed "demo" PNone));
   (py "[]", inr (PList []));
   (py "{not valid", inl parse_error)].

Fixpoint example_loads (documents : list (pystr * (pyexc + pyval)))
  (text : pystr) : pyexc + pyval :=
  match documents with
  | [] => inl (Exc ValueError (py "Expecting value: line 1 column 1 (char 0)"))
  | (known, answer) :: rest =>
      if pystr_eqb known text then answer else example_loads rest text
  end.

(** A runtime for the examples: [DRY_RUN] set as given and nothing else in
    the environment, [boto3] present, [put_object] answering as given, and
    the library calls that the examples do not reach failing. *)
Definition example_runtime (dry_run : option pystr) (put_result : option pyexc)
  : Runtime :=
  {| environ := fun name =>
       if pystr_eqb name (py "DRY_RUN") then dry_run else None;
     str_upper :=
       map (fun c => if (97 <=? c) && (c <=? 122) then c - 32 else c);
     json_loads := example_loads example_documents;
     json_dumps := fun _ =>
       inl (Exc TypeError (py "Object is not JSON serializable"));
     b64decode := fun _ => inl (Exc ValueError (py "Incorrect padding"));
     utf8_decode := fun _ => inl (Exc ValueError (py "invalid start byte"));
     encode_error_str := fun _ =>
       py "'utf-8' codec can't encode character '\ud800' in position 49: surrogates not allowed";
     boto3 := Some (inr BotoS3Client);
     put_object := fun _ _ _ _ => put_result;
     now_ms := 1700000000123;
     fromtimestamp_error := fun _ => Exc ValueError (py "year is out of range");
     format_exc := fun e => py "Traceback (most recent call last): " ++ exc_str e |}.

Definition access_denied : pyexc :=
  Exc OtherException
    (py "An error occurred (AccessDenied) when calling the PutObject operation").

(** Live mode with a store that takes the write, live mode with a store
    that refuses it, and dry-run. *)
Definition live_runtime : Runtime := example_runtime None None.
Definition failing_runtime : Runtime := example_runtime None (Some access_denied).
Definition dry_runtime : Runtime := example_runtime (Some (py "1")) None.

Definition example_event (body_text : pystr) : pydict :=
  [(py "isBase64Encoded", PBool false); (py "body", PStr body_text)].

Definition example_context : LambdaContext :=
  {| aws_request_id := PStr (py "12345678-aaaa-bbbb-cccc-1234ABCD1234") |}.

Definition fresh_process : Process :=
  {| S3 := None; stdout := []; s3_requests := [] |}.

(** Run the handler as the module configures itself in a runtime. *)
Definition invoke (rt : Runtime) (body_text : pystr) : Response * Process :=
  lambda_handler rt (module_globals rt) (example_event body_text)
    example_context fresh_process.

(* ------------------------------------------------------------------ *)
(** ** The rest of the calendar, and the local harness *)

(** The library's [_is_leap], [_days_before_year], [_days_in_month],
    [_days_before_month] and [_ymd2ord], the inverse of [_ord2ymd]. *)
Definition _is_leap (year : Z) : bool :=
  (year mod 4 =? 0) && (negb (year mod 100 =? 0) || (year mod 400 =? 0)).

Definition _days_before_year (year : Z) : Z :=
  let y := year - 1 in
  y * 365 + y / 4 - y / 100 + y / 400.

Definition _days_in_month (year month : Z) : Z :=
  if (month =? 2) && _is_leap year then 29 else table _DAYS_IN_MONTH month.

Definition _days_before_month (year month : Z) : Z :=
  table _DAYS_BEFORE_MONTH month + int_of_bool ((2 <? month) && _is_leap year).

Definition _ymd2ord (ymd : Z * Z * Z) : Z :=
  let '(year, month, day) := ymd in
  _days_before_year year + _days_before_month year month + day.

(** A date of the calendar: a month from 1 to 12 and a day that month has
    in that year. *)
Definition calendar_date (ymd : Z * Z * Z) : bool :=
  let '(year, month, day) := ymd in
  (1 <=? month) && (month <=? 12)
  && (1 <=? day) && (day <=? _days_in_month year month).

(** [f] holds on the [count] integers from [start] on. *)
Fixpoint holds_from (f : Z -> bool) (start : Z) (count : nat) : bool :=
  match count with
  | O => true
  | S k => f start && holds_from f (Z.succ start) k
  end.

(** The number that a text of decimal digits writes. *)
Definition decimal_value (s : pystr) : Z :=
  fold_left (fun n c => 10 * n + (c - 48)) s 0.

(** The days of one cycle of 400 years. *)
Definition DAYS_IN_400_YEARS : Z := 146097.

(** Printable ASCII, what a response body is made of. *)
Definition printable_ascii (c : Z) : bool := (32 <=? c) && (c <=? 126).

(** [os.environ.setdefault(name, value)], as the harness does before it
    imports the module. *)
Definition setdefault (rt : Runtime) (name value : pystr) : Runtime :=
  {| environ := fun key =>
       if pystr_eqb key name then
         match environ rt name with
         | Some old => Some old
         | None => Some value
         end
       else environ rt key;
     str_upper := str_upper rt;
     json_loads := json_loads rt;
     json_dumps := json_dumps rt;
     b64decode := b64decode rt;
     utf8_decode := utf8_decode rt;
     encode_error_str := encode_error_str rt;
     boto3 := boto3 rt;
     put_object := put_object rt;
     now_ms := now_ms rt;
     fromtimestamp_error := fromtimestamp_error rt;
     format_exc := format_exc rt |}.

(** [local_test.py]: its context class, its sample payload, and the run of
    its main block up to the response it prints. *)
Definition Ctx : LambdaContext :=
  {| aws_request_id := PStr (py "12345678-aaaa-bbbb-cccc-1234567890ab") |}.

Definition sample_payload : pyval :=
  PDict [(py "appName", PStr (py "zoo_landing_page"));
         (py "timestamp", PInt 1756276595877);
         (py "name", PStr (py "cta_click"))].

Definition local_test (rt : Runtime) : pyexc + Response * Process :=
  let rt' := setdefault rt (py "DRY_RUN") (py "1") in
  bindE (json_dumps rt' sample_payload) (fun text =>
  let sample_event :=
    [(py "isBase64Encoded", PBool false); (py "body", PStr text)] in
  inr (lambda_handler rt' (module_globals rt') sample_event Ctx
         {| S3 := None; stdout := []; s3_requests := [] |})).

(** A runtime for the examples whose library calls work where the examples
    need them: [b64decode] knows the base64 text of the demo document,
    [decode("utf-8")] reads bytes that are all ASCII, and [json] writes and
    reads the sample payload of the harness. *)
Definition demo_base64 : pystr :=
  py "eyJhcHBOYW1lIjoiZGVtbyIsInRpbWVzdGFtcCI6MTcwMDAwMDAwMH0=".

Definition ascii_decode (data : list byte) : pyexc + pystr :=
  if forallb (fun b => Z.of_N (Byte.to_N b) <? 128) data
  then inr (map (fun b => Z.of_N (Byte.to_N b)) data)
  else inl (Exc ValueError (py "'utf-8' codec can't decode bytes")).

(** What [json.dumps] writes for the sample payload of the harness. *)
Definition sample_text : pystr :=
  py "{" ++ quoted "appName" ++ py ": " ++ quoted "zoo_landing_page" ++ py ", "
  ++ quoted "timestamp" ++ py ": 1756276595877, "
  ++ quoted "name" ++ py ": " ++ quoted "cta_click" ++ py "}".

Definition is_sample_payload (v : pyval) : bool :=
  match v with
  | PDict [(k1, PStr a); (k2, PInt n); (k3, PStr b)] =>
      pystr_eqb k1 (py "appName") && pystr_eqb a (py "zoo_landing_page")
      && pystr_eqb k2 (py "timestamp") && (n =? 1756276595877)
      && pystr_eqb k3 (py "name") && pystr_eqb b (py "cta_click")
  | _ => false
  end.

Definition codec_runtime : Runtime :=
  {| environ := environ live_runtime;
     str_upper := str_upper live_runtime;
     json_loads :=
       example_loads
         ((sample_text, inr sample_payload)
          :: (document "demo" "1000000000000000000",
              inr (parsed "demo" (PInt (10 ^ 18))))
          :: example_documents);
     json_dumps := fun v =>
       if is_sample_payload v then inr sample_text
       else inl (Exc TypeError (py "Object is not JSON serializable"));
     b64decode := fun s =>
       if pystr_eqb s demo_base64
       then inr (map byte_of_Z (document "demo" "1700000000"))
       else inl (Exc ValueError (py "Incorrect padding"));
     utf8_decode := ascii_decode;
     encode_error_str := encode_error_str live_runtime;
     boto3 := boto3 live_runtime;
     put_object := put_object live_runtime;
     now_ms := now_ms live_runtime;
     fromtimestamp_error := fun _ =>
       Exc ValueError (py "year 31690708 is out of range");
     format_exc := format_exc live_runtime |}.

(** The first and the last millisecond that has a date: the start of year 1
    and the end of year 9999. *)
Definition MIN_TIMESTAMP_MS : Z := -62135596800000.
Definition MAX_TIMESTAMP_MS : Z := 253402300799999.

(** [p'] continues [p]: output and requests are only added to, and the
    cached client is only ever set, to what [boto3] built in live mode. *)
Definition continues (rt : Runtime) (g : Globals) (p p' : Process) : Prop :=
  (exists printed, stdout p' = stdout p ++ printed)
  /\ (exists requests, s3_requests p' = s3_requests p ++ requests)
  /\ (forall client, S3 p = Some client -> S3 p' = Some client)
  /\ (forall client, S3 p' = Some client ->
       S3 p = Some client
       \/ (DRY_RUN g = false /\ boto3 rt = Some (inr client))).

(** Every run of [m] ends in a process that continues the one it began in. *)
Definition keeps (rt : Runtime) (g : Globals) {A : Type} (m : M A) : Prop :=
  forall p, continues rt g p (snd (m p)).

(** The last thing printed between [p] and [p'] is an [ERROR] record. *)
Definition error_logged (p p' : Process) : Prop :=
  exists printed record,
    stdout p' = stdout p ++ printed ++ [record]
    /\ log_level record = py "ERROR".

(** Every response of [m] that is no 200 has an [ERROR] record printed
    last. *)
Definition reports (m : M Response) : Prop :=
  forall p response p',
    m p = (inr response, p') ->
    statusCode response <> 200 ->
    error_logged p p'.

(** Every 200 that [m] returns in live mode leaves a client cached. *)
Definition caches (g : Globals) (m : M Response) : Prop :=
  forall p response p',
    m p = (inr response, p') ->
    statusCode response = 200 ->
    DRY_RUN g = false ->
    exists client, S3 p' = Some client.

(** A runtime in which [boto3] is something else. *)
Definition with_boto3 (rt : Runtime) (module : option (pyexc + S3Client))
  : Runtime :=
  {| environ := environ rt;
     str_upper := str_upper rt;
     json_loads := json_loads rt;
     json_dumps := json_dumps rt;
     b64decode := b64decode rt;
     utf8_decode := utf8_decode rt;
     encode_error_str := encode_error_str rt;
     boto3 := module;
     put_object := put_object rt;
     now_ms := now_ms rt;
     fromtimestamp_error := fromtimestamp_error rt;
     format_exc := format_exc rt |}.

(** Two runs that go the same way: from related processes they give the
    same result and end in related processes. *)
Definition alike {A : Type} (R : Process -> Process -> Prop) (m1 m2 : M A)
  : Prop :=
  forall p1 p2,
    R p1 p2 ->
    fst (m1 p1) = fst (m2 p2) /\ R (snd (m1 p1)) (snd (m2 p2)).

(** Two processes with the same cached client and the same requests, in
    runtimes whose [boto3] is the same unless a client is cached. *)
Definition same_store (rt : Runtime) (module : option (pyexc + S3Client))
  (p1 p2 : Process) : Prop :=
  S3 p1 = S3 p2
  /\ s3_requests p1 = s3_requests p2
  /\ (boto3 rt = module \/ S3 p1 <> None).

(** Two processes that differ at most in what was printed. *)
Definition same_but_output (p1 p2 : Process) : Prop :=
  S3 p1 = S3 p2 /\ s3_requests p1 = s3_requests p2.

(* ================================================================== *)
(** * Properties *)

Arguments py : simpl never.
Arguments _log : simpl never.

Lemma pystr_eqb_eq a b : pystr_eqb a b = true <-> a = b.
Proof.
  unfold pystr_eqb. destruct (list_eq_dec Z.eq_dec a b); split; congruence.
Qed.

Lemma pystr_eqb_refl a : pystr_eqb a a = true.
Proof. now apply pystr_eqb_eq. Qed.

Section Facts.

Variable rt : Runtime.
Variable g : Globals.

Lemma log_S3 level message fields p :
  S3 (_log g level message fields p) = S3 p.
Proof. unfold _log. now destruct (_should_log g level). Qed.

Lemma log_s3_requests level message fields p :
  s3_requests (_log g level message fields p) = s3_requests p.
Proof. unfold _log. now destruct (_should_log g level). Qed.

(** An [ERROR] record is printed whatever [LOG_LEVEL] is. *)
Lemma should_log_ERROR : _should_log g (py "ERROR") = true.
Proof.
  unfold _should_log.
  replace (level_order (py "ERROR")) with 40 by (vm_compute; reflexivity).
  unfold level_order.
  repeat match goal with
         | |- context [pystr_eqb ?a ?b] => destruct (pystr_eqb a b)
         end; reflexivity.
Qed.

Lemma log_ERROR message fields p :
  stdout (_log g (py "ERROR") message fields p)
  = stdout p ++ [{| log_level := py "ERROR";
                    log_message := message;
                    log_fields := fields |}].
Proof. unfold _log. now rewrite should_log_ERROR. Qed.

(** The storage step never raises; it sends what [sent] says and returns
    from the handler exactly when the write did not go through. *)
Lemma store_run short_reqId app_name ts_ms key body_str data p :
  utf8_bytes body_str = Some data ->
  exists p',
    store rt g short_reqId app_name ts_ms key body_str
      (Z.of_nat (List.length data)) p
    = (inr (if stored rt g (S3 p) key data then None else Some _server_error),
       p')
    /\ s3_requests p' = s3_requests p ++ sent rt g (S3 p) key data.
Proof.
  intros Henc.
  unfold store, stored, sent, live_client.
  destruct (DRY_RUN g) eqn:Hdry; cbn [orb].
  - unfold bind, log, effect, ret. eexists. split; [reflexivity|].
    now rewrite log_s3_requests, app_nil_r.
  - unfold handled, try_except, upload, _get_s3_client, bind.
    rewrite Hdry.
    destruct (S3 p) as [client|] eqn:HS3.
    + unfold s3_put_object, bind, lift, encode_utf8, effect, raise, ret, log.
      rewrite Henc. cbn [S3 stdout s3_requests].
      destruct (put_object rt (RAW_BUCKET_NAME g) key data
                  (py "application/json")) as [e|];
        eexists; (split; [reflexivity|]);
        now rewrite log_s3_requests.
    + destruct (boto3 rt) as [[e|client]|].
      * eexists. split; [reflexivity|].
        now rewrite log_s3_requests, app_nil_r.
      * unfold s3_put_object, bind, lift, encode_utf8, effect, raise, ret, log.
        rewrite Henc. cbn [S3 stdout s3_requests].
        destruct (put_object rt (RAW_BUCKET_NAME g) key data
                    (py "application/json")) as [e|];
          eexists; (split; [reflexivity|]);
          rewrite !log_s3_requests; cbn [s3_requests];
          now rewrite ?log_s3_requests.
      * unfold bind, log, effect, raise. eexists. split; [reflexivity|].
        now rewrite !log_s3_requests, app_nil_r.
Qed.

(** The valid path of steps 3 to 7: the response is the success body when
    the storage step goes through and the server error when it does not. *)
Lemma process_payload_valid short_reqId body_str d app_name ts_ms
    yyyy mm dd data p :
  valid_app_name (dict_get d (py "appName") PNone) = Some app_name ->
  _normalize_timestamp_to_ms (dict_get d (py "timestamp") PNone) = inr ts_ms ->
  _derive_date_parts rt ts_ms = inr (yyyy, mm, dd) ->
  utf8_bytes body_str = Some data ->
  let key := storage_key app_name yyyy mm dd ts_ms short_reqId in
  exists p',
    process_payload rt g short_reqId body_str (PDict d) p
    = (inr (if stored rt g (S3 p) key data
            then _json_response 200
                   (success_body g key (Z.of_nat (List.length data)))
            else _server_error), p')
    /\ s3_requests p' = s3_requests p ++ sent rt g (S3 p) key data.
Proof.
  intros Happ Hts Hdate Henc key.
  unfold process_payload, py_get, first_keys, bind, lift, log, effect, ret.
  rewrite Happ, Hts, Hdate.
  unfold encode_utf8. rewrite Henc.
  match goal with
  | |- context [store rt g ?a ?b ?c ?k ?t ?n ?q] =>
      destruct (store_run a b c k t data q Henc) as (p' & Hrun & Hreq)
  end.
  fold key in Hrun, Hreq |- *. rewrite Hrun.
  rewrite !log_S3 in *. rewrite !log_s3_requests in Hreq.
  exists p'. split; [|exact Hreq].
  now destruct (stored rt g (S3 p) key data).
Qed.

(** The same for the whole handler. *)
Lemma lambda_handler_valid event context body_str d app_name ts_ms
    yyyy mm dd data p :
  _decode_body rt event = inr body_str ->
  json_loads rt body_str = inr (PDict d) ->
  valid_app_name (dict_get d (py "appName") PNone) = Some app_name ->
  _normalize_timestamp_to_ms (dict_get d (py "timestamp") PNone) = inr ts_ms ->
  _derive_date_parts rt ts_ms = inr (yyyy, mm, dd) ->
  utf8_bytes body_str = Some data ->
  let key :=
    storage_key app_name yyyy mm dd ts_ms (_get_request_id rt context) in
  fst (lambda_handler rt g event context p)
  = (if stored rt g (S3 p) key data
     then _json_response 200 (success_body g key (Z.of_nat (List.length data)))
     else _server_error)
  /\ s3_requests (snd (lambda_handler rt g event context p))
     = s3_requests p ++ sent rt g (S3 p) key data.
Proof.
  intros Hbody Hjson Happ Hts Hdate Henc key.
  unfold lambda_handler, try_except, handler_body, bind, lift, log, effect.
  rewrite Hbody, Hjson.
  match goal with
  | |- context [process_payload rt g ?a ?b ?c ?q] =>
      destruct (process_payload_valid a _ _ _ _ _ _ _ _ q Happ Hts Hdate Henc)
        as (p' & Hrun & Hreq)
  end.
  fold key in Hrun, Hreq. rewrite Hrun. cbn [fst snd].
  rewrite log_S3 in *. rewrite log_s3_requests in Hreq.
  now split.
Qed.

(** What the outer [except] clauses make of an exception raised before the
    storage step. *)
Lemma outer_except event context p short_reqId e p1 :
  s3_requests p1 = s3_requests p ->
  Outcome rt g event context p
    (fst (if is_ValueError e
          then (_bad_request (exc_str e),
                _log g (py "ERROR") (py "Bad request")
                  [(py "requestId", PStr short_reqId);
                   (py "error", PStr (exc_str e))] p1)
          else (_server_error,
                _log g (py "ERROR") (py "Unhandled error")
                  [(py "requestId", PStr short_reqId);
                   (py "error", PStr (exc_str e));
                   (py "stack", PStr (format_exc rt e))] p1)))
    (snd (if is_ValueError e
          then (_bad_request (exc_str e),
                _log g (py "ERROR") (py "Bad request")
                  [(py "requestId", PStr short_reqId);
                   (py "error", PStr (exc_str e))] p1)
          else (_server_error,
                _log g (py "ERROR") (py "Unhandled error")
                  [(py "requestId", PStr short_reqId);
                   (py "error", PStr (exc_str e));
                   (py "stack", PStr (format_exc rt e))] p1))).
Proof.
  intros Hreq. destruct (is_ValueError e); cbn [fst snd].
  - eapply Rejected; [reflexivity|]. now rewrite log_s3_requests.
  - eapply Broken; [reflexivity|]. now rewrite log_s3_requests.
Qed.

(** Every invocation comes to one of the three outcomes. *)
Lemma lambda_handler_outcome event context p :
  Outcome rt g event context p
    (fst (lambda_handler rt g event context p))
    (snd (lambda_handler rt g event context p)).
Proof.
  unfold lambda_handler, try_except, handler_body, bind, lift, log, effect.
  destruct (_decode_body rt event) as [e|body_str] eqn:Hbody.
  { now apply outer_except. }
  destruct (json_loads rt body_str) as [e|payload] eqn:Hjson.
  { cbn [fst snd ret]. eapply Rejected; [reflexivity|].
    now rewrite !log_s3_requests. }
  unfold process_payload, bind, lift, log, effect, ret.
  destruct payload as [ | b | n | f | s | b | l | d ];
    try (cbn [py_get]; apply outer_except; now rewrite log_s3_requests).
  cbn [py_get first_keys].
  destruct (valid_app_name (dict_get d (py "appName") PNone))
    as [app_name|] eqn:Happ.
  2:{ cbn [fst snd]. eapply Rejected; [reflexivity|].
      now rewrite !log_s3_requests. }
  destruct (_normalize_timestamp_to_ms (dict_get d (py "timestamp") PNone))
    as [e|ts_ms] eqn:Hts.
  { destruct (is_ValueError e) eqn:Hve.
    - cbn [fst snd]. eapply Rejected; [reflexivity|].
      now rewrite !log_s3_requests.
    - unfold raise. rewrite Hve. cbn [fst snd].
      eapply Broken; [reflexivity|]. now rewrite !log_s3_requests. }
  destruct (_derive_date_parts rt ts_ms) as [e|[[yyyy mm] dd]] eqn:Hdate.
  { apply outer_except. now rewrite !log_s3_requests. }
  unfold encode_utf8.
  destruct (utf8_bytes body_str) as [data|] eqn:Henc.
  2:{ apply outer_except. now rewrite !log_s3_requests. }
  match goal with
  | |- context [store rt g ?a ?b ?c ?k ?t ?n ?q] =>
      destruct (store_run a b c k t data q Henc) as (p' & Hrun & Hreq);
      rewrite Hrun; set (key := k) in *
  end.
  rewrite !log_S3 in *. rewrite !log_s3_requests in Hreq.
  eapply ReachedStorage with (key := key); [exact Hbody|exact Henc| |].
  - now destruct (stored rt g (S3 p) key data).
  - now destruct (stored rt g (S3 p) key data).
Qed.

End Facts.

(* ------------------------------------------------------------------ *)
(** ** Timestamp normalization *)

(** The overflow bound of [float_of_int] is where the rounding of binary64
    leaves the finite numbers. *)
Lemma FLOAT_OVERFLOW_is_the_bound :
  binary_normalize prec emax FLOAT_OVERFLOW 0 false = S754_infinity false
  /\ float_isfinite (binary_normalize prec emax (FLOAT_OVERFLOW - 1) 0 false)
     = true.
Proof. split; vm_compute; reflexivity. Qed.

Lemma float_of_int_small n :
  Z.abs n < FLOAT_OVERFLOW ->
  float_of_int n = inr (binary_normalize prec emax n 0 false).
Proof.
  intros H. unfold float_of_int.
  destruct (FLOAT_OVERFLOW <=? Z.abs n) eqn:E; [|reflexivity].
  apply Z.leb_le in E. lia.
Qed.

Lemma float_of_int_large n :
  FLOAT_OVERFLOW <= Z.abs n ->
  float_of_int n
  = inl (Exc OverflowError (py "int too large to convert to float")).
Proof.
  intros H. unfold float_of_int.
  destruct (FLOAT_OVERFLOW <=? Z.abs n) eqn:E; [reflexivity|].
  apply Z.leb_gt in E. lia.
Qed.

(** On an integer that [math.isfinite] reads, the result is the integer
    itself from [10^12] on and a thousand times it below. *)
Lemma normalize_int n :
  Z.abs n < FLOAT_OVERFLOW ->
  _normalize_timestamp_to_ms (PInt n)
  = inr (if 10 ^ 12 <=? n then n else n * 1000).
Proof.
  intros H. unfold _normalize_timestamp_to_ms.
  cbn [isinstance_int_float negb math_isfinite].
  rewrite (float_of_int_small n H).
  cbn [bindE negb py_ge_int].
  now destruct (10 ^ 12 <=? n).
Qed.

(** On a finite float, the result is the truncation of the float itself
    from [10^12] on and of its binary64 product with 1000.0 below. *)
Lemma normalize_float f :
  float_isfinite f = true ->
  _normalize_timestamp_to_ms (PFloat f)
  = int_of_float
      (if float_ge_int f (10 ^ 12) then f
       else SFmul prec emax f (binary_normalize prec emax 1000 0 false)).
Proof.
  intros H. unfold _normalize_timestamp_to_ms.
  cbn [isinstance_int_float negb math_isfinite bindE py_ge_int].
  rewrite H. cbn [negb].
  destruct (float_ge_int f (10 ^ 12)); [reflexivity|].
  unfold py_mul_int.
  rewrite float_of_int_small by (vm_compute; reflexivity).
  reflexivity.
Qed.

(** A value that is no number, and a float that is not finite, are refused
    with the client error of the timestamp. *)
Lemma normalize_invalid ts :
  match ts with
  | PBool _ | PInt _ => False
  | PFloat f => float_isfinite f = false
  | _ => True
  end ->
  _normalize_timestamp_to_ms ts
  = inl (Exc ValueError (py "Missing or invalid timestamp")).
Proof.
  destruct ts; cbn; try tauto; intros H; try reflexivity.
  unfold _normalize_timestamp_to_ms.
  cbn [isinstance_int_float negb math_isfinite bindE].
  now rewrite H.
Qed.

(** Seconds become milliseconds, milliseconds stay, and the product of a
    float with 1000.0 is rounded before it is truncated: 0.29 gives 290. *)
Example normalize_seconds :
  _normalize_timestamp_to_ms (PInt 1700000000) = inr 1700000000000.
Proof. vm_compute. reflexivity. Qed.

Example normalize_milliseconds :
  _normalize_timestamp_to_ms (PInt 1756276595877) = inr 1756276595877.
Proof. vm_compute. reflexivity. Qed.

Example normalize_negative_seconds :
  _normalize_timestamp_to_ms (PInt (-5)) = inr (-5000).
Proof. vm_compute. reflexivity. Qed.

Example normalize_float_seconds :
  _normalize_timestamp_to_ms (PFloat float_1700000000) = inr 1700000000000.
Proof. vm_compute. reflexivity. Qed.

Example normalize_rounded_product :
  _normalize_timestamp_to_ms (PFloat float_0_29) = inr 290.
Proof. vm_compute. reflexivity. Qed.

Example normalize_infinity :
  _normalize_timestamp_to_ms (PFloat (S754_infinity false))
  = inl (Exc ValueError (py "Missing or invalid timestamp")).
Proof. vm_compute. reflexivity. Qed.

Example normalize_text :
  _normalize_timestamp_to_ms (PStr (py "1700000000"))
  = inl (Exc ValueError (py "Missing or invalid timestamp")).
Proof. vm_compute. reflexivity. Qed.

Lemma digits2_pos_bound m : Z.pos m < 2 ^ Z.pos (digits2_pos m).
Proof.
  induction m as [m IH|m IH|]; cbn [digits2_pos].
  - rewrite Pos2Z.inj_succ, Z.pow_succ_r by lia. lia.
  - rewrite Pos2Z.inj_succ, Z.pow_succ_r by lia. lia.
  - reflexivity.
Qed.

(** A binary64 has a mantissa under [2^53] and an exponent of at most 971. *)
Lemma valid_binary_bounds s m e :
  valid_binary prec emax (S754_finite s m e) = true ->
  Z.pos m < 2 ^ 53 /\ e <= 971.
Proof.
  cbn [valid_binary]. unfold bounded, canonical_mantissa, fexp, emin, prec, emax.
  intros H. apply andb_true_iff in H. destruct H as [Hc He].
  apply Z.eqb_eq in Hc. apply Z.leb_le in He.
  split; [|lia].
  assert (Hd : Z.pos (digits2_pos m) <= 53) by lia.
  eapply Z.lt_le_trans; [apply digits2_pos_bound|].
  apply Z.pow_le_mono_r; lia.
Qed.

(** The truncation of a binary64 that is at least [10^12] is an integer of
    that size which [math.isfinite] reads. *)
Lemma int_of_float_ms f :
  valid_binary prec emax f = true ->
  float_isfinite f = true ->
  float_ge_int f (10 ^ 12) = true ->
  exists z, int_of_float f = inr z /\ 10 ^ 12 <= z < FLOAT_OVERFLOW.
Proof.
  intros Hv Hfin Hge.
  destruct f as [s|s| |s m e]; try (cbn in Hfin; discriminate Hfin).
  - vm_compute in Hge. discriminate Hge.
  - destruct (valid_binary_bounds s m e Hv) as [Hm He].
    cbn [float_ge_int int_of_float] in *.
    assert (Hbig : 2 ^ 53 < FLOAT_OVERFLOW) by (vm_compute; reflexivity).
    destruct (0 <=? e) eqn:E.
    + apply Z.leb_le in E, Hge. eexists. split; [reflexivity|].
      split; [exact Hge|].
      assert (Hp : 0 < 2 ^ e) by (apply Z.pow_pos_nonneg; lia).
      destruct s; cbn [signed] in *; [lia|].
      assert (Hpe : 2 ^ e <= 2 ^ 971) by (apply Z.pow_le_mono_r; lia).
      assert (Hmul : Z.pos m * 2 ^ e <= (2 ^ 53 - 1) * 2 ^ 971).
      { apply Z.mul_le_mono_nonneg; lia. }
      assert (Htop : (2 ^ 53 - 1) * 2 ^ 971 < FLOAT_OVERFLOW)
        by (vm_compute; reflexivity).
      lia.
    + apply Z.leb_gt in E. apply Z.leb_le in Hge.
      assert (Hp : 0 < 2 ^ (- e)) by (apply Z.pow_pos_nonneg; lia).
      destruct s; cbn [signed] in *; [lia|].
      eexists. split; [reflexivity|].
      rewrite Z.quot_div_nonneg by lia.
      split.
      * apply Z.div_le_lower_bound; lia.
      * assert (Z.pos m / 2 ^ (- e) <= Z.pos m).
        { apply Z.div_le_upper_bound; [lia|]. nia. }
        lia.
Qed.

(** C9 (amended). For every timestamp already in milliseconds that
    [math.isfinite] reads (an integer from [10^12] up to the float overflow
    bound, or a finite binary64 of at least [10^12]), normalization returns
    [int(ts)], the truncation of [ts] toward zero: [ts] itself when [ts] is
    an integer.  Normalizing that result again returns it unchanged. *)
Theorem C9_millisecond_values_truncate ts :
  millisecond_value ts ->
  exists z,
    _normalize_timestamp_to_ms ts = inr z
    /\ py_int ts = inr z
    /\ (forall n, ts = PInt n -> z = n)
    /\ _normalize_timestamp_to_ms (PInt z) = inr z.
Proof.
  destruct ts as [ | b | n | f | s | b | l | d ]; cbn [millisecond_value];
    try contradiction.
  - intros [Hlo Hhi]. exists n.
    assert (Habs : Z.abs n < FLOAT_OVERFLOW) by lia.
    assert (Hn : _normalize_timestamp_to_ms (PInt n) = inr n).
    { rewrite (normalize_int n Habs).
      now replace (10 ^ 12 <=? n) with true by (symmetry; now apply Z.leb_le). }
    repeat split; [exact Hn| |exact Hn]. intros k Hk. now inversion Hk.
  - intros (Hv & Hfin & Hge).
    destruct (int_of_float_ms f Hv Hfin Hge) as (z & Hz & Hlo & Hhi).
    exists z. rewrite (normalize_float f Hfin), Hge.
    repeat split; [exact Hz|exact Hz|discriminate|].
    assert (Habs : Z.abs z < FLOAT_OVERFLOW) by lia.
    rewrite (normalize_int z Habs).
    now replace (10 ^ 12 <=? z) with true by (symmetry; now apply Z.leb_le).
Qed.

(** Witness of C9: 1700000000000.5 comes out as 1700000000000, and that
    comes out as itself. *)
Lemma C9_witness :
  exists z,
    _normalize_timestamp_to_ms (PFloat float_1700000000000_5) = inr z
    /\ py_int (PFloat float_1700000000000_5) = inr z
    /\ (forall n, PFloat float_1700000000000_5 = PInt n -> z = n)
    /\ _normalize_timestamp_to_ms (PInt z) = inr z.
Proof.
  apply (C9_millisecond_values_truncate (PFloat float_1700000000000_5)).
  cbn [millisecond_value]. repeat split; vm_compute; reflexivity.
Defined.

(** Counterexample to C9 as stated: the finite float 1700000000000.5 is at
    least [10^12], and normalization returns 1700000000000, which is not the
    value it was given. *)
Lemma C9_counterexample :
  valid_binary prec emax float_1700000000000_5 = true
  /\ float_isfinite float_1700000000000_5 = true
  /\ float_ge_int float_1700000000000_5 (10 ^ 12) = true
  /\ _normalize_timestamp_to_ms (PFloat float_1700000000000_5)
     = inr 1700000000000
  /\ py_eq_int (PFloat float_1700000000000_5) 1700000000000 = false.
Proof. repeat split; vm_compute; reflexivity. Qed.

(** C2 (failing inputs). The float -1e306 is finite and below [10^12]; its
    binary64 product with 1000.0 is minus infinity, so [int] raises
    [OverflowError] where the claim has normalization return an integer,
    and the handler answers 500.  The integer [10^400] is past what
    [math.isfinite] can read and raises [OverflowError] there. *)
Theorem C2_finite_timestamp_overflows :
  valid_binary prec emax float_minus_1e306 = true
  /\ float_isfinite float_minus_1e306 = true
  /\ float_ge_int float_minus_1e306 (10 ^ 12) = false
  /\ SFmul prec emax float_minus_1e306 (binary_normalize prec emax 1000 0 false)
     = S754_infinity true
  /\ _normalize_timestamp_to_ms (PFloat float_minus_1e306)
     = inl (Exc OverflowError (py "cannot convert float infinity to integer"))
  /\ _normalize_timestamp_to_ms (PInt (10 ^ 400))
     = inl (Exc OverflowError (py "int too large to convert to float"))
  /\ json_loads live_runtime (document "demo" "-1e306")
     = inr (parsed "demo" (PFloat float_minus_1e306))
  /\ fst (invoke live_runtime (document "demo" "-1e306")) = _server_error.
Proof. repeat split; vm_compute; reflexivity. Qed.

(* ------------------------------------------------------------------ *)
(** ** The handler on its paths *)

Lemma strip_blank s : forallb py_isspace s = true -> strip s = [].
Proof.
  intros H. unfold strip.
  assert (Hl : lstrip s = []).
  { induction s as [|c s IH]; [reflexivity|].
    cbn in H |- *. apply andb_true_iff in H. destruct H as [Hc Hs].
    rewrite Hc. now apply IH. }
  now rewrite Hl.
Qed.

(** The [appName] test fails on what is no text and on text that is empty
    or all whitespace. *)
Lemma valid_app_name_None v :
  match v with
  | PStr s => forallb py_isspace s = true
  | _ => True
  end ->
  valid_app_name v = None.
Proof.
  destruct v; try reflexivity. intros H.
  cbn [valid_app_name]. now rewrite (strip_blank s H).
Qed.

Section Paths.

Variable rt : Runtime.
Variable g : Globals.

(** A payload that is an object whose [appName] fails the test is refused
    before anything is sent. *)
Lemma invalid_app_name_rejected event context p body_str d :
  _decode_body rt event = inr body_str ->
  json_loads rt body_str = inr (PDict d) ->
  valid_app_name (dict_get d (py "appName") PNone) = None ->
  fst (lambda_handler rt g event context p)
  = _bad_request (py "Missing or invalid appName")
  /\ s3_requests (snd (lambda_handler rt g event context p)) = s3_requests p.
Proof.
  intros Hbody Hjson Happ.
  unfold lambda_handler, try_except, handler_body, process_payload,
    bind, lift, log, effect, ret.
  rewrite Hbody, Hjson. cbn [py_get]. rewrite Happ. cbn [fst snd].
  split; [reflexivity|]. now rewrite !log_s3_requests.
Qed.

(** An object whose [appName] is missing, is no text, or is empty or all
    whitespace gets the 400 of the name, and nothing is sent. *)
Lemma object_without_app_name_is_400 event context p body_str d :
  _decode_body rt event = inr body_str ->
  json_loads rt body_str = inr (PDict d) ->
  match dict_get d (py "appName") PNone with
  | PStr s => forallb py_isspace s = true
  | _ => True
  end ->
  fst (lambda_handler rt g event context p)
  = _bad_request (py "Missing or invalid appName")
  /\ s3_requests (snd (lambda_handler rt g event context p)) = s3_requests p.
Proof.
  intros Hbody Hjson Happ.
  apply (invalid_app_name_rejected event context p body_str d Hbody Hjson).
  now apply valid_app_name_None.
Qed.

(** A timestamp that normalization refuses with a [ValueError] is answered
    with that error's text, before anything is sent. *)
Lemma invalid_timestamp_rejected event context p body_str d app_name msg :
  _decode_body rt event = inr body_str ->
  json_loads rt body_str = inr (PDict d) ->
  valid_app_name (dict_get d (py "appName") PNone) = Some app_name ->
  _normalize_timestamp_to_ms (dict_get d (py "timestamp") PNone)
  = inl (Exc ValueError msg) ->
  fst (lambda_handler rt g event context p) = _bad_request msg
  /\ s3_requests (snd (lambda_handler rt g event context p)) = s3_requests p.
Proof.
  intros Hbody Hjson Happ Hts.
  unfold lambda_handler, try_except, handler_body, process_payload,
    bind, lift, log, effect, ret.
  rewrite Hbody, Hjson. cbn [py_get]. rewrite Happ, Hts.
  cbn [is_ValueError exc_class_of exc_str fst snd].
  split; [reflexivity|]. now rewrite !log_s3_requests.
Qed.

(** A timestamp that is missing, is no number, or is a float that is not
    finite gets the 400 of the timestamp. *)
Lemma non_number_timestamp_is_400 event context p body_str d app_name :
  _decode_body rt event = inr body_str ->
  json_loads rt body_str = inr (PDict d) ->
  valid_app_name (dict_get d (py "appName") PNone) = Some app_name ->
  match dict_get d (py "timestamp") PNone with
  | PBool _ | PInt _ => False
  | PFloat f => float_isfinite f = false
  | _ => True
  end ->
  fst (lambda_handler rt g event context p)
  = _bad_request (py "Missing or invalid timestamp")
  /\ s3_requests (snd (lambda_handler rt g event context p)) = s3_requests p.
Proof.
  intros Hbody Hjson Happ Hts.
  apply (invalid_timestamp_rejected event context p body_str d app_name
           (py "Missing or invalid timestamp") Hbody Hjson Happ).
  now apply normalize_invalid.
Qed.

(** In dry-run nothing is sent, whatever the invocation. *)
Lemma dry_run_sends_nothing event context p :
  DRY_RUN g = true ->
  s3_requests (snd (lambda_handler rt g event context p)) = s3_requests p.
Proof.
  intros Hdry.
  destruct (lambda_handler_outcome rt g event context p)
    as [msg _ H | _ H | body_str key data _ _ _ H]; try exact H.
  rewrite H. unfold sent. rewrite Hdry. apply app_nil_r.
Qed.

End Paths.

(** A name of three spaces, and a [null] timestamp, on the live runtime. *)
Example blank_app_name_is_400 :
  fst (invoke live_runtime (document "   " "1700000000"))
  = _bad_request (py "Missing or invalid appName")
  /\ s3_requests (snd (invoke live_runtime (document "   " "1700000000"))) = [].
Proof. split; vm_compute; reflexivity. Qed.

Example null_timestamp_is_400 :
  fst (invoke live_runtime (document "demo" "null"))
  = _bad_request (py "Missing or invalid timestamp")
  /\ s3_requests (snd (invoke live_runtime (document "demo" "null"))) = [].
Proof. split; vm_compute; reflexivity. Qed.

(* ------------------------------------------------------------------ *)
(** ** The claims on the handler *)

Lemma request_id_tail rt context reqId :
  aws_request_id context = PStr reqId ->
  (8 <= List.length reqId)%nat ->
  _get_request_id rt context = last_chars 8 reqId.
Proof.
  intros Hid Hlen. unfold _get_request_id. rewrite Hid.
  now replace (8 <=? List.length reqId)%nat with true
    by (symmetry; now apply Nat.leb_le).
Qed.

(** C1 (amended). For every invocation whose decoded body is text that UTF-8
    can encode and parses to a JSON object with [appName] "demo" and
    [timestamp] 1700000000 (the integer, or the float 1700000000.0), and
    whose context gives a request identifier of at least 8 characters ending
    in "ABCD1234", the handler builds the storage key
    "demo/2023/11/14/1700000000000-ABCD1234.json": it is the key of the
    put-object request a live run sends and of the response.  The response
    is the 200 whose body carries ok:true, the configured bucket, that key
    and the UTF-8 byte length of the body when the storage step goes through
    (dry-run, or a client is there and put-object returns), and the 500
    server error when the live write fails. *)
Theorem C1_demo_key_and_response rt g event context p body_str d reqId data :
  _decode_body rt event = inr body_str ->
  utf8_bytes body_str = Some data ->
  json_loads rt body_str = inr (PDict d) ->
  dict_get d (py "appName") PNone = PStr (py "demo") ->
  dict_get d (py "timestamp") PNone = PInt 1700000000
  \/ dict_get d (py "timestamp") PNone = PFloat float_1700000000 ->
  aws_request_id context = PStr reqId ->
  (8 <= List.length reqId)%nat ->
  last_chars 8 reqId = py "ABCD1234" ->
  let key := py "demo/2023/11/14/1700000000000-ABCD1234.json" in
  fst (lambda_handler rt g event context p)
  = (if stored rt g (S3 p) key data
     then _json_response 200 (success_body g key (Z.of_nat (List.length data)))
     else _server_error)
  /\ s3_requests (snd (lambda_handler rt g event context p))
     = s3_requests p ++ sent rt g (S3 p) key data.
Proof.
  intros Hbody Henc Hjson Happ Hts Hid Hlen Htail key.
  assert (Hnorm : _normalize_timestamp_to_ms (dict_get d (py "timestamp") PNone)
                  = inr 1700000000000).
  { destruct Hts as [-> | ->]; vm_compute; reflexivity. }
  assert (Hname : valid_app_name (dict_get d (py "appName") PNone)
                  = Some (py "demo")).
  { rewrite Happ. vm_compute. reflexivity. }
  assert (Hdate : _derive_date_parts rt 1700000000000
                  = inr (py "2023", py "11", py "14")).
  { vm_compute. reflexivity. }
  pose proof (lambda_handler_valid rt g event context _ _ _ _ _ _ _ _ p
                Hbody Hjson Hname Hnorm Hdate Henc) as H.
  rewrite (request_id_tail rt context reqId Hid Hlen), Htail in H.
  replace (storage_key (py "demo") (py "2023") (py "11") (py "14")
             1700000000000 (py "ABCD1234"))
    with key in H by (vm_compute; reflexivity).
  exact H.
Qed.

(** Witness of C1: a live run on the demo document with a store that takes
    the write. *)
Lemma C1_witness :
  fst (invoke live_runtime (document "demo" "1700000000"))
  = _json_response 200
      [(py "ok", JBool true);
       (py "bucket", JStr (py "zoolanding-data-raw"));
       (py "key", JStr (py "demo/2023/11/14/1700000000000-ABCD1234.json"));
       (py "size", JInt 41)]
  /\ s3_requests (snd (invoke live_runtime (document "demo" "1700000000")))
     = [{| Bucket := py "zoolanding-data-raw";
           Key := py "demo/2023/11/14/1700000000000-ABCD1234.json";
           Body := map byte_of_Z (document "demo" "1700000000");
           ContentType := py "application/json" |}].
Proof.
  destruct (C1_demo_key_and_response live_runtime (module_globals live_runtime)
              (example_event (document "demo" "1700000000")) example_context
              fresh_process (document "demo" "1700000000")
              [(py "appName", PStr (py "demo")); (py "timestamp", PInt 1700000000)]
              (py "12345678-aaaa-bbbb-cccc-1234ABCD1234")
              (map byte_of_Z (document "demo" "1700000000")))
    as [Hresponse Hsent];
    try (vm_compute; reflexivity).
  - left. vm_compute. reflexivity.
  - vm_compute. lia.
  - split.
    + unfold invoke. rewrite Hresponse. vm_compute. reflexivity.
    + unfold invoke. rewrite Hsent. vm_compute. reflexivity.
Defined.

(** Counterexample to C1 as stated: the demo document and a request
    identifier ending in "ABCD1234", in live mode with a store that refuses
    the write; the response is the 500 server error, not a 200.  And in
    dry-run, the demo document with a field holding a lone surrogate: it
    parses to an object with the same [appName] and [timestamp], its text
    has no UTF-8 encoding, and the response is a 400. *)
Lemma C1_counterexample :
  _decode_body failing_runtime (example_event (document "demo" "1700000000"))
  = inr (document "demo" "1700000000")
  /\ json_loads failing_runtime (document "demo" "1700000000")
     = inr (parsed "demo" (PInt 1700000000))
  /\ last_chars 8 (py "12345678-aaaa-bbbb-cccc-1234ABCD1234") = py "ABCD1234"
  /\ fst (invoke failing_runtime (document "demo" "1700000000")) = _server_error
  /\ statusCode (fst (invoke failing_runtime (document "demo" "1700000000")))
     = 500
  /\ (exists d,
        json_loads dry_runtime surrogate_document = inr (PDict d)
        /\ dict_get d (py "appName") PNone = PStr (py "demo")
        /\ dict_get d (py "timestamp") PNone = PInt 1700000000)
  /\ utf8_bytes surrogate_document = None
  /\ statusCode (fst (invoke dry_runtime surrogate_document)) = 400.
Proof.
  repeat split; try (vm_compute; reflexivity).
  eexists. repeat split; vm_compute; reflexivity.
Qed.

(** Writes out the text of a success body, field by field. *)
Ltac success_body_text bucket key size_bytes :=
  unfold _json_response, json_dumps_compact;
  cbn [body app map join fst snd json_scalar];
  generalize (json_string bucket), (json_string key), (str_of_int size_bytes);
  intros;
  rewrite <- ?app_assoc; reflexivity.

(** C3. Whatever the invocation, every put-object request it sends carries
    exactly the UTF-8 bytes of the decoded body text, and a 200 response
    reports as [size] the number of those same bytes: its payload is
    ok, bucket, key and [size] with that number (and dryRun in dry-run),
    and its body text holds the field ["size":n] accordingly. *)
Theorem C3_stored_bytes_and_size rt g event context p :
  exists new,
    s3_requests (snd (lambda_handler rt g event context p))
    = s3_requests p ++ new
    /\ (forall request, In request new ->
        exists body_str,
          _decode_body rt event = inr body_str
          /\ utf8_bytes body_str = Some (Body request))
    /\ (statusCode (fst (lambda_handler rt g event context p)) = 200 ->
        exists body_str data key,
          _decode_body rt event = inr body_str
          /\ utf8_bytes body_str = Some data
          /\ fst (lambda_handler rt g event context p)
             = _json_response 200
                 ([(py "ok", JBool true);
                   (py "bucket", JStr (RAW_BUCKET_NAME g));
                   (py "key", JStr key);
                   (py "size", JInt (Z.of_nat (List.length data)))]
                  ++ (if DRY_RUN g then [(py "dryRun", JBool true)] else []))
          /\ body (fst (lambda_handler rt g event context p))
             = py "{" ++ quoted "ok" ++ py ":true," ++ quoted "bucket"
               ++ py ":" ++ json_string (RAW_BUCKET_NAME g) ++ py ","
               ++ quoted "key" ++ py ":" ++ json_string key ++ py ","
               ++ quoted "size" ++ py ":"
               ++ str_of_int (Z.of_nat (List.length data))
               ++ (if DRY_RUN g
                   then py "," ++ quoted "dryRun" ++ py ":true" else [])
               ++ py "}").
Proof.
  destruct (lambda_handler_outcome rt g event context p)
    as [msg Hr Hs | Hr Hs | body_str key data Hbody Henc Hr Hs].
  - exists []. rewrite app_nil_r. split; [exact Hs|].
    split; [intros request []|]. rewrite Hr. cbn. discriminate.
  - exists []. rewrite app_nil_r. split; [exact Hs|].
    split; [intros request []|]. rewrite Hr. cbn. discriminate.
  - exists (sent rt g (S3 p) key data). split; [exact Hs|]. split.
    + intros request Hin. exists body_str. split; [exact Hbody|].
      unfold sent in Hin.
      destruct (DRY_RUN g); [destruct Hin|].
      destruct (live_client rt (S3 p)); [|destruct Hin].
      destruct Hin as [<- | []]. exact Henc.
    + intros Hstatus. exists body_str, data, key.
      split; [exact Hbody|]. split; [exact Henc|].
      rewrite Hr in Hstatus |- *.
      destruct (stored rt g (S3 p) key data).
      * split; [reflexivity|]. unfold success_body.
        destruct (DRY_RUN g);
          success_body_text (RAW_BUCKET_NAME g) key
            (Z.of_nat (List.length data)).
      * cbn in Hstatus. discriminate Hstatus.
Qed.

(** Witness of C3: the live run on the demo document, which is 41 bytes
    long, answers 200 with ["size":41] and sends one request, whose bytes
    are those of the decoded document. *)
Lemma C3_witness :
  statusCode (fst (invoke live_runtime (document "demo" "1700000000"))) = 200
  /\ body (fst (invoke live_runtime (document "demo" "1700000000")))
     = py "{" ++ quoted "ok" ++ py ":true," ++ quoted "bucket" ++ py ":"
       ++ quoted "zoolanding-data-raw" ++ py "," ++ quoted "key" ++ py ":"
       ++ quoted "demo/2023/11/14/1700000000000-ABCD1234.json" ++ py ","
       ++ quoted "size" ++ py ":41}"
  /\ List.length (map byte_of_Z (document "demo" "1700000000")) = 41%nat
  /\ exists request body_str,
       s3_requests (snd (invoke live_runtime (document "demo" "1700000000")))
       = [request]
       /\ _decode_body live_runtime
            (example_event (document "demo" "1700000000")) = inr body_str
       /\ utf8_bytes body_str = Some (Body request)
       /\ Body request = map byte_of_Z (document "demo" "1700000000").
Proof.
  split; [vm_compute; reflexivity|].
  split; [vm_compute; reflexivity|].
  split; [vm_compute; reflexivity|].
  destruct (C3_stored_bytes_and_size live_runtime (module_globals live_runtime)
              (example_event (document "demo" "1700000000")) example_context
              fresh_process) as (new & Hsent & Hbytes & _).
  change (s3_requests fresh_process ++ new) with new in Hsent.
  exists (json_put (module_globals live_runtime)
            (py "demo/2023/11/14/1700000000000-ABCD1234.json")
            (map byte_of_Z (document "demo" "1700000000"))).
  assert (Hnew : new = [json_put (module_globals live_runtime)
                          (py "demo/2023/11/14/1700000000000-ABCD1234.json")
                          (map byte_of_Z (document "demo" "1700000000"))]).
  { rewrite <- Hsent. vm_compute. reflexivity. }
  destruct (Hbytes (json_put (module_globals live_runtime)
                      (py "demo/2023/11/14/1700000000000-ABCD1234.json")
                      (map byte_of_Z (document "demo" "1700000000"))))
    as (body_str & Hbody & Henc).
  { rewrite Hnew. left. reflexivity. }
  exists body_str. split; [|split; [exact Hbody|split; [exact Henc|reflexivity]]].
  unfold invoke. rewrite Hsent. exact Hnew.
Defined.

(** C4 (failing input). The body [[]] is valid JSON, an array, and has no
    [appName]; [payload.get] raises [AttributeError], which the handler
    answers with the 500 server error where the claim has the 400 of
    "Missing or invalid appName".  Nothing is sent. *)
Theorem C4_array_body_is_server_error :
  _decode_body live_runtime (example_event (py "[]")) = inr (py "[]")
  /\ json_loads live_runtime (py "[]") = inr (PList [])
  /\ py_get (PList []) (py "appName")
     = inl (Exc AttributeError (py "'list' object has no attribute 'get'"))
  /\ fst (invoke live_runtime (py "[]")) = _server_error
  /\ statusCode (fst (invoke live_runtime (py "[]"))) = 500
  /\ s3_requests (snd (invoke live_runtime (py "[]"))) = [].
Proof. repeat split; vm_compute; reflexivity. Qed.

(** C5. With dry-run enabled, an input that decodes, parses to an object,
    passes the [appName] test, has a timestamp that normalizes and dates, and
    whose text UTF-8 can encode, sends no put-object request and is answered
    with status 200 and the body
    [{"ok":true,"bucket":...,"key":...,"size":...,"dryRun":true}]. *)
Theorem C5_dry_run_skips_the_write rt g event context p body_str d app_name
    ts_ms yyyy mm dd data :
  DRY_RUN g = true ->
  _decode_body rt event = inr body_str ->
  json_loads rt body_str = inr (PDict d) ->
  valid_app_name (dict_get d (py "appName") PNone) = Some app_name ->
  _normalize_timestamp_to_ms (dict_get d (py "timestamp") PNone) = inr ts_ms ->
  _derive_date_parts rt ts_ms = inr (yyyy, mm, dd) ->
  utf8_bytes body_str = Some data ->
  s3_requests (snd (lambda_handler rt g event context p)) = s3_requests p
  /\ fst (lambda_handler rt g event context p)
     = _json_response 200
         [(py "ok", JBool true);
          (py "bucket", JStr (RAW_BUCKET_NAME g));
          (py "key", JStr (storage_key app_name yyyy mm dd ts_ms
                             (_get_request_id rt context)));
          (py "size", JInt (Z.of_nat (List.length data)));
          (py "dryRun", JBool true)]
  /\ statusCode (fst (lambda_handler rt g event context p)) = 200
  /\ headers (fst (lambda_handler rt g event context p))
     = [(py "Content-Type", py "application/json")]
  /\ body (fst (lambda_handler rt g event context p))
     = py "{" ++ quoted "ok" ++ py ":true," ++ quoted "bucket" ++ py ":"
       ++ json_string (RAW_BUCKET_NAME g) ++ py "," ++ quoted "key" ++ py ":"
       ++ json_string (storage_key app_name yyyy mm dd ts_ms
                         (_get_request_id rt context))
       ++ py "," ++ quoted "size" ++ py ":"
       ++ str_of_int (Z.of_nat (List.length data))
       ++ py "," ++ quoted "dryRun" ++ py ":true}".
Proof.
  intros Hdry Hbody Hjson Happ Hts Hdate Henc.
  destruct (lambda_handler_valid rt g event context _ _ _ _ _ _ _ _ p
              Hbody Hjson Happ Hts Hdate Henc) as [Hr Hs].
  unfold stored in Hr. rewrite Hdry in Hr. cbn [orb] in Hr.
  split; [rewrite Hs; unfold sent; rewrite Hdry; apply app_nil_r|].
  split; [rewrite Hr; unfold success_body; rewrite Hdry; reflexivity|].
  split; [rewrite Hr; reflexivity|].
  split; [rewrite Hr; reflexivity|].
  rewrite Hr. unfold success_body. rewrite Hdry.
  success_body_text (RAW_BUCKET_NAME g)
    (storage_key app_name yyyy mm dd ts_ms (_get_request_id rt context))
    (Z.of_nat (List.length data)).
Qed.

(** Witness of C5: the demo document, 41 bytes long, with [DRY_RUN=1]. *)
Lemma C5_witness :
  s3_requests (snd (invoke dry_runtime (document "demo" "1700000000"))) = []
  /\ statusCode (fst (invoke dry_runtime (document "demo" "1700000000"))) = 200
  /\ body (fst (invoke dry_runtime (document "demo" "1700000000")))
     = py "{" ++ quoted "ok" ++ py ":true," ++ quoted "bucket" ++ py ":"
       ++ quoted "zoolanding-data-raw" ++ py "," ++ quoted "key" ++ py ":"
       ++ quoted "demo/2023/11/14/1700000000000-ABCD1234.json" ++ py ","
       ++ quoted "size" ++ py ":41," ++ quoted "dryRun" ++ py ":true}".
Proof.
  destruct (C5_dry_run_skips_the_write dry_runtime (module_globals dry_runtime)
              (example_event (document "demo" "1700000000")) example_context
              fresh_process (document "demo" "1700000000")
              [(py "appName", PStr (py "demo")); (py "timestamp", PInt 1700000000)]
              (py "demo") 1700000000000 (py "2023") (py "11") (py "14")
              (map byte_of_Z (document "demo" "1700000000")))
    as (Hsent & _ & Hstatus & _ & Htext);
    try (vm_compute; reflexivity).
  split; [unfold invoke; rewrite Hsent; reflexivity|].
  split; [exact Hstatus|].
  unfold invoke. rewrite Htext. vm_compute. reflexivity.
Defined.

(** C6. The server error is the 500 whose body is exactly
    [{"ok":false,"error":"Internal error"}], a constant that holds nothing of
    the exception.  Every 500 the handler returns is that response; it is
    what the handler returns when an exception that is no [ValueError]
    leaves the outer [try] block, and when, in live mode on a valid input,
    no client can be had or put-object raises, whatever it raises. *)
Theorem C6_server_error_is_generic rt g event context p :
  statusCode _server_error = 500
  /\ body _server_error
     = py "{" ++ quoted "ok" ++ py ":false," ++ quoted "error" ++ py ":"
       ++ quoted "Internal error" ++ py "}"
  /\ (statusCode (fst (lambda_handler rt g event context p)) = 500 ->
      fst (lambda_handler rt g event context p) = _server_error)
  /\ (forall e p1,
        handler_body rt g event (_get_request_id rt context) p = (inl e, p1) ->
        is_ValueError e = false ->
        fst (lambda_handler rt g event context p) = _server_error)
  /\ (forall body_str d app_name ts_ms yyyy mm dd data,
        _decode_body rt event = inr body_str ->
        json_loads rt body_str = inr (PDict d) ->
        valid_app_name (dict_get d (py "appName") PNone) = Some app_name ->
        _normalize_timestamp_to_ms (dict_get d (py "timestamp") PNone)
        = inr ts_ms ->
        _derive_date_parts rt ts_ms = inr (yyyy, mm, dd) ->
        utf8_bytes body_str = Some data ->
        DRY_RUN g = false ->
        live_client rt (S3 p) = None
        \/ put_object rt (RAW_BUCKET_NAME g)
             (storage_key app_name yyyy mm dd ts_ms (_get_request_id rt context))
             data (py "application/json") <> None ->
        fst (lambda_handler rt g event context p) = _server_error).
Proof.
  split; [reflexivity|]. split; [vm_compute; reflexivity|]. split; [|split].
  - intros Hstatus.
    destruct (lambda_handler_outcome rt g event context p)
      as [msg Hr _ | Hr _ | body_str key data _ _ Hr _].
    + rewrite Hr in Hstatus. cbn in Hstatus. discriminate Hstatus.
    + exact Hr.
    + rewrite Hr in Hstatus |- *.
      destruct (stored rt g (S3 p) key data); [|reflexivity].
      cbn in Hstatus. discriminate Hstatus.
  - intros e p1 Hrun Hclass.
    unfold lambda_handler, try_except. rewrite Hrun, Hclass. reflexivity.
  - intros body_str d app_name ts_ms yyyy mm dd data
      Hbody Hjson Happ Hts Hdate Henc Hlive Hfail.
    destruct (lambda_handler_valid rt g event context _ _ _ _ _ _ _ _ p
                Hbody Hjson Happ Hts Hdate Henc) as [Hr _].
    rewrite Hr. unfold stored. rewrite Hlive. cbn [orb].
    destruct Hfail as [-> | Hput]; [reflexivity|].
    destruct (live_client rt (S3 p)); [|reflexivity].
    destruct (put_object rt (RAW_BUCKET_NAME g)
                (storage_key app_name yyyy mm dd ts_ms
                   (_get_request_id rt context))
                data (py "application/json")); [reflexivity|].
    now contradiction Hput.
Qed.

(** Witness of C6: the store refuses the write with an access error; the
    response is the server error and its body does not hold the error's
    text. *)
Lemma C6_witness :
  fst (invoke failing_runtime (document "demo" "1700000000")) = _server_error
  /\ contains (exc_str access_denied)
       (body (fst (invoke failing_runtime (document "demo" "1700000000"))))
     = false.
Proof.
  destruct (C6_server_error_is_generic failing_runtime
              (module_globals failing_runtime)
              (example_event (document "demo" "1700000000")) example_context
              fresh_process) as (_ & _ & H500 & _).
  assert (H : fst (invoke failing_runtime (document "demo" "1700000000"))
              = _server_error).
  { apply H500. vm_compute. reflexivity. }
  split; [exact H|]. rewrite H. vm_compute. reflexivity.
Defined.

(** C7 (amended). For every body text that fails to parse as JSON, the
    handler returns the 400 whose error message is the fixed text
    "Body is not valid JSON"; the parser's error text goes to the log, in
    the [ERROR] record "Invalid JSON", and nothing is sent. *)
Theorem C7_invalid_json_fixed_message rt g event context p body_str e :
  _decode_body rt event = inr body_str ->
  json_loads rt body_str = inl e ->
  fst (lambda_handler rt g event context p)
  = _bad_request (py "Body is not valid JSON")
  /\ statusCode (fst (lambda_handler rt g event context p)) = 400
  /\ body (fst (lambda_handler rt g event context p))
     = py "{" ++ quoted "ok" ++ py ":false," ++ quoted "error" ++ py ":"
       ++ quoted "Body is not valid JSON" ++ py "}"
  /\ In {| log_level := py "ERROR";
           log_message := py "Invalid JSON";
           log_fields := [(py "requestId", PStr (_get_request_id rt context));
                          (py "error", PStr (exc_str e))] |}
        (stdout (snd (lambda_handler rt g event context p)))
  /\ s3_requests (snd (lambda_handler rt g event context p)) = s3_requests p.
Proof.
  intros Hbody Hjson.
  unfold lambda_handler, try_except, handler_body, bind, lift, log, effect, ret.
  rewrite Hbody, Hjson. cbn [fst snd].
  split; [reflexivity|]. split; [reflexivity|].
  split; [vm_compute; reflexivity|]. split.
  - rewrite log_ERROR. apply in_or_app. right. left. reflexivity.
  - now rewrite !log_s3_requests.
Qed.

(** Witness of C7: the body [{not valid]. *)
Lemma C7_witness :
  fst (invoke live_runtime (py "{not valid"))
  = _bad_request (py "Body is not valid JSON")
  /\ In {| log_level := py "ERROR";
           log_message := py "Invalid JSON";
           log_fields := [(py "requestId", PStr (py "ABCD1234"));
                          (py "error", PStr (exc_str parse_error))] |}
        (stdout (snd (invoke live_runtime (py "{not valid")))).
Proof.
  destruct (C7_invalid_json_fixed_message live_runtime
              (module_globals live_runtime) (example_event (py "{not valid"))
              example_context fresh_process (py "{not valid") parse_error)
    as (Hr & _ & _ & Hlog & _);
    try (vm_compute; reflexivity).
  split; [exact Hr|exact Hlog].
Defined.

(** Counterexample to C7 as stated: on the body [{not valid] the parser's
    error text is "Expecting property name enclosed in double quotes: line 1
    column 2 (char 1)", and the returned body does not hold it. *)
Lemma C7_counterexample :
  _decode_body live_runtime (example_event (py "{not valid"))
  = inr (py "{not valid")
  /\ json_loads live_runtime (py "{not valid") = inl parse_error
  /\ body (fst (invoke live_runtime (py "{not valid")))
     = py "{" ++ quoted "ok" ++ py ":false," ++ quoted "error" ++ py ":"
       ++ quoted "Body is not valid JSON" ++ py "}"
  /\ contains (exc_str parse_error)
       (body (fst (invoke live_runtime (py "{not valid")))) = false.
Proof. repeat split; vm_compute; reflexivity. Qed.

(** C8 (amended). Dry-run is enabled exactly when [DRY_RUN] is set to one of
    the five spellings "1", "true", "TRUE", "yes", "YES"; for every other
    value, and when it is not set, it is disabled.  When it is enabled no
    invocation sends a put-object request. *)
Theorem C8_dry_run_spellings rt :
  (DRY_RUN (module_globals rt) = true <->
   exists value,
     environ rt (py "DRY_RUN") = Some value
     /\ In value [py "1"; py "true"; py "TRUE"; py "yes"; py "YES"])
  /\ (DRY_RUN (module_globals rt) = true ->
      forall event context p,
        s3_requests (snd (lambda_handler rt (module_globals rt) event context p))
        = s3_requests p).
Proof.
  split.
  - cbn [module_globals DRY_RUN]. unfold os_getenv, dry_run_enabled.
    destruct (environ rt (py "DRY_RUN")) as [value|].
    + rewrite existsb_exists. split.
      * intros (x & Hin & Heq). apply pystr_eqb_eq in Heq. subst x.
        exists value. now split.
      * intros (v & Hv & Hin). inversion Hv; subst v.
        exists value. split; [exact Hin|apply pystr_eqb_refl].
    + split.
      * vm_compute. discriminate.
      * intros (v & Hv & _). discriminate Hv.
  - intros Hdry event context p. now apply dry_run_sends_nothing.
Qed.

(** Witness of C8: [DRY_RUN=1]. *)
Lemma C8_witness :
  DRY_RUN (module_globals dry_runtime) = true
  /\ s3_requests (snd (invoke dry_runtime (document "demo" "1700000000"))) = [].
Proof.
  destruct (C8_dry_run_spellings dry_runtime) as [Hiff Hskip].
  assert (Hdry : DRY_RUN (module_globals dry_runtime) = true).
  { apply Hiff. exists (py "1"). split; [reflexivity|]. left. reflexivity. }
  split; [exact Hdry|].
  exact (Hskip Hdry (example_event (document "demo" "1700000000"))
           example_context fresh_process).
Defined.

(** Counterexample to C8 as stated: "True" reads [true] when case is
    ignored, yet with [DRY_RUN=True] dry-run is disabled and the invocation
    sends its put-object request; the same for "Yes". *)
Lemma C8_counterexample :
  true_like (py "True") = true
  /\ DRY_RUN (module_globals (example_runtime (Some (py "True")) None)) = false
  /\ List.length
       (s3_requests
          (snd (invoke (example_runtime (Some (py "True")) None)
                  (document "demo" "1700000000")))) = 1%nat
  /\ true_like (py "Yes") = true
  /\ DRY_RUN (module_globals (example_runtime (Some (py "Yes")) None)) = false.
Proof. repeat split; vm_compute; reflexivity. Qed.

(** C10 (amended). A payload whose timestamp is the JSON boolean [true] or
    [false] passes timestamp validation: [true] normalizes to 1000
    milliseconds and [false] to 0.  An otherwise valid request with such a
    timestamp is keyed under 1970/01/01 and never answered with the 400 of
    the timestamp; it is answered with the 200 when the storage step goes
    through (dry-run, or a client is there and put-object returns) and with
    the 500 server error when the live write fails. *)
Theorem C10_boolean_timestamp rt g event context p body_str d app_name b data :
  _decode_body rt event = inr body_str ->
  utf8_bytes body_str = Some data ->
  json_loads rt body_str = inr (PDict d) ->
  valid_app_name (dict_get d (py "appName") PNone) = Some app_name ->
  dict_get d (py "timestamp") PNone = PBool b ->
  let ts_ms := if b then 1000 else 0 in
  let key :=
    storage_key app_name (py "1970") (py "01") (py "01") ts_ms
      (_get_request_id rt context) in
  _normalize_timestamp_to_ms (PBool b) = inr ts_ms
  /\ fst (lambda_handler rt g event context p)
     = (if stored rt g (S3 p) key data
        then _json_response 200
               (success_body g key (Z.of_nat (List.length data)))
        else _server_error)
  /\ s3_requests (snd (lambda_handler rt g event context p))
     = s3_requests p ++ sent rt g (S3 p) key data.
Proof.
  intros Hbody Henc Hjson Happ Hts ts_ms key.
  assert (Hnorm : _normalize_timestamp_to_ms (PBool b) = inr ts_ms).
  { subst ts_ms. destruct b; vm_compute; reflexivity. }
  split; [exact Hnorm|].
  assert (Hdate : _derive_date_parts rt ts_ms
                  = inr (py "1970", py "01", py "01")).
  { subst ts_ms. destruct b; vm_compute; reflexivity. }
  rewrite <- Hts in Hnorm.
  exact (lambda_handler_valid rt g event context _ _ _ _ _ _ _ _ p
           Hbody Hjson Happ Hnorm Hdate Henc).
Qed.

(** Witness of C10: the demo document with [true] for timestamp, live, with
    a store that takes the write. *)
Lemma C10_witness :
  _normalize_timestamp_to_ms (PBool true) = inr 1000
  /\ fst (invoke live_runtime (document "demo" "true"))
     = _json_response 200
         [(py "ok", JBool true);
          (py "bucket", JStr (py "zoolanding-data-raw"));
          (py "key", JStr (py "demo/1970/01/01/1000-ABCD1234.json"));
          (py "size", JInt 35)].
Proof.
  destruct (C10_boolean_timestamp live_runtime (module_globals live_runtime)
              (example_event (document "demo" "true")) example_context
              fresh_process (document "demo" "true")
              [(py "appName", PStr (py "demo")); (py "timestamp", PBool true)]
              (py "demo") true
              (map byte_of_Z (document "demo" "true")))
    as (Hnorm & Hresponse & _);
    try (vm_compute; reflexivity).
  split; [exact Hnorm|].
  unfold invoke. rewrite Hresponse. vm_compute. reflexivity.
Defined.

(** Counterexample to C10 as stated: the demo document with [true] for
    timestamp is valid in every other respect, and in live mode with a
    store that refuses the write the response is the 500 server error, not
    a 200. *)
Lemma C10_counterexample :
  _decode_body failing_runtime (example_event (document "demo" "true"))
  = inr (document "demo" "true")
  /\ json_loads failing_runtime (document "demo" "true")
     = inr (parsed "demo" (PBool true))
  /\ _normalize_timestamp_to_ms (PBool true) = inr 1000
  /\ fst (invoke failing_runtime (document "demo" "true")) = _server_error
  /\ statusCode (fst (invoke failing_runtime (document "demo" "true"))) = 500.
Proof. repeat split; vm_compute; reflexivity. Qed.

(* ================================================================== *)
(** * More of the module *)

(* ------------------------------------------------------------------ *)
(** ** Logging *)

Lemma level_order_cases level :
  (level = py "DEBUG" /\ level_order level = 10)
  \/ (level = py "ERROR" /\ level_order level = 40)
  \/ (level <> py "DEBUG" /\ level <> py "ERROR" /\ level_order level = 20).
Proof.
  unfold level_order.
  destruct (pystr_eqb level (py "DEBUG")) eqn:Ed.
  { left. apply pystr_eqb_eq in Ed. now split. }
  destruct (pystr_eqb level (py "INFO")) eqn:Ei.
  { right. right. apply pystr_eqb_eq in Ei. subst level.
    repeat split; discriminate. }
  assert (Hd : level <> py "DEBUG").
  { intros ->. now rewrite pystr_eqb_refl in Ed. }
  destruct (pystr_eqb level (py "ERROR")) eqn:Ee.
  { right. left. apply pystr_eqb_eq in Ee. now split. }
  right. right. repeat split; [exact Hd|].
  intros ->. now rewrite pystr_eqb_refl in Ee.
Qed.

(** [_should_log]: an [ERROR] record always passes; an [INFO] record, and a
    record of any level the module does not know, passes unless [LOG_LEVEL]
    is "ERROR"; a [DEBUG] record passes only when [LOG_LEVEL] is "DEBUG".
    A [LOG_LEVEL] the module does not know therefore acts as "INFO". *)
Theorem should_log_thresholds g level :
  _should_log g level
  = if pystr_eqb level (py "ERROR") then true
    else if pystr_eqb level (py "DEBUG")
         then pystr_eqb (LOG_LEVEL g) (py "DEBUG")
         else negb (pystr_eqb (LOG_LEVEL g) (py "ERROR")).
Proof.
  unfold _should_log.
  destruct (level_order_cases level) as [[-> Hl] | [[-> Hl] | (Hd & He & Hl)]];
    destruct (level_order_cases (LOG_LEVEL g))
      as [[Hg Hc] | [[Hg Hc] | (Hgd & Hge & Hc)]];
    rewrite Hl, Hc;
    repeat match goal with
           | H : LOG_LEVEL g = _ |- _ => rewrite H
           end;
    try (vm_compute; reflexivity).
  all: repeat match goal with
         | H : ?a <> ?b |- context [pystr_eqb ?a ?b] =>
             let E := fresh "E" in
             destruct (pystr_eqb a b) eqn:E;
             [apply pystr_eqb_eq in E; contradiction|]
         end; try reflexivity.
  all: try (vm_compute; reflexivity).
Qed.

(* ------------------------------------------------------------------ *)
(** ** What an invocation leaves behind *)

Section Frames.

Variable rt : Runtime.
Variable g : Globals.

Local Abbreviation keeps := (keeps rt g).

Lemma continues_refl p : continues rt g p p.
Proof.
  repeat split.
  - exists []. now rewrite app_nil_r.
  - exists []. now rewrite app_nil_r.
  - auto.
  - auto.
Qed.

Lemma continues_trans p q r :
  continues rt g p q -> continues rt g q r -> continues rt g p r.
Proof.
  intros ((o1 & Ho1) & (r1 & Hr1) & Hk1 & Hn1) ((o2 & Ho2) & (r2 & Hr2) & Hk2 & Hn2).
  repeat split.
  - exists (o1 ++ o2). now rewrite Ho2, Ho1, app_assoc.
  - exists (r1 ++ r2). now rewrite Hr2, Hr1, app_assoc.
  - intros client H. apply Hk2, Hk1, H.
  - intros client H. destruct (Hn2 client H) as [Hq | Hb]; [|now right].
    apply Hn1, Hq.
Qed.

Lemma continues_log level message fields p :
  continues rt g p (_log g level message fields p).
Proof.
  unfold _log. destruct (_should_log g level); [|apply continues_refl].
  repeat split; cbn [S3 stdout s3_requests]; auto.
  - eexists. reflexivity.
  - exists []. now rewrite app_nil_r.
Qed.

Lemma keeps_ret {A : Type} (a : A) : keeps (ret a).
Proof. intros p. apply continues_refl. Qed.

Lemma keeps_raise {A : Type} e : keeps (raise (A := A) e).
Proof. intros p. apply continues_refl. Qed.

Lemma keeps_lift {A : Type} (r : pyexc + A) : keeps (lift r).
Proof. intros p. apply continues_refl. Qed.

Lemma keeps_log level message fields : keeps (log g level message fields).
Proof. intros p. apply continues_log. Qed.

Lemma keeps_bind {A B : Type} (m : M A) (k : A -> M B) :
  keeps m -> (forall a, keeps (k a)) -> keeps (bind m k).
Proof.
  intros Hm Hk p. unfold bind. specialize (Hm p).
  destruct (m p) as [[e|a] p1]; cbn [snd] in *; [exact Hm|].
  eapply continues_trans; [exact Hm|apply Hk].
Qed.

Lemma keeps_handled {A : Type} (m : M A) (h : pyexc -> Process -> A * Process) :
  keeps m ->
  (forall e p, continues rt g p (snd (h e p))) ->
  keeps (handled (try_except m h)).
Proof.
  intros Hm Hh p. unfold handled, try_except. specialize (Hm p).
  destruct (m p) as [[e|a] p1]; cbn [snd] in *.
  - specialize (Hh e p1). destruct (h e p1) as [a p2]. cbn [snd] in *.
    eapply continues_trans; eassumption.
  - exact Hm.
Qed.

Ltac keeps_step :=
  match goal with
  | |- keeps (bind _ _) => apply keeps_bind; [|intros ?]
  | |- keeps (ret _) => apply keeps_ret
  | |- keeps (raise _) => apply keeps_raise
  | |- keeps (lift _) => apply keeps_lift
  | |- keeps (log _ _ _ _) => apply keeps_log
  | |- keeps (match ?x with _ => _ end) => destruct x
  end.

Lemma keeps_get_s3_client : keeps (_get_s3_client rt g).
Proof.
  intros p. unfold _get_s3_client.
  destruct (S3 p) as [client|] eqn:HS3; [apply continues_refl|].
  destruct (DRY_RUN g) eqn:Hdry.
  { apply (keeps_bind (log g _ _ _) (fun _ => ret None));
      [apply keeps_log|intros; apply keeps_ret]. }
  destruct (boto3 rt) as [[e|client]|] eqn:Hboto.
  - apply continues_refl.
  - unfold bind, effect, log, ret. cbn [snd].
    eapply continues_trans; [|apply continues_log].
    repeat split; cbn [S3 stdout s3_requests].
    + exists []. now rewrite app_nil_r.
    + exists []. now rewrite app_nil_r.
    + intros c H. rewrite HS3 in H. discriminate H.
    + intros c H. inversion H; subst c. right. now split.
  - apply (keeps_bind (log g _ _ _) (fun _ => raise _));
      [apply keeps_log|intros; apply keeps_raise].
Qed.

Lemma keeps_s3_put_object s3 bucket key text ctype :
  keeps (s3_put_object rt s3 bucket key text ctype).
Proof.
  unfold s3_put_object. destruct s3; [|apply keeps_raise].
  apply keeps_bind; [apply keeps_lift|intros data].
  apply keeps_bind.
  - intros p. unfold effect. cbn [snd].
    repeat split; cbn [S3 stdout s3_requests]; auto.
    + exists []. now rewrite app_nil_r.
    + eexists. reflexivity.
  - intros _. destruct (put_object rt bucket key data ctype);
      [apply keeps_raise|apply keeps_ret].
Qed.

Lemma keeps_store short_reqId app_name ts_ms key body_str size_bytes :
  keeps (store rt g short_reqId app_name ts_ms key body_str size_bytes).
Proof.
  unfold store. destruct (DRY_RUN g).
  - repeat keeps_step.
  - apply keeps_handled.
    + apply keeps_bind; [|intros; apply keeps_ret].
      unfold upload. keeps_step; [apply keeps_get_s3_client|].
      keeps_step; [apply keeps_s3_put_object|]. apply keeps_log.
    + intros e p. cbn [snd]. apply continues_log.
Qed.

Lemma keeps_process_payload short_reqId body_str payload :
  keeps (process_payload rt g short_reqId body_str payload).
Proof.
  unfold process_payload.
  keeps_step; [apply keeps_lift|].
  destruct (valid_app_name a) as [app_name|]; [|repeat keeps_step].
  keeps_step; [apply keeps_lift|].
  destruct (_normalize_timestamp_to_ms a0) as [e|ts_ms].
  { destruct (is_ValueError e); repeat keeps_step. }
  keeps_step; [apply keeps_lift|].
  keeps_step; [apply keeps_lift|].
  keeps_step; [apply keeps_log|].
  keeps_step; [apply keeps_lift|].
  destruct a4 as [[yyyy mm] dd].
  keeps_step; [apply keeps_log|].
  keeps_step; [apply keeps_lift|].
  keeps_step; [apply keeps_store|].
  destruct a6; apply keeps_ret.
Qed.

Lemma keeps_handler_body event short_reqId :
  keeps (handler_body rt g event short_reqId).
Proof.
  unfold handler_body.
  keeps_step; [apply keeps_lift|].
  keeps_step; [apply keeps_log|].
  destruct (json_loads rt a) as [e|payload].
  - repeat keeps_step.
  - apply keeps_process_payload.
Qed.

(** Whatever the invocation, the process after it continues the process
    before it. *)
Lemma lambda_handler_continues event context p :
  continues rt g p (snd (lambda_handler rt g event context p)).
Proof.
  unfold lambda_handler, try_except.
  pose proof (keeps_handler_body event (_get_request_id rt context) p) as H.
  destruct (handler_body rt g event (_get_request_id rt context) p)
    as [[e|response] p1]; cbn [snd] in *; [|exact H].
  destruct (is_ValueError e); cbn [snd];
    (eapply continues_trans; [exact H|apply continues_log]).
Qed.

End Frames.

Section Reports.

Variable rt : Runtime.
Variable g : Globals.

Lemma error_logged_after p q r :
  continues rt g p q -> error_logged q r -> error_logged p r.
Proof.
  intros ((o & Ho) & _) (printed & record & Hout & Hlevel).
  exists (o ++ printed), record. split; [|exact Hlevel].
  now rewrite Hout, Ho, !app_assoc.
Qed.

Lemma error_logged_now message fields p :
  error_logged p (_log g (py "ERROR") message fields p).
Proof.
  exists [], {| log_level := py "ERROR";
                log_message := message;
                log_fields := fields |}.
  split; [|reflexivity]. now rewrite log_ERROR.
Qed.

Lemma reports_bind {A : Type} (m : M A) (k : A -> M Response) :
  keeps rt g m -> (forall a, reports (k a)) -> reports (bind m k).
Proof.
  intros Hm Hk p response p' Hrun Hstatus. unfold bind in Hrun.
  specialize (Hm p).
  destruct (m p) as [[e|a] p1]; cbn [snd] in Hm; [discriminate Hrun|].
  eapply error_logged_after; [exact Hm|]. eapply Hk; eassumption.
Qed.

Lemma reports_error_return message fields response :
  reports (bind (log g (py "ERROR") message fields) (fun _ => ret response)).
Proof.
  intros p r p' Hrun _. unfold bind, log, effect, ret in Hrun.
  inversion Hrun; subst. apply error_logged_now.
Qed.

Lemma reports_success payload : reports (ret (_json_response 200 payload)).
Proof.
  intros p r p' Hrun Hstatus. unfold ret in Hrun. inversion Hrun; subst.
  now contradiction Hstatus.
Qed.

Lemma reports_raise e : reports (raise e).
Proof. intros p r p' Hrun. discriminate Hrun. Qed.

(** When the storage step returns from the handler, the failure of the
    write was printed last. *)
Lemma store_reports short_reqId app_name ts_ms key body_str size_bytes
    p response p' :
  store rt g short_reqId app_name ts_ms key body_str size_bytes p
  = (inr (Some response), p') ->
  error_logged p p'.
Proof.
  unfold store. destruct (DRY_RUN g).
  { unfold bind, log, effect, ret. intros H. discriminate H. }
  unfold handled, try_except.
  match goal with
  | |- context [bind ?m ?k p] =>
      assert (Hk : keeps rt g m);
      [|specialize (Hk p); unfold bind at 1; destruct (m p) as [[e|[]] p1]]
  end.
  - unfold upload. apply keeps_bind; [apply keeps_get_s3_client|intros s3].
    apply keeps_bind; [apply keeps_s3_put_object|intros _]. apply keeps_log.
  - cbn [snd] in Hk. intros H. inversion H; subst.
    eapply error_logged_after; [exact Hk|apply error_logged_now].
  - unfold ret. intros H. discriminate H.
Qed.

Lemma reports_process_payload short_reqId body_str payload :
  reports (process_payload rt g short_reqId body_str payload).
Proof.
  unfold process_payload.
  apply reports_bind; [apply keeps_lift|intros app_name].
  destruct (valid_app_name app_name) as [name|];
    [|apply reports_error_return].
  apply reports_bind; [apply keeps_lift|intros ts].
  destruct (_normalize_timestamp_to_ms ts) as [e|ts_ms].
  { destruct (is_ValueError e);
      [apply reports_error_return|apply reports_raise]. }
  apply reports_bind; [apply keeps_lift|intros ts_again].
  apply reports_bind; [apply keeps_lift|intros keys].
  apply reports_bind; [apply keeps_log|intros _].
  apply reports_bind; [apply keeps_lift|intros [[yyyy mm] dd]].
  apply reports_bind; [apply keeps_log|intros _].
  apply reports_bind; [apply keeps_lift|intros data].
  intros p response p' Hrun Hstatus. unfold bind in Hrun.
  match type of Hrun with
  | context [store rt g ?a ?b ?c ?k ?t ?n p] =>
      destruct (store rt g a b c k t n p) as [[e|[early|]] p1] eqn:Hstore
  end.
  - discriminate Hrun.
  - unfold ret in Hrun. inversion Hrun; subst.
    eapply store_reports. exact Hstore.
  - unfold ret in Hrun. inversion Hrun; subst. now contradiction Hstatus.
Qed.

Lemma reports_handler_body event short_reqId :
  reports (handler_body rt g event short_reqId).
Proof.
  unfold handler_body.
  apply reports_bind; [apply keeps_lift|intros body_str].
  apply reports_bind; [apply keeps_log|intros _].
  destruct (json_loads rt body_str) as [e|payload].
  - apply reports_error_return.
  - apply reports_process_payload.
Qed.

End Reports.

(** Every response that is no 200 is logged: the last record the
    invocation printed is an [ERROR] record, whatever [LOG_LEVEL] is. *)
Theorem every_failure_is_logged rt g event context p :
  statusCode (fst (lambda_handler rt g event context p)) <> 200 ->
  exists printed record,
    stdout (snd (lambda_handler rt g event context p))
    = stdout p ++ printed ++ [record]
    /\ log_level record = py "ERROR".
Proof.
  unfold lambda_handler, try_except.
  pose proof (keeps_handler_body rt g event (_get_request_id rt context) p) as Hk.
  pose proof (reports_handler_body rt g event (_get_request_id rt context) p)
    as Hr.
  destruct (handler_body rt g event (_get_request_id rt context) p)
    as [[e|response] p1]; cbn [snd fst] in *.
  - intros _. destruct (is_ValueError e); cbn [snd];
      (eapply error_logged_after; [exact Hk|apply error_logged_now]).
  - intros Hstatus. exact (Hr response p1 eq_refl Hstatus).
Qed.

(** Witness: the store refuses the write; the failure is the last record. *)
Lemma every_failure_is_logged_witness :
  exists printed record,
    stdout (snd (invoke failing_runtime (document "demo" "1700000000")))
    = [] ++ printed ++ [record]
    /\ log_level record = py "ERROR".
Proof.
  apply (every_failure_is_logged failing_runtime
           (module_globals failing_runtime)
           (example_event (document "demo" "1700000000")) example_context
           fresh_process).
  vm_compute. discriminate.
Defined.

(* ------------------------------------------------------------------ *)
(** ** The response and the write *)

(** Every response has status 200, 400 or 500 and the JSON content type. *)
Theorem response_shape rt g event context p :
  (statusCode (fst (lambda_handler rt g event context p)) = 200
   \/ statusCode (fst (lambda_handler rt g event context p)) = 400
   \/ statusCode (fst (lambda_handler rt g event context p)) = 500)
  /\ headers (fst (lambda_handler rt g event context p))
     = [(py "Content-Type", py "application/json")].
Proof.
  destruct (lambda_handler_outcome rt g event context p)
    as [msg Hr _ | Hr _ | body_str key data _ _ Hr _]; rewrite Hr.
  - split; [right; left|]; reflexivity.
  - split; [right; right|]; reflexivity.
  - destruct (stored rt g (S3 p) key data).
    + split; [left|]; reflexivity.
    + split; [right; right|]; reflexivity.
Qed.

(** One invocation makes at most one put-object call, to the configured
    bucket and as JSON; none when it answers 400 and none in dry-run; and
    when it answers 200 in live mode it made exactly one, under the key the
    response names. *)
Theorem single_write_attempt rt g event context p :
  exists requests,
    s3_requests (snd (lambda_handler rt g event context p))
    = s3_requests p ++ requests
    /\ (List.length requests <= 1)%nat
    /\ (forall request, In request requests ->
        Bucket request = RAW_BUCKET_NAME g
        /\ ContentType request = py "application/json")
    /\ (statusCode (fst (lambda_handler rt g event context p)) = 400 ->
        requests = [])
    /\ (DRY_RUN g = true -> requests = [])
    /\ (statusCode (fst (lambda_handler rt g event context p)) = 200 ->
        DRY_RUN g = false ->
        exists key data,
          requests = [json_put g key data]
          /\ fst (lambda_handler rt g event context p)
             = _json_response 200
                 (success_body g key (Z.of_nat (List.length data)))).
Proof.
  destruct (lambda_handler_outcome rt g event context p)
    as [msg Hr Hs | Hr Hs | body_str key data _ _ Hr Hs].
  - exists []. rewrite app_nil_r, Hr. split; [exact Hs|].
    split; [cbn; lia|]. split; [intros request []|].
    split; [reflexivity|]. split; [reflexivity|].
    cbn. intros H200. discriminate H200.
  - exists []. rewrite app_nil_r, Hr. split; [exact Hs|].
    split; [cbn; lia|]. split; [intros request []|].
    split; [reflexivity|]. split; [reflexivity|].
    cbn. intros H200. discriminate H200.
  - exists (sent rt g (S3 p) key data). split; [exact Hs|].
    rewrite Hr. unfold sent, stored.
    destruct (DRY_RUN g) eqn:Hdry; cbn [orb].
    { split; [cbn; lia|]. split; [intros request []|].
      split; [reflexivity|]. split; [reflexivity|].
      intros _ Hlive. discriminate Hlive. }
    destruct (live_client rt (S3 p)) as [client|].
    2:{ split; [cbn; lia|]. split; [intros request []|].
        split; [reflexivity|]. split; [reflexivity|].
        cbn. intros H200. discriminate H200. }
    split; [cbn; lia|].
    split.
    { intros request [<- | []]. split; reflexivity. }
    destruct (put_object rt (RAW_BUCKET_NAME g) key data
                (py "application/json")) as [e|].
    + split; [cbn; intros H400; discriminate H400|].
      split; [intros Hd; discriminate Hd|].
      cbn. intros H200. discriminate H200.
    + split; [cbn; intros H400; discriminate H400|].
      split; [intros Hd; discriminate Hd|].
      intros _ _. exists key, data. now split.
Qed.

(** Witness: a 200 in live mode, with its one request. *)
Lemma single_write_attempt_witness :
  exists key data,
    s3_requests (snd (invoke live_runtime (document "demo" "1700000000")))
    = [json_put (module_globals live_runtime) key data]
    /\ fst (invoke live_runtime (document "demo" "1700000000"))
       = _json_response 200
           (success_body (module_globals live_runtime) key
              (Z.of_nat (List.length data))).
Proof.
  destruct (single_write_attempt live_runtime (module_globals live_runtime)
              (example_event (document "demo" "1700000000")) example_context
              fresh_process)
    as (requests & Hs & _ & _ & _ & _ & Hlive).
  destruct Hlive as (key & data & Hreq & Hresp);
    [vm_compute; reflexivity|vm_compute; reflexivity|].
  exists key, data. split; [|exact Hresp].
  unfold invoke. rewrite Hs, Hreq. reflexivity.
Defined.

(* ------------------------------------------------------------------ *)
(** ** The cached storage client *)

Section Cache.

Variable rt : Runtime.
Variable g : Globals.

(** [_get_s3_client]: a client it returns is the cached one from then on,
    and a second call returns it again without changing anything; when it
    returns [None] it is dry-run with nothing cached; when it raises, it is
    live mode and nothing is cached, so the next call tries again.  It
    sends nothing. *)
Theorem get_s3_client_caches p :
  s3_requests (snd (_get_s3_client rt g p)) = s3_requests p
  /\ match fst (_get_s3_client rt g p) with
     | inr (Some client) =>
         S3 (snd (_get_s3_client rt g p)) = Some client
         /\ _get_s3_client rt g (snd (_get_s3_client rt g p))
            = (inr (Some client), snd (_get_s3_client rt g p))
     | inr None =>
         DRY_RUN g = true
         /\ S3 p = None /\ S3 (snd (_get_s3_client rt g p)) = None
     | inl e =>
         DRY_RUN g = false
         /\ S3 p = None /\ S3 (snd (_get_s3_client rt g p)) = None
         /\ boto3 rt <> Some (inr BotoS3Client)
     end.
Proof.
  destruct (_get_s3_client rt g p) as [r p1] eqn:Hrun. cbn [fst snd].
  unfold _get_s3_client in Hrun.
  destruct (S3 p) as [client|] eqn:HS3.
  { inversion Hrun; subst r p1. split; [reflexivity|]. split; [exact HS3|].
    unfold _get_s3_client. now rewrite HS3. }
  destruct (DRY_RUN g) eqn:Hdry.
  { unfold bind, log, effect, ret in Hrun. inversion Hrun; subst r p1.
    rewrite log_s3_requests, log_S3. now repeat split. }
  destruct (boto3 rt) as [[e|client]|] eqn:Hboto.
  - inversion Hrun; subst r p1. repeat split; auto. discriminate.
  - unfold bind, log, effect, ret in Hrun. inversion Hrun; subst r p1.
    rewrite log_s3_requests, log_S3. cbn [S3 s3_requests].
    split; [reflexivity|]. split; [reflexivity|].
    unfold _get_s3_client. now rewrite log_S3.
  - unfold bind, log, effect, raise in Hrun. inversion Hrun; subst r p1.
    rewrite log_s3_requests, log_S3. repeat split; auto. discriminate.
Qed.

Lemma get_s3_client_Some p client p1 :
  _get_s3_client rt g p = (inr (Some client), p1) -> S3 p1 = Some client.
Proof.
  unfold _get_s3_client.
  destruct (S3 p) as [cached|] eqn:HS3.
  { intros H. inversion H; subst. exact HS3. }
  destruct (DRY_RUN g).
  { unfold bind, log, effect, ret. intros H. discriminate H. }
  destruct (boto3 rt) as [[e|built]|].
  - intros H. discriminate H.
  - unfold bind, log, effect, ret. intros H. inversion H; subst.
    now rewrite log_S3.
  - unfold bind, log, effect, raise. intros H. discriminate H.
Qed.

(** When the storage step lets the handler go on in live mode, a client is
    cached. *)
Lemma store_caches short_reqId app_name ts_ms key body_str size_bytes p p' :
  store rt g short_reqId app_name ts_ms key body_str size_bytes p
  = (inr None, p') ->
  DRY_RUN g = false ->
  exists client, S3 p' = Some client.
Proof.
  intros Hrun Hlive. unfold store in Hrun. rewrite Hlive in Hrun.
  unfold handled, try_except, upload in Hrun.
  unfold bind at 1 2 in Hrun.
  destruct (_get_s3_client rt g p) as [[e|s3] p1] eqn:Hget;
    [discriminate Hrun|].
  destruct s3 as [client|].
  2:{ unfold s3_put_object, raise, bind in Hrun. discriminate Hrun. }
  apply get_s3_client_Some in Hget.
  pose proof (keeps_s3_put_object rt g (Some client) (RAW_BUCKET_NAME g) key
                body_str (py "application/json") p1) as Hk.
  unfold bind at 1 in Hrun.
  destruct (s3_put_object rt (Some client) (RAW_BUCKET_NAME g) key body_str
              (py "application/json") p1) as [[e|[]] p2];
    [discriminate Hrun|].
  unfold log, effect, bind, ret in Hrun. inversion Hrun; subst p'.
  exists client. rewrite log_S3.
  destruct Hk as (_ & _ & Hkeep & _). cbn [snd] in Hkeep. now apply Hkeep.
Qed.

Lemma caches_bind {A : Type} (m : M A) (k : A -> M Response) :
  (forall a, caches g (k a)) -> caches g (bind m k).
Proof.
  intros Hk p response p' Hrun. unfold bind in Hrun.
  destruct (m p) as [[e|a] p1]; [discriminate Hrun|].
  eapply Hk. exact Hrun.
Qed.

Lemma caches_error msg : caches g (ret (_bad_request msg)).
Proof.
  intros p response p' Hrun Hstatus. unfold ret in Hrun.
  inversion Hrun; subst. discriminate Hstatus.
Qed.

Lemma caches_raise e : caches g (raise e).
Proof. intros p response p' Hrun. discriminate Hrun. Qed.

Lemma caches_handler_body event short_reqId :
  caches g (handler_body rt g event short_reqId).
Proof.
  unfold handler_body.
  apply caches_bind; intros body_str. apply caches_bind; intros _.
  destruct (json_loads rt body_str) as [e|payload].
  { apply caches_bind; intros _. apply caches_error. }
  unfold process_payload.
  apply caches_bind; intros app_name.
  destruct (valid_app_name app_name) as [name|].
  2:{ apply caches_bind; intros _. apply caches_error. }
  apply caches_bind; intros ts.
  destruct (_normalize_timestamp_to_ms ts) as [e|ts_ms].
  { destruct (is_ValueError e); [|apply caches_raise].
    apply caches_bind; intros _. apply caches_error. }
  apply caches_bind; intros ts_again. apply caches_bind; intros keys.
  apply caches_bind; intros _. apply caches_bind; intros [[yyyy mm] dd].
  apply caches_bind; intros _. apply caches_bind; intros data.
  intros p response p' Hrun Hstatus Hlive. unfold bind in Hrun.
  match type of Hrun with
  | context [store rt g ?a ?b ?c ?k ?t ?n p] =>
      destruct (store rt g a b c k t n p) as [[e|[early|]] p1] eqn:Hstore
  end.
  - discriminate Hrun.
  - unfold ret in Hrun. inversion Hrun; subst.
    unfold store in Hstore. rewrite Hlive in Hstore.
    unfold handled, try_except in Hstore. unfold bind at 1 in Hstore.
    match type of Hstore with
    | context [upload rt g ?a ?b ?c ?k ?t ?n p] =>
        destruct (upload rt g a b c k t n p) as [[e|[]] q]
    end; inversion Hstore; subst. vm_compute in Hstatus. discriminate Hstatus.
  - unfold ret in Hrun. inversion Hrun; subst.
    eapply store_caches; eassumption.
Qed.

End Cache.

(** Witness: a fresh process in live mode, then the process it leaves. *)
Lemma get_s3_client_caches_witness :
  S3 (snd (_get_s3_client live_runtime (module_globals live_runtime)
             fresh_process)) = Some BotoS3Client
  /\ _get_s3_client live_runtime (module_globals live_runtime)
       (snd (_get_s3_client live_runtime (module_globals live_runtime)
               fresh_process))
     = (inr (Some BotoS3Client),
        snd (_get_s3_client live_runtime (module_globals live_runtime)
               fresh_process)).
Proof.
  exact (proj2 (get_s3_client_caches live_runtime
                  (module_globals live_runtime) fresh_process)).
Defined.

(** The cached client across an invocation: it is never dropped; dry-run
    never builds one; one that appears was built by [boto3] in live mode, so
    a failed construction leaves nothing cached and the next invocation
    tries again; and after a 200 in live mode one is cached. *)
Theorem client_is_built_once rt g event context p :
  (forall client, S3 p = Some client ->
     S3 (snd (lambda_handler rt g event context p)) = Some client)
  /\ (DRY_RUN g = true ->
      S3 (snd (lambda_handler rt g event context p)) = S3 p)
  /\ (forall client,
        S3 p = None ->
        S3 (snd (lambda_handler rt g event context p)) = Some client ->
        DRY_RUN g = false /\ boto3 rt = Some (inr client))
  /\ (statusCode (fst (lambda_handler rt g event context p)) = 200 ->
      DRY_RUN g = false ->
      exists client,
        S3 (snd (lambda_handler rt g event context p)) = Some client).
Proof.
  destruct (lambda_handler_continues rt g event context p)
    as (_ & _ & Hkeep & Hnew).
  split; [exact Hkeep|]. split; [|split].
  - intros Hdry.
    destruct (S3 (snd (lambda_handler rt g event context p)))
      as [client|] eqn:Hafter.
    + destruct (Hnew client eq_refl) as [Hp | [Hlive _]]; [now rewrite Hp|].
      rewrite Hdry in Hlive. discriminate Hlive.
    + destruct (S3 p) as [client|] eqn:Hbefore; [|reflexivity].
      specialize (Hkeep client eq_refl). discriminate Hkeep.
  - intros client Hbefore Hafter.
    destruct (Hnew client Hafter) as [Hp | H]; [|exact H].
    rewrite Hbefore in Hp. discriminate Hp.
  - intros Hstatus Hlive.
    unfold lambda_handler, try_except in Hstatus |- *.
    pose proof (caches_handler_body rt g event (_get_request_id rt context) p)
      as Hc.
    destruct (handler_body rt g event (_get_request_id rt context) p)
      as [[e|response] p1]; cbn [fst snd] in *.
    + destruct (is_ValueError e); cbn in Hstatus; discriminate Hstatus.
    + exact (Hc response p1 eq_refl Hstatus Hlive).
Qed.

(** Witness: the live run on the demo document starts with nothing cached
    and ends with the client that [boto3] built. *)
Lemma client_is_built_once_witness :
  exists client,
    S3 (snd (invoke live_runtime (document "demo" "1700000000"))) = Some client
    /\ boto3 live_runtime = Some (inr client).
Proof.
  destruct (client_is_built_once live_runtime (module_globals live_runtime)
              (example_event (document "demo" "1700000000")) example_context
              fresh_process) as (_ & _ & Hnew & Hcached).
  destruct Hcached as (client & Hclient);
    [vm_compute; reflexivity|vm_compute; reflexivity|].
  exists client. split; [exact Hclient|].
  exact (proj2 (Hnew client eq_refl Hclient)).
Defined.


(* ------------------------------------------------------------------ *)
(** ** What the result does not depend on *)

Lemma same_store_log_l rt module g level message fields p1 p2 :
  same_store rt module p1 p2 ->
  same_store rt module (_log g level message fields p1) p2.
Proof.
  intros (HS3 & Hreq & Hb). unfold same_store.
  now rewrite log_S3, log_s3_requests.
Qed.

Lemma same_store_log_r rt module g level message fields p1 p2 :
  same_store rt module p1 p2 ->
  same_store rt module p1 (_log g level message fields p2).
Proof.
  intros (HS3 & Hreq & Hb). unfold same_store.
  now rewrite log_S3, log_s3_requests.
Qed.

Section Alike.

Variable rt : Runtime.
Variable module : option (pyexc + S3Client).
Variables g1 g2 : Globals.
Hypothesis same_bucket : RAW_BUCKET_NAME g1 = RAW_BUCKET_NAME g2.
Hypothesis same_mode : DRY_RUN g1 = DRY_RUN g2.

Local Abbreviation rt2 := (with_boto3 rt module).
Local Abbreviation R := (same_store rt module).

Lemma alike_ret {A : Type} (a : A) : alike R (ret a) (ret a).
Proof. intros p1 p2 H. now split. Qed.

Lemma alike_raise {A : Type} e : alike R (raise (A := A) e) (raise e).
Proof. intros p1 p2 H. now split. Qed.

Lemma alike_lift {A : Type} (r : pyexc + A) : alike R (lift r) (lift r).
Proof. intros p1 p2 H. now split. Qed.

Lemma alike_log level message fields1 fields2 :
  alike R (log g1 level message fields1) (log g2 level message fields2).
Proof.
  intros p1 p2 H. unfold log, effect. cbn [fst snd]. split; [reflexivity|].
  now apply same_store_log_l, same_store_log_r.
Qed.

Lemma alike_bind {A B : Type} (m1 m2 : M A) (k1 k2 : A -> M B) :
  alike R m1 m2 -> (forall a, alike R (k1 a) (k2 a)) ->
  alike R (bind m1 k1) (bind m2 k2).
Proof.
  intros Hm Hk p1 p2 H. unfold bind. destruct (Hm p1 p2 H) as [Hr Hp].
  destruct (m1 p1) as [[e1|a1] q1], (m2 p2) as [[e2|a2] q2];
    cbn [fst snd] in *; try discriminate Hr.
  - inversion Hr; subst e2. now split.
  - inversion Hr; subst a2. now apply Hk.
Qed.

Lemma alike_get_s3_client :
  alike R (_get_s3_client rt g1) (_get_s3_client rt2 g2).
Proof.
  intros p1 p2 HR. pose proof HR as (HS3 & Hreq & Hb).
  unfold _get_s3_client.
  rewrite <- HS3, <- same_mode. cbn [boto3 with_boto3].
  destruct (S3 p1) as [client|] eqn:H1.
  { cbn [fst snd]. split; [reflexivity|exact HR]. }
  destruct Hb as [Hb | Hb]; [|now contradiction Hb].
  case (DRY_RUN g1).
  { unfold bind, log, effect, ret. cbn [fst snd]. split; [reflexivity|].
    apply same_store_log_l, same_store_log_r. exact HR. }
  revert HR. rewrite <- Hb.
  destruct (boto3 rt) as [[e|client]|]; intros HR.
  - cbn [fst snd]. split; [reflexivity|exact HR].
  - unfold bind, log, effect, ret. cbn [fst snd]. split; [reflexivity|].
    apply same_store_log_l, same_store_log_r.
    unfold same_store. cbn [S3 s3_requests].
    split; [reflexivity|]. split; [exact Hreq|]. right. discriminate.
  - unfold bind, log, effect, raise. cbn [fst snd]. split; [reflexivity|].
    apply same_store_log_l, same_store_log_r. exact HR.
Qed.

Lemma alike_s3_put_object s3 key text ctype :
  alike R (s3_put_object rt s3 (RAW_BUCKET_NAME g1) key text ctype)
          (s3_put_object rt2 s3 (RAW_BUCKET_NAME g2) key text ctype).
Proof.
  rewrite <- same_bucket. unfold s3_put_object.
  destruct s3 as [client|]; [|apply alike_raise].
  apply alike_bind; [apply alike_lift|intros data].
  apply alike_bind.
  - intros p1 p2 (HS3 & Hreq & Hb). unfold effect. cbn [fst snd].
    split; [reflexivity|].
    repeat split; cbn [S3 s3_requests]; auto. now rewrite Hreq.
  - intros _. cbn [put_object with_boto3].
    destruct (put_object rt (RAW_BUCKET_NAME g1) key data ctype);
      [apply alike_raise|apply alike_ret].
Qed.

Lemma alike_store short_reqId app_name ts_ms key body_str size_bytes :
  alike R (store rt g1 short_reqId app_name ts_ms key body_str size_bytes)
          (store rt2 g2 short_reqId app_name ts_ms key body_str size_bytes).
Proof.
  unfold store. rewrite <- same_mode. case (DRY_RUN g1).
  { apply alike_bind; [apply alike_log|intros _; apply alike_ret]. }
  intros p1 p2 H. unfold handled, try_except.
  assert (Hu : alike R
            (bind (upload rt g1 short_reqId app_name ts_ms key body_str size_bytes)
               (fun _ => ret (A := option Response) None))
            (bind (upload rt2 g2 short_reqId app_name ts_ms key body_str size_bytes)
               (fun _ => ret None))).
  { apply alike_bind; [|intros _; apply alike_ret].
    unfold upload. apply alike_bind; [apply alike_get_s3_client|intros s3].
    apply alike_bind; [apply alike_s3_put_object|intros _].
    apply alike_log. }
  destruct (Hu p1 p2 H) as [Hr Hp].
  match goal with
  | |- context [bind ?m ?k p1] => destruct (bind m k p1) as [[e1|a1] q1]
  end;
  match goal with
  | |- context [bind ?m ?k p2] => destruct (bind m k p2) as [[e2|a2] q2]
  end; cbn [fst snd] in *; try discriminate Hr.
  - split; [reflexivity|]. now apply same_store_log_l, same_store_log_r.
  - inversion Hr; subst a2. now split.
Qed.

Lemma success_body_same key size_bytes :
  success_body g1 key size_bytes = success_body g2 key size_bytes.
Proof. unfold success_body. now rewrite same_bucket, same_mode. Qed.

Lemma alike_process_payload short_reqId body_str payload :
  alike R (process_payload rt g1 short_reqId body_str payload)
          (process_payload rt2 g2 short_reqId body_str payload).
Proof.
  unfold process_payload.
  apply alike_bind; [apply alike_lift|intros app_name].
  destruct (valid_app_name app_name) as [name|].
  2:{ apply alike_bind; [apply alike_log|intros _; apply alike_ret]. }
  apply alike_bind; [apply alike_lift|intros ts].
  destruct (_normalize_timestamp_to_ms ts) as [e|ts_ms].
  { destruct (is_ValueError e); [|apply alike_raise].
    apply alike_bind; [apply alike_log|intros _; apply alike_ret]. }
  apply alike_bind; [apply alike_lift|intros ts_again].
  apply alike_bind; [apply alike_lift|intros keys].
  apply alike_bind; [apply alike_log|intros _].
  apply alike_bind; [apply alike_lift|intros [[yyyy mm] dd]].
  apply alike_bind; [apply alike_log|intros _].
  apply alike_bind; [apply alike_lift|intros data].
  apply alike_bind; [apply alike_store|intros early].
  rewrite success_body_same.
  destruct early; apply alike_ret.
Qed.

Lemma alike_lambda_handler event context p1 p2 :
  R p1 p2 ->
  fst (lambda_handler rt g1 event context p1)
  = fst (lambda_handler rt2 g2 event context p2)
  /\ R (snd (lambda_handler rt g1 event context p1))
       (snd (lambda_handler rt2 g2 event context p2)).
Proof.
  intros H. unfold lambda_handler, try_except.
  change (_get_request_id rt2 context) with (_get_request_id rt context).
  assert (Hb : alike R (handler_body rt g1 event (_get_request_id rt context))
                 (handler_body rt2 g2 event (_get_request_id rt context))).
  { unfold handler_body.
    apply alike_bind; [apply alike_lift|intros body_str].
    apply alike_bind; [apply alike_log|intros _].
    cbn [json_loads with_boto3].
    destruct (json_loads rt body_str) as [e|payload].
    - apply alike_bind; [apply alike_log|intros _; apply alike_ret].
    - apply alike_process_payload. }
  destruct (Hb p1 p2 H) as [Hr Hp].
  destruct (handler_body rt g1 event (_get_request_id rt context) p1)
    as [[e1|r1] q1],
    (handler_body rt2 g2 event (_get_request_id rt context) p2)
    as [[e2|r2] q2]; cbn [fst snd] in *; try discriminate Hr.
  - inversion Hr; subst e2. destruct (is_ValueError e1); cbn [fst snd];
      (split; [reflexivity|]; now apply same_store_log_l, same_store_log_r).
  - inversion Hr; subst r2. now split.
Qed.

End Alike.

Lemma with_boto3_same rt : with_boto3 rt (boto3 rt) = rt.
Proof. destruct rt. reflexivity. Qed.

(** Logging only observes: two configurations with the same bucket and the
    same mode, run from processes that differ at most in what was printed,
    give the same response, send the same requests and cache the same
    client, whatever [LOG_LEVEL] is in each. *)
Theorem log_level_does_not_change_the_result rt g1 g2 event context p1 p2 :
  RAW_BUCKET_NAME g1 = RAW_BUCKET_NAME g2 ->
  DRY_RUN g1 = DRY_RUN g2 ->
  same_but_output p1 p2 ->
  fst (lambda_handler rt g1 event context p1)
  = fst (lambda_handler rt g2 event context p2)
  /\ same_but_output (snd (lambda_handler rt g1 event context p1))
       (snd (lambda_handler rt g2 event context p2)).
Proof.
  intros Hbucket Hmode [HS3 Hreq].
  destruct (alike_lambda_handler rt (boto3 rt) g1 g2 Hbucket Hmode
              event context p1 p2) as (Hr & H1 & H2 & _).
  { repeat split; auto. }
  rewrite with_boto3_same in Hr, H1, H2. now repeat split.
Qed.

(** Witness: the demo document in live mode, at [LOG_LEVEL] "DEBUG" and at
    "ERROR". *)
Lemma log_level_does_not_change_the_result_witness :
  fst (lambda_handler live_runtime
         {| RAW_BUCKET_NAME := py "zoolanding-data-raw";
            LOG_LEVEL := py "DEBUG"; DRY_RUN := false |}
         (example_event (document "demo" "1700000000")) example_context
         fresh_process)
  = fst (lambda_handler live_runtime
           {| RAW_BUCKET_NAME := py "zoolanding-data-raw";
              LOG_LEVEL := py "ERROR"; DRY_RUN := false |}
           (example_event (document "demo" "1700000000")) example_context
           fresh_process).
Proof.
  refine (proj1 (log_level_does_not_change_the_result live_runtime _ _
                   (example_event (document "demo" "1700000000"))
                   example_context fresh_process fresh_process _ _ _)).
  - reflexivity.
  - reflexivity.
  - split; reflexivity.
Defined.

(** Once a client is cached the handler no longer looks at [boto3]: with
    any other [boto3], missing or failing, the response, the requests and
    the cached client are the same. *)
Theorem cached_client_is_reused rt module g event context p client :
  S3 p = Some client ->
  fst (lambda_handler (with_boto3 rt module) g event context p)
  = fst (lambda_handler rt g event context p)
  /\ same_but_output
       (snd (lambda_handler (with_boto3 rt module) g event context p))
       (snd (lambda_handler rt g event context p)).
Proof.
  intros Hcached.
  destruct (alike_lambda_handler rt module g g eq_refl eq_refl
              event context p p) as (Hr & H1 & H2 & _).
  { repeat split. right. rewrite Hcached. discriminate. }
  split; [symmetry; exact Hr|]. split; symmetry; assumption.
Qed.

(** Witness: with a client cached, the demo document is stored although
    [boto3] is missing. *)
Lemma cached_client_is_reused_witness :
  statusCode
    (fst (lambda_handler (with_boto3 live_runtime None)
            (module_globals live_runtime)
            (example_event (document "demo" "1700000000")) example_context
            {| S3 := Some BotoS3Client; stdout := []; s3_requests := [] |}))
  = 200.
Proof.
  rewrite (proj1 (cached_client_is_reused live_runtime None
                    (module_globals live_runtime)
                    (example_event (document "demo" "1700000000"))
                    example_context
                    {| S3 := Some BotoS3Client; stdout := [];
                       s3_requests := [] |}
                    BotoS3Client eq_refl)).
  vm_compute. reflexivity.
Defined.

(* ------------------------------------------------------------------ *)
(** ** The decoder and the request identifier *)

(** The handler reads the event through the decoder alone. *)
Lemma handler_reads_decoded_body rt g event1 event2 context p :
  _decode_body rt event1 = _decode_body rt event2 ->
  lambda_handler rt g event1 context p = lambda_handler rt g event2 context p.
Proof.
  intros H. unfold lambda_handler, handler_body. now rewrite H.
Qed.

(** When the decoder raises, the handler answers 400 with the error's text
    for a [ValueError] and the 500 server error for anything else, and
    sends nothing. *)
Lemma decode_failure rt g event context p e :
  _decode_body rt event = inl e ->
  fst (lambda_handler rt g event context p)
  = (if is_ValueError e then _bad_request (exc_str e) else _server_error)
  /\ s3_requests (snd (lambda_handler rt g event context p)) = s3_requests p.
Proof.
  intros H. unfold lambda_handler, try_except, handler_body, bind, lift.
  rewrite H. destruct (is_ValueError e); cbn [fst snd];
    (split; [reflexivity|now rewrite log_s3_requests]).
Qed.

(** An event with no body, a [None] body or an empty text body is answered
    400 "Missing body", whatever its base64 flag, and nothing is sent. *)
Theorem missing_body_is_400 rt g event context p :
  dict_get event (py "body") PNone = PNone
  \/ dict_get event (py "body") PNone = PStr [] ->
  fst (lambda_handler rt g event context p) = _bad_request (py "Missing body")
  /\ s3_requests (snd (lambda_handler rt g event context p)) = s3_requests p.
Proof.
  intros H.
  apply (decode_failure rt g event context p
           (Exc ValueError (py "Missing body"))).
  unfold _decode_body. now destruct H as [-> | ->].
Qed.

(** Witness: the empty event, and an empty body flagged as base64. *)
Lemma missing_body_is_400_witness :
  fst (lambda_handler live_runtime (module_globals live_runtime) []
         example_context fresh_process)
  = _bad_request (py "Missing body")
  /\ fst (lambda_handler live_runtime (module_globals live_runtime)
            [(py "body", PStr []); (py "isBase64Encoded", PBool true)]
            example_context fresh_process)
     = _bad_request (py "Missing body").
Proof.
  split.
  - apply (missing_body_is_400 live_runtime (module_globals live_runtime) []
             example_context fresh_process). left. reflexivity.
  - apply (missing_body_is_400 live_runtime (module_globals live_runtime)
             [(py "body", PStr []); (py "isBase64Encoded", PBool true)]
             example_context fresh_process). right. reflexivity.
Defined.

(** A body that is there but is no text, under a base64 flag that is true
    in Python's sense (so also the text "false" or the number 1), is
    answered 400 "Body is base64Encoded but not a string"; nothing is
    decoded and nothing is sent. *)
Theorem base64_flag_needs_text rt g event context p :
  truthy (dict_get event (py "isBase64Encoded") (PBool false)) = true ->
  match dict_get event (py "body") PNone with
  | PNone | PStr _ => False
  | _ => True
  end ->
  fst (lambda_handler rt g event context p)
  = _bad_request (py "Body is base64Encoded but not a string")
  /\ s3_requests (snd (lambda_handler rt g event context p)) = s3_requests p.
Proof.
  intros Hflag Hbody.
  apply (decode_failure rt g event context p
           (Exc ValueError (py "Body is base64Encoded but not a string"))).
  unfold _decode_body. rewrite Hflag.
  destruct (dict_get event (py "body") PNone); try contradiction; reflexivity.
Qed.

(** Witness: a body already parsed into a dict, with the flag set to the
    text "false". *)
Lemma base64_flag_needs_text_witness :
  fst (lambda_handler live_runtime (module_globals live_runtime)
         [(py "body", parsed "demo" (PInt 1700000000));
          (py "isBase64Encoded", PStr (py "false"))]
         example_context fresh_process)
  = _bad_request (py "Body is base64Encoded but not a string").
Proof.
  apply (base64_flag_needs_text live_runtime (module_globals live_runtime)
           [(py "body", parsed "demo" (PInt 1700000000));
            (py "isBase64Encoded", PStr (py "false"))]
           example_context fresh_process).
  - reflexivity.
  - exact I.
Defined.

(** Encoding transparency: a base64 body that decodes to the text [text],
    and a bytes body that decodes to it, are handled exactly as the plain
    text body [text], provided [text] is not empty. *)
Theorem encoding_transparency rt g coded plain context p text :
  dict_get plain (py "body") PNone = PStr text ->
  truthy (dict_get plain (py "isBase64Encoded") (PBool false)) = false ->
  text <> [] ->
  (exists s,
     dict_get coded (py "body") PNone = PStr s
     /\ s <> []
     /\ truthy (dict_get coded (py "isBase64Encoded") (PBool false)) = true
     /\ bindE (b64decode rt s) (utf8_decode rt) = inr text)
  \/ (exists b,
        dict_get coded (py "body") PNone = PBytes b
        /\ truthy (dict_get coded (py "isBase64Encoded") (PBool false)) = false
        /\ utf8_decode rt b = inr text) ->
  lambda_handler rt g coded context p = lambda_handler rt g plain context p.
Proof.
  intros Hplain Hflag Htext Hcoded.
  apply handler_reads_decoded_body.
  assert (Hp : _decode_body rt plain = inr text).
  { unfold _decode_body. rewrite Hplain, Hflag.
    destruct text; [contradiction|reflexivity]. }
  rewrite Hp.
  destruct Hcoded as [(s & Hbody & Hs & Hb64 & Hdec) | (b & Hbody & Hb64 & Hdec)];
    unfold _decode_body; rewrite Hbody, Hb64.
  - destruct s; [contradiction|exact Hdec].
  - exact Hdec.
Qed.

(** Witness: the demo document in base64, and as plain text. *)
Lemma encoding_transparency_witness :
  lambda_handler codec_runtime (module_globals codec_runtime)
    [(py "isBase64Encoded", PBool true); (py "body", PStr demo_base64)]
    example_context fresh_process
  = lambda_handler codec_runtime (module_globals codec_runtime)
      (example_event (document "demo" "1700000000"))
      example_context fresh_process
  /\ statusCode
       (fst (lambda_handler codec_runtime (module_globals codec_runtime)
               [(py "isBase64Encoded", PBool true); (py "body", PStr demo_base64)]
               example_context fresh_process)) = 200.
Proof.
  assert (H : lambda_handler codec_runtime (module_globals codec_runtime)
                [(py "isBase64Encoded", PBool true); (py "body", PStr demo_base64)]
                example_context fresh_process
              = lambda_handler codec_runtime (module_globals codec_runtime)
                  (example_event (document "demo" "1700000000"))
                  example_context fresh_process).
  { apply (encoding_transparency codec_runtime (module_globals codec_runtime)
             [(py "isBase64Encoded", PBool true); (py "body", PStr demo_base64)]
             (example_event (document "demo" "1700000000"))
             example_context fresh_process (document "demo" "1700000000")).
    - reflexivity.
    - reflexivity.
    - vm_compute. discriminate.
    - left. exists demo_base64. repeat split; try (vm_compute; reflexivity).
      vm_compute. discriminate. }
  split; [exact H|]. rewrite H. vm_compute. reflexivity.
Defined.

(** A base64 or bytes body that its codec refuses: the handler answers 400
    with the codec's own message when the error is a [ValueError], as those
    of [base64] and of [decode] are, and the 500 server error otherwise;
    nothing is sent. *)
Theorem undecodable_body rt g event context p e :
  (exists s,
     dict_get event (py "body") PNone = PStr s
     /\ s <> []
     /\ truthy (dict_get event (py "isBase64Encoded") (PBool false)) = true
     /\ bindE (b64decode rt s) (utf8_decode rt) = inl e)
  \/ (exists b,
        dict_get event (py "body") PNone = PBytes b
        /\ truthy (dict_get event (py "isBase64Encoded") (PBool false)) = false
        /\ utf8_decode rt b = inl e) ->
  fst (lambda_handler rt g event context p)
  = (if is_ValueError e then _bad_request (exc_str e) else _server_error)
  /\ s3_requests (snd (lambda_handler rt g event context p)) = s3_requests p.
Proof.
  intros H. apply decode_failure.
  destruct H as [(s & Hbody & Hs & Hflag & Hdec) | (b & Hbody & Hflag & Hdec)];
    unfold _decode_body; rewrite Hbody, Hflag.
  - destruct s; [contradiction|exact Hdec].
  - exact Hdec.
Qed.

(** Witness: a base64 flag on text that is not base64. *)
Lemma undecodable_body_witness :
  fst (lambda_handler codec_runtime (module_globals codec_runtime)
         [(py "isBase64Encoded", PBool true); (py "body", PStr (py "{not base64"))]
         example_context fresh_process)
  = _bad_request (py "Incorrect padding").
Proof.
  refine (proj1 (undecodable_body codec_runtime (module_globals codec_runtime)
                   [(py "isBase64Encoded", PBool true);
                    (py "body", PStr (py "{not base64"))]
                   example_context fresh_process
                   (Exc ValueError (py "Incorrect padding")) _)).
  left. exists (py "{not base64").
  repeat split; try (vm_compute; reflexivity). vm_compute. discriminate.
Defined.

(** A body that is already structured (an object, a list, a number, a
    boolean), with no base64 flag, is written out by [json.dumps] and
    handled exactly as that text sent as a plain body, so what is stored is
    the text [json.dumps] wrote; when [json.dumps] raises, the handler
    answers 400 for a [ValueError] and the 500 server error otherwise, and
    sends nothing. *)
Theorem structured_body_is_reserialized rt g event context p :
  truthy (dict_get event (py "isBase64Encoded") (PBool false)) = false ->
  match dict_get event (py "body") PNone with
  | PNone | PStr _ | PBytes _ => False
  | _ => True
  end ->
  match json_dumps rt (dict_get event (py "body") PNone) with
  | inr text =>
      text <> [] ->
      lambda_handler rt g event context p
      = lambda_handler rt g (example_event text) context p
  | inl e =>
      fst (lambda_handler rt g event context p)
      = (if is_ValueError e then _bad_request (exc_str e) else _server_error)
      /\ s3_requests (snd (lambda_handler rt g event context p))
         = s3_requests p
  end.
Proof.
  intros Hflag Hbody.
  assert (H : _decode_body rt event
              = json_dumps rt (dict_get event (py "body") PNone)).
  { unfold _decode_body. rewrite Hflag.
    destruct (dict_get event (py "body") PNone); try contradiction;
      reflexivity. }
  destruct (json_dumps rt (dict_get event (py "body") PNone))
    as [e|text] eqn:E.
  - now apply decode_failure.
  - intros Htext. apply handler_reads_decoded_body. rewrite H.
    destruct text; [contradiction|reflexivity].
Qed.

(** Witness: the sample payload of the harness, sent as an object. *)
Lemma structured_body_is_reserialized_witness :
  lambda_handler codec_runtime (module_globals codec_runtime)
    [(py "body", sample_payload)] example_context fresh_process
  = lambda_handler codec_runtime (module_globals codec_runtime)
      (example_event sample_text) example_context fresh_process.
Proof.
  refine (structured_body_is_reserialized codec_runtime
            (module_globals codec_runtime) [(py "body", sample_payload)]
            example_context fresh_process _ _ _).
  - vm_compute. reflexivity.
  - vm_compute. exact I.
  - vm_compute. discriminate.
Defined.

(** [_get_request_id]: the short identifier has at most 8 characters.  When
    the context gives a text of at least 8 characters it is the last 8 of
    them; in every other case (no identifier, one that is no text, a text
    of fewer than 8 characters) the identifier given is ignored and the
    short one is the tail of the clock's hexadecimal. *)
Theorem request_id_is_short rt context :
  (List.length (_get_request_id rt context) <= 8)%nat
  /\ match aws_request_id context with
     | PStr reqId =>
         if (8 <=? List.length reqId)%nat
         then List.length (_get_request_id rt context) = 8%nat
              /\ exists front, reqId = front ++ _get_request_id rt context
         else _get_request_id rt context = last_chars 8 (hex (now_ms rt))
     | _ => _get_request_id rt context = last_chars 8 (hex (now_ms rt))
     end.
Proof.
  assert (Hlen : forall s, (List.length (last_chars 8 s) <= 8)%nat).
  { intros s. unfold last_chars. rewrite length_skipn. lia. }
  unfold _get_request_id.
  destruct (aws_request_id context) as [ | b | n | f | reqId | b | l | d ];
    try (split; [apply Hlen|reflexivity]).
  destruct (8 <=? List.length reqId)%nat eqn:E.
  - split; [apply Hlen|]. apply Nat.leb_le in E. split.
    + unfold last_chars. rewrite length_skipn. lia.
    + exists (firstn (List.length reqId - 8) reqId).
      unfold last_chars. now rewrite firstn_skipn.
  - split; [apply Hlen|reflexivity].
Qed.

(* ------------------------------------------------------------------ *)
(** ** The application name *)

Lemma lstrip_nil s : lstrip s = [] <-> forallb py_isspace s = true.
Proof.
  induction s as [|c s IH]; [now split|].
  cbn [lstrip forallb]. destruct (py_isspace c); cbn [andb].
  - exact IH.
  - split; discriminate.
Qed.

Lemma lstrip_lstrip s : lstrip (lstrip s) = lstrip s.
Proof.
  induction s as [|c s IH]; [reflexivity|].
  cbn [lstrip]. destruct (py_isspace c) eqn:E; [exact IH|].
  cbn [lstrip]. now rewrite E.
Qed.

Lemma forallb_rev {A : Type} (f : A -> bool) l :
  forallb f (rev l) = forallb f l.
Proof.
  induction l as [|a l IH]; [reflexivity|].
  cbn [rev forallb]. rewrite forallb_app, IH. cbn [forallb].
  rewrite andb_true_r. apply andb_comm.
Qed.

Lemma strip_nil s : strip s = [] <-> forallb py_isspace s = true.
Proof.
  split; [|apply strip_blank].
  unfold strip. intros H.
  assert (H1 : lstrip (rev (lstrip s)) = []).
  { destruct (lstrip (rev (lstrip s))); [reflexivity|].
    apply (f_equal (@List.length Z)) in H.
    rewrite length_rev in H. discriminate H. }
  apply lstrip_nil in H1. rewrite forallb_rev in H1.
  apply lstrip_nil. rewrite <- lstrip_lstrip. now apply lstrip_nil.
Qed.

(** The [appName] test passes exactly on a text with at least one character
    that is no whitespace, and hands the name on untrimmed. *)
Theorem app_name_test v :
  valid_app_name v
  = match v with
    | PStr s => if forallb py_isspace s then None else Some s
    | _ => None
    end.
Proof.
  destruct v; try reflexivity. cbn [valid_app_name truthy].
  destruct (forallb py_isspace s) eqn:E.
  - apply strip_nil in E. now rewrite E.
  - destruct (strip s) eqn:Es; [|reflexivity].
    apply strip_nil in Es. rewrite Es in E. discriminate E.
Qed.

(* ------------------------------------------------------------------ *)
(** ** The calendar *)

Lemma holds_from_spec f count start r :
  holds_from f start count = true ->
  start <= r < start + Z.of_nat count ->
  f r = true.
Proof.
  revert start. induction count as [|k IH]; intros start; [cbn; lia|].
  cbn [holds_from]. intros H Hr. apply andb_true_iff in H.
  destruct H as [Hs Hk].
  destruct (Z.eq_dec r start) as [-> | Hne]; [exact Hs|].
  apply (IH (Z.succ start)); [exact Hk|lia].
Qed.

(** In one cycle of 400 years every day number gets a date of the
    calendar from which [_ymd2ord] gives it back. *)
Lemma one_cycle :
  holds_from
    (fun r => calendar_date (_ord2ymd r) && (_ymd2ord (_ord2ymd r) =? r))
    1 (Z.to_nat DAYS_IN_400_YEARS) = true.
Proof. vm_compute. reflexivity. Qed.

(** Day numbers 400 years apart get the same month and day, 400 years
    apart. *)
Lemma ord2ymd_shift n q :
  _ord2ymd (n + q * DAYS_IN_400_YEARS)
  = (fst (fst (_ord2ymd n)) + 400 * q, snd (fst (_ord2ymd n)),
     snd (_ord2ymd n)).
Proof.
  unfold _ord2ymd, DAYS_IN_400_YEARS.
  replace (n + q * 146097 - 1) with (n - 1 + q * 146097) by lia.
  rewrite Z.div_add, Z.mod_add by lia.
  cbv zeta.
  repeat match goal with
         | |- context [if ?b then _ else _] => destruct b
         end; cbn [fst snd]; f_equal; try f_equal; lia.
Qed.

Lemma is_leap_shift year q : _is_leap (year + 400 * q) = _is_leap year.
Proof.
  unfold _is_leap.
  replace (year + 400 * q) with (year + (100 * q) * 4) at 1 by lia.
  replace (year + 400 * q) with (year + (4 * q) * 100) at 1 by lia.
  replace (year + 400 * q) with (year + q * 400) by lia.
  now rewrite !Z.mod_add by lia.
Qed.

Lemma calendar_date_shift year month day q :
  calendar_date (year + 400 * q, month, day) = calendar_date (year, month, day).
Proof.
  unfold calendar_date, _days_in_month. now rewrite is_leap_shift.
Qed.

Lemma ymd2ord_shift year month day q :
  _ymd2ord (year + 400 * q, month, day)
  = _ymd2ord (year, month, day) + q * DAYS_IN_400_YEARS.
Proof.
  unfold _ymd2ord, _days_before_month, _days_before_year, DAYS_IN_400_YEARS.
  rewrite is_leap_shift. cbv zeta.
  replace (year + 400 * q - 1) with (year - 1 + (100 * q) * 4) at 2 by lia.
  replace (year + 400 * q - 1) with (year - 1 + (4 * q) * 100) at 2 by lia.
  replace (year + 400 * q - 1) with (year - 1 + q * 400) at 2 by lia.
  rewrite !Z.div_add by lia. lia.
Qed.

(** Every day number gets a date of the calendar, and [_ymd2ord] gives the
    day number back. *)
Lemma ord2ymd_is_a_date n :
  calendar_date (_ord2ymd n) = true /\ _ymd2ord (_ord2ymd n) = n.
Proof.
  set (q := (n - 1) / DAYS_IN_400_YEARS).
  set (r := (n - 1) mod DAYS_IN_400_YEARS + 1).
  assert (Hn : n = r + q * DAYS_IN_400_YEARS).
  { unfold r, q, DAYS_IN_400_YEARS.
    pose proof (Z.div_mod (n - 1) 146097). lia. }
  assert (Hr : 1 <= r < 1 + Z.of_nat (Z.to_nat DAYS_IN_400_YEARS)).
  { unfold r, DAYS_IN_400_YEARS.
    pose proof (Z.mod_pos_bound (n - 1) 146097). lia. }
  pose proof (holds_from_spec _ _ _ r one_cycle Hr) as H.
  cbv beta in H. apply andb_true_iff in H. destruct H as [Hdate Hback].
  apply Z.eqb_eq in Hback.
  rewrite Hn, ord2ymd_shift.
  destruct (_ord2ymd r) as [[year month] day]. cbn [fst snd] in *.
  rewrite calendar_date_shift, ymd2ord_shift. split; [exact Hdate|lia].
Qed.

Lemma day_of_year_bound year month day :
  calendar_date (year, month, day) = true ->
  1 <= _days_before_month year month + day <= 366.
Proof.
  unfold calendar_date, _days_before_month, _days_in_month. intros H.
  repeat (apply andb_true_iff in H; destruct H as [H ?]).
  repeat match goal with
         | H : (_ <=? _) = true |- _ => apply Z.leb_le in H
         end.
  assert (Hall : forall leap,
    holds_from
      (fun m =>
         (0 <=? table _DAYS_BEFORE_MONTH m + int_of_bool ((2 <? m) && leap))
         && (table _DAYS_BEFORE_MONTH m + int_of_bool ((2 <? m) && leap)
             + (if (m =? 2) && leap then 29 else table _DAYS_IN_MONTH m)
             <=? 366))
      1 12 = true) by (intros []; vm_compute; reflexivity).
  assert (Hm : 1 <= month < 1 + Z.of_nat 12) by (cbn; lia).
  pose proof (holds_from_spec _ _ _ month (Hall (_is_leap year)) Hm) as Hb.
  cbv beta in Hb. apply andb_true_iff in Hb. destruct Hb as [Hlo Hhi].
  apply Z.leb_le in Hlo, Hhi. lia.
Qed.

Lemma year_in_range year month day :
  calendar_date (year, month, day) = true ->
  1 <= _ymd2ord (year, month, day) <= MAX_ORDINAL ->
  1 <= year <= 9999.
Proof.
  intros Hdate Hord. pose proof (day_of_year_bound year month day Hdate) as Hd.
  unfold _ymd2ord, _days_before_year, MAX_ORDINAL in Hord.
  cbv zeta in Hord.
  pose proof (Z.div_mod (year - 1) 4).
  pose proof (Z.mod_pos_bound (year - 1) 4).
  pose proof (Z.div_mod (year - 1) 100).
  pose proof (Z.mod_pos_bound (year - 1) 100).
  pose proof (Z.div_mod (year - 1) 400).
  pose proof (Z.mod_pos_bound (year - 1) 400).
  lia.
Qed.

Lemma utc_date_run rt ts_ms :
  Z.abs ts_ms < FLOAT_OVERFLOW ->
  utc_date rt ts_ms
  = (if (1 <=? ts_ms / MS_PER_DAY + EPOCH_ORDINAL)
        && (ts_ms / MS_PER_DAY + EPOCH_ORDINAL <=? MAX_ORDINAL)
     then inr (_ord2ymd (ts_ms / MS_PER_DAY + EPOCH_ORDINAL))
     else inl (fromtimestamp_error rt ts_ms)).
Proof.
  intros H. unfold utc_date. now rewrite (float_of_int_small ts_ms H).
Qed.

Lemma ordinal_in_range ts_ms :
  (1 <=? ts_ms / MS_PER_DAY + EPOCH_ORDINAL)
  && (ts_ms / MS_PER_DAY + EPOCH_ORDINAL <=? MAX_ORDINAL) = true
  <-> MIN_TIMESTAMP_MS <= ts_ms <= MAX_TIMESTAMP_MS.
Proof.
  unfold MS_PER_DAY, EPOCH_ORDINAL, MAX_ORDINAL, MIN_TIMESTAMP_MS,
    MAX_TIMESTAMP_MS.
  rewrite andb_true_iff, !Z.leb_le.
  pose proof (Z.div_mod ts_ms 86400000).
  pose proof (Z.mod_pos_bound ts_ms 86400000).
  lia.
Qed.

Lemma derive_date_parts_cases rt ts_ms :
  (MIN_TIMESTAMP_MS <= ts_ms <= MAX_TIMESTAMP_MS
   /\ exists year month day,
        _ord2ymd (ts_ms / MS_PER_DAY + EPOCH_ORDINAL) = (year, month, day)
        /\ 1 <= ts_ms / MS_PER_DAY + EPOCH_ORDINAL <= MAX_ORDINAL
        /\ _derive_date_parts rt ts_ms
           = inr (str_of_int year, zfill 2 (str_of_int month),
                  zfill 2 (str_of_int day)))
  \/ ((ts_ms < MIN_TIMESTAMP_MS \/ MAX_TIMESTAMP_MS < ts_ms)
      /\ exists e, _derive_date_parts rt ts_ms = inl e).
Proof.
  assert (Hbig : MAX_TIMESTAMP_MS < FLOAT_OVERFLOW
                 /\ - FLOAT_OVERFLOW < MIN_TIMESTAMP_MS)
    by (split; vm_compute; reflexivity).
  unfold _derive_date_parts.
  destruct (Z_lt_le_dec (Z.abs ts_ms) FLOAT_OVERFLOW) as [Hs | Hl].
  - rewrite (utc_date_run rt ts_ms Hs).
    destruct ((1 <=? ts_ms / MS_PER_DAY + EPOCH_ORDINAL)
              && (ts_ms / MS_PER_DAY + EPOCH_ORDINAL <=? MAX_ORDINAL)) eqn:E.
    + left. pose proof E as Hord. apply ordinal_in_range in E.
      split; [exact E|].
      apply andb_true_iff in Hord. rewrite !Z.leb_le in Hord.
      destruct (_ord2ymd (ts_ms / MS_PER_DAY + EPOCH_ORDINAL))
        as [[year month] day].
      exists year, month, day. repeat split; tauto.
    + right. split; [|eexists; reflexivity].
      destruct (Z_lt_le_dec ts_ms MIN_TIMESTAMP_MS) as [|Hlo]; [now left|].
      destruct (Z_lt_le_dec MAX_TIMESTAMP_MS ts_ms) as [|Hhi]; [now right|].
      assert (Hin : MIN_TIMESTAMP_MS <= ts_ms <= MAX_TIMESTAMP_MS) by lia.
      apply ordinal_in_range in Hin. rewrite Hin in E. discriminate E.
  - right. split; [lia|].
    unfold utc_date. rewrite (float_of_int_large ts_ms Hl). eexists.
    reflexivity.
Qed.

(** [_derive_date_parts] gives a date exactly for the milliseconds from
    0001-01-01T00:00:00.000 to 9999-12-31T23:59:59.999; outside it raises. *)
Theorem dates_from_year_1_to_9999 rt ts_ms :
  (exists yyyy mm dd, _derive_date_parts rt ts_ms = inr (yyyy, mm, dd))
  <-> MIN_TIMESTAMP_MS <= ts_ms <= MAX_TIMESTAMP_MS.
Proof.
  destruct (derive_date_parts_cases rt ts_ms)
    as [(Hin & year & month & day & _ & _ & Hrun) | (Hout & e & Hrun)].
  - split; [intros _; exact Hin|]. intros _. rewrite Hrun. eauto.
  - split; [|lia]. intros (yyyy & mm & dd & H). rewrite Hrun in H.
    discriminate H.
Qed.

Lemma two_digits k :
  1 <= k <= 31 -> List.length (zfill 2 (str_of_int k)) = 2%nat.
Proof.
  intros H.
  assert (Hall : holds_from
            (fun k => Nat.eqb (List.length (zfill 2 (str_of_int k))) 2)
            1 31 = true) by (vm_compute; reflexivity).
  apply Nat.eqb_eq.
  apply (holds_from_spec _ _ _ k Hall). cbn. lia.
Qed.

Lemma four_digits y :
  1000 <= y <= 9999 -> List.length (str_of_int y) = 4%nat.
Proof.
  intros H.
  assert (Hall : holds_from
            (fun y => Nat.eqb (List.length (str_of_int y)) 4)
            1000 (Z.to_nat 9000) = true) by (vm_compute; reflexivity).
  apply Nat.eqb_eq.
  apply (holds_from_spec _ _ _ y Hall). rewrite Z2Nat.id; lia.
Qed.

Lemma year_reads_back y :
  1 <= y <= 9999 -> decimal_value (str_of_int y) = y.
Proof.
  intros H.
  assert (Hall : holds_from (fun y => decimal_value (str_of_int y) =? y)
                   1 (Z.to_nat 9999) = true) by (vm_compute; reflexivity).
  apply Z.eqb_eq.
  apply (holds_from_spec _ _ _ y Hall). rewrite Z2Nat.id; lia.
Qed.

Lemma two_digits_read_back k :
  1 <= k <= 31 -> decimal_value (zfill 2 (str_of_int k)) = k.
Proof.
  intros H.
  assert (Hall : holds_from
            (fun k => decimal_value (zfill 2 (str_of_int k)) =? k) 1 31
          = true) by (vm_compute; reflexivity).
  apply Z.eqb_eq.
  apply (holds_from_spec _ _ _ k Hall). cbn. lia.
Qed.

(** What [_derive_date_parts] returns, when it returns. *)
Lemma date_parts_spec rt ts_ms yyyy mm dd :
  _derive_date_parts rt ts_ms = inr (yyyy, mm, dd) ->
  exists year month day,
    _ord2ymd (ts_ms / MS_PER_DAY + EPOCH_ORDINAL) = (year, month, day)
    /\ calendar_date (year, month, day) = true
    /\ 1 <= year <= 9999 /\ 1 <= month <= 12 /\ 1 <= day <= 31
    /\ _ymd2ord (year, month, day) - EPOCH_ORDINAL = ts_ms / MS_PER_DAY
    /\ yyyy = str_of_int year
    /\ mm = zfill 2 (str_of_int month)
    /\ dd = zfill 2 (str_of_int day).
Proof.
  intros H.
  destruct (derive_date_parts_cases rt ts_ms)
    as [(Hin & year & month & day & Hymd & Hord & Hrun) | (Hout & e & Hrun)];
    rewrite Hrun in H; [|discriminate H].
  inversion H; subst yyyy mm dd. clear H.
  destruct (ord2ymd_is_a_date (ts_ms / MS_PER_DAY + EPOCH_ORDINAL))
    as [Hdate Hback].
  rewrite Hymd in Hdate, Hback.
  assert (Hyear : 1 <= year <= 9999).
  { apply (year_in_range year month day Hdate). now rewrite Hback. }
  exists year, month, day.
  split; [exact Hymd|]. split; [exact Hdate|]. split; [exact Hyear|].
  pose proof Hdate as Hd. unfold calendar_date in Hd.
  repeat (apply andb_true_iff in Hd; destruct Hd as [Hd ?]).
  repeat match goal with
         | H : (_ <=? _) = true |- _ => apply Z.leb_le in H
         end.
  assert (Hdim : _days_in_month year month <= 31).
  { pose proof (day_of_year_bound year month day Hdate).
    unfold _days_in_month.
    destruct ((month =? 2) && _is_leap year); [lia|].
    assert (Hall : holds_from (fun m => table _DAYS_IN_MONTH m <=? 31) 1 12
                   = true) by (vm_compute; reflexivity).
    apply Z.leb_le. apply (holds_from_spec _ _ _ month Hall). cbn. lia. }
  split; [lia|]. split; [lia|]. split; [lia|].
  split; [reflexivity|]. split; reflexivity.
Qed.

(** The date parts are those of a real date: a year from 1 to 9999, a
    month from 1 to 12 and a day that month has in that year, whose day
    number is the UTC day of the timestamp; month and day are written on
    two digits, and the year on four from year 1000 on. *)
Theorem date_parts_are_a_date rt ts_ms yyyy mm dd :
  _derive_date_parts rt ts_ms = inr (yyyy, mm, dd) ->
  exists year month day,
    calendar_date (year, month, day) = true
    /\ 1 <= year <= 9999
    /\ _ymd2ord (year, month, day) - EPOCH_ORDINAL = ts_ms / MS_PER_DAY
    /\ yyyy = str_of_int year
    /\ mm = zfill 2 (str_of_int month)
    /\ dd = zfill 2 (str_of_int day)
    /\ List.length mm = 2%nat
    /\ List.length dd = 2%nat
    /\ (1000 <= year -> List.length yyyy = 4%nat).
Proof.
  intros H.
  destruct (date_parts_spec rt ts_ms yyyy mm dd H)
    as (year & month & day & _ & Hdate & Hy & Hm & Hd & Hord & -> & -> & ->).
  exists year, month, day.
  split; [exact Hdate|]. split; [exact Hy|]. split; [exact Hord|].
  split; [reflexivity|]. split; [reflexivity|]. split; [reflexivity|].
  split; [apply two_digits; lia|]. split; [apply two_digits; lia|].
  intros Hk. apply four_digits. lia.
Qed.

(** Two timestamps get the same date parts, and so the same date in their
    keys, exactly when they fall on the same UTC day. *)
Theorem same_date_same_day rt ts1 ts2 parts1 parts2 :
  _derive_date_parts rt ts1 = inr parts1 ->
  _derive_date_parts rt ts2 = inr parts2 ->
  (parts1 = parts2 <-> ts1 / MS_PER_DAY = ts2 / MS_PER_DAY).
Proof.
  destruct parts1 as [[yyyy1 mm1] dd1], parts2 as [[yyyy2 mm2] dd2].
  intros H1 H2.
  destruct (date_parts_spec rt ts1 yyyy1 mm1 dd1 H1)
    as (y1 & m1 & d1 & Hymd1 & _ & Hy1 & Hm1 & Hd1 & Hord1 & -> & -> & ->).
  destruct (date_parts_spec rt ts2 yyyy2 mm2 dd2 H2)
    as (y2 & m2 & d2 & Hymd2 & _ & Hy2 & Hm2 & Hd2 & Hord2 & -> & -> & ->).
  split.
  - intros H. inversion H as [[Hy Hm Hd]].
    apply (f_equal decimal_value) in Hy, Hm, Hd.
    rewrite !year_reads_back in Hy by assumption.
    rewrite !two_digits_read_back in Hm by lia.
    rewrite !two_digits_read_back in Hd by assumption.
    subst y2 m2 d2. lia.
  - intros H. rewrite H in Hymd1. rewrite Hymd1 in Hymd2.
    inversion Hymd2; subst y2 m2 d2. reflexivity.
Qed.

(** An integer timestamp is given a date exactly when it is a number of
    seconds of the years 1 to 9999, or a number of milliseconds from
    [10^12] (2001-09-09) to the end of year 9999.  The integers from
    253402300800 to [10^12 - 1] are refused: too large as seconds, too
    small to be read as milliseconds. *)
Theorem integer_timestamps_with_a_date rt t :
  (exists parts,
     bindE (_normalize_timestamp_to_ms (PInt t)) (_derive_date_parts rt)
     = inr parts)
  <-> -62135596800 <= t <= 253402300799 \/ 10 ^ 12 <= t <= MAX_TIMESTAMP_MS.
Proof.
  assert (Hbig : MAX_TIMESTAMP_MS < FLOAT_OVERFLOW)
    by (vm_compute; reflexivity).
  assert (Hmax : MAX_TIMESTAMP_MS = 253402300799999) by reflexivity.
  assert (Hmin : MIN_TIMESTAMP_MS = -62135596800000) by reflexivity.
  change (10 ^ 12) with 1000000000000.
  destruct (Z_lt_le_dec (Z.abs t) FLOAT_OVERFLOW) as [Hs | Hl].
  - rewrite (normalize_int t Hs). cbn [bindE].
    change (10 ^ 12) with 1000000000000.
    destruct (1000000000000 <=? t) eqn:E;
      [apply Z.leb_le in E | apply Z.leb_gt in E].
    + destruct (derive_date_parts_cases rt t)
        as [(Hin & y & m & d & _ & _ & Hrun) | (Hout & e & Hrun)];
        rewrite Hrun.
      * split; [intros _; lia | intros _; eauto].
      * split; [intros (parts & H); discriminate H | lia].
    + destruct (derive_date_parts_cases rt (t * 1000))
        as [(Hin & y & m & d & _ & _ & Hrun) | (Hout & e & Hrun)];
        rewrite Hrun.
      * split; [intros _; lia | intros _; eauto].
      * split; [intros (parts & H); discriminate H | lia].
  - split; [|lia]. intros (parts & H). revert H.
    unfold _normalize_timestamp_to_ms.
    cbn [isinstance_int_float negb math_isfinite].
    rewrite (float_of_int_large t Hl). cbn [bindE]. discriminate.
Qed.

(** Witness: the instant 1700000000000. *)
Lemma date_parts_are_a_date_witness :
  exists year month day,
    calendar_date (year, month, day) = true
    /\ 1 <= year <= 9999
    /\ _ymd2ord (year, month, day) - EPOCH_ORDINAL
       = 1700000000000 / MS_PER_DAY
    /\ py "2023" = str_of_int year
    /\ py "11" = zfill 2 (str_of_int month)
    /\ py "14" = zfill 2 (str_of_int day)
    /\ List.length (py "11") = 2%nat
    /\ List.length (py "14") = 2%nat
    /\ (1000 <= year -> List.length (py "2023") = 4%nat).
Proof.
  apply (date_parts_are_a_date live_runtime 1700000000000
           (py "2023") (py "11") (py "14")).
  vm_compute. reflexivity.
Defined.

(** Witness: the first and the last millisecond of 2023-11-14, and the
    first of the next day. *)
Lemma same_date_same_day_witness :
  ((py "2023", py "11", py "14") = (py "2023", py "11", py "14")
   <-> 1699920000000 / MS_PER_DAY = 1700006399999 / MS_PER_DAY)
  /\ ((py "2023", py "11", py "14") = (py "2023", py "11", py "15")
      <-> 1699920000000 / MS_PER_DAY = 1700006400000 / MS_PER_DAY).
Proof.
  split.
  - apply (same_date_same_day live_runtime 1699920000000 1700006399999);
      vm_compute; reflexivity.
  - apply (same_date_same_day live_runtime 1699920000000 1700006400000);
      vm_compute; reflexivity.
Defined.

(** A timestamp that normalizes to milliseconds outside the years 1 to
    9999 is never stored: [_derive_date_parts] raises, and the handler
    answers 400 with the library's text when that is a [ValueError] and
    the 500 server error otherwise. *)
Theorem timestamp_outside_the_calendar rt g event context p body_str d
    app_name ts_ms :
  _decode_body rt event = inr body_str ->
  json_loads rt body_str = inr (PDict d) ->
  valid_app_name (dict_get d (py "appName") PNone) = Some app_name ->
  _normalize_timestamp_to_ms (dict_get d (py "timestamp") PNone) = inr ts_ms ->
  ts_ms < MIN_TIMESTAMP_MS \/ MAX_TIMESTAMP_MS < ts_ms ->
  exists e,
    _derive_date_parts rt ts_ms = inl e
    /\ fst (lambda_handler rt g event context p)
       = (if is_ValueError e then _bad_request (exc_str e) else _server_error)
    /\ s3_requests (snd (lambda_handler rt g event context p)) = s3_requests p.
Proof.
  intros Hbody Hjson Happ Hts Hout.
  destruct (derive_date_parts_cases rt ts_ms)
    as [(Hin & _) | (_ & e & Hrun)]; [lia|].
  exists e. split; [exact Hrun|].
  unfold lambda_handler, try_except, handler_body, process_payload,
    bind, lift, log, effect, ret.
  rewrite Hbody, Hjson. cbn [py_get first_keys]. rewrite Happ, Hts, Hrun.
  destruct (is_ValueError e); cbn [fst snd];
    (split; [reflexivity|now rewrite !log_s3_requests]).
Qed.

(** Witness: the timestamp 10^18, far past year 9999. *)
Lemma timestamp_outside_the_calendar_witness :
  exists e,
    _derive_date_parts codec_runtime (10 ^ 18) = inl e
    /\ fst (lambda_handler codec_runtime (module_globals codec_runtime)
              (example_event (document "demo" "1000000000000000000"))
              example_context fresh_process)
       = (if is_ValueError e then _bad_request (exc_str e) else _server_error)
    /\ s3_requests
         (snd (lambda_handler codec_runtime (module_globals codec_runtime)
                 (example_event (document "demo" "1000000000000000000"))
                 example_context fresh_process)) = [].
Proof.
  apply (timestamp_outside_the_calendar codec_runtime
           (module_globals codec_runtime)
           (example_event (document "demo" "1000000000000000000"))
           example_context fresh_process
           (document "demo" "1000000000000000000")
           [(py "appName", PStr (py "demo")); (py "timestamp", PInt (10 ^ 18))]
           (py "demo") (10 ^ 18));
    try (vm_compute; reflexivity).
  right. vm_compute. reflexivity.
Defined.

Lemma utf8_bytes_surrogate text c :
  In c text -> 55296 <= c <= 57343 -> utf8_bytes text = None.
Proof.
  intros Hin Hc. induction text as [|a text IH]; [destruct Hin|].
  cbn [utf8_bytes]. destruct Hin as [-> | Hin].
  - unfold utf8_of_codepoint.
    replace ((c <? 0) || (1114111 <? c)) with false
      by (symmetry; apply orb_false_iff; split;
          [apply Z.ltb_ge|apply Z.ltb_ge]; lia).
    replace (c <? 128) with false by (symmetry; apply Z.ltb_ge; lia).
    replace (c <? 2048) with false by (symmetry; apply Z.ltb_ge; lia).
    replace ((55296 <=? c) && (c <=? 57343)) with true
      by (symmetry; apply andb_true_iff; split; apply Z.leb_le; lia).
    reflexivity.
  - rewrite (IH Hin). now destruct (utf8_of_codepoint a).
Qed.

(** A body whose text holds a lone surrogate has no UTF-8 encoding: though
    it parses and its fields are valid, the handler answers 400 with the
    codec's message and sends nothing. *)
Theorem unencodable_body_is_400 rt g event context p body_str d app_name
    ts_ms yyyy mm dd c :
  _decode_body rt event = inr body_str ->
  json_loads rt body_str = inr (PDict d) ->
  valid_app_name (dict_get d (py "appName") PNone) = Some app_name ->
  _normalize_timestamp_to_ms (dict_get d (py "timestamp") PNone) = inr ts_ms ->
  _derive_date_parts rt ts_ms = inr (yyyy, mm, dd) ->
  In c body_str -> 55296 <= c <= 57343 ->
  fst (lambda_handler rt g event context p)
  = _bad_request (encode_error_str rt body_str)
  /\ s3_requests (snd (lambda_handler rt g event context p)) = s3_requests p.
Proof.
  intros Hbody Hjson Happ Hts Hdate Hin Hc.
  pose proof (utf8_bytes_surrogate body_str c Hin Hc) as Henc.
  unfold lambda_handler, try_except, handler_body, process_payload,
    bind, lift, log, effect, ret.
  rewrite Hbody, Hjson. cbn [py_get first_keys]. rewrite Happ, Hts, Hdate.
  unfold encode_utf8. rewrite Henc. cbn [is_ValueError exc_class_of exc_str fst snd].
  split; [reflexivity|now rewrite !log_s3_requests].
Qed.

(** Witness: the demo document with a lone surrogate in one more field. *)
Lemma unencodable_body_is_400_witness :
  statusCode (fst (invoke dry_runtime surrogate_document)) = 400.
Proof.
  unfold invoke.
  rewrite (proj1 (unencodable_body_is_400 dry_runtime
                    (module_globals dry_runtime)
                    (example_event surrogate_document) example_context
                    fresh_process surrogate_document
                    [(py "appName", PStr (py "demo"));
                     (py "timestamp", PInt 1700000000);
                     (py "note", PStr [55296])]
                    (py "demo") 1700000000000 (py "2023") (py "11") (py "14")
                    55296
                    eq_refl eq_refl eq_refl eq_refl eq_refl
                    ltac:(vm_compute; tauto) ltac:(lia))).
  reflexivity.
Defined.

(* ------------------------------------------------------------------ *)
(** ** The text of a response *)

Lemma printable_app a b :
  forallb printable_ascii (a ++ b)
  = forallb printable_ascii a && forallb printable_ascii b.
Proof. apply forallb_app. Qed.

Lemma printable_hex_digits n : forallb printable_ascii (hex_digits n) = true.
Proof.
  unfold hex_digits, HexadecimalString.NilZero.string_of_uint.
  assert (H : forall d,
            forallb printable_ascii
              (py (HexadecimalString.NilEmpty.string_of_uint d)) = true).
  { induction d; cbn; auto. }
  destruct (N.to_hex_uint (Z.to_N n)); try apply H; reflexivity.
Qed.

Lemma printable_str_of_int n : forallb printable_ascii (str_of_int n) = true.
Proof.
  unfold str_of_int, DecimalString.NilZero.string_of_int,
    DecimalString.NilZero.string_of_uint.
  assert (H : forall d,
            forallb printable_ascii
              (py (DecimalString.NilEmpty.string_of_uint d)) = true).
  { induction d; cbn; auto. }
  destruct (Z.to_int n) as [d|d]; destruct d; try apply H; try reflexivity;
    cbn; apply H.
Qed.

Lemma printable_zfill w s :
  forallb printable_ascii s = true ->
  forallb printable_ascii (zfill w s) = true.
Proof.
  intros H. unfold zfill. rewrite printable_app, H, andb_true_r.
  induction (w - List.length s)%nat; [reflexivity|exact IHn].
Qed.

Lemma printable_escape_char c : forallb printable_ascii (escape_char c) = true.
Proof.
  assert (Hu : forall n, forallb printable_ascii (u_escape n) = true).
  { intros n. unfold u_escape. rewrite !printable_app.
    rewrite (printable_zfill 4 _ (printable_hex_digits n)). reflexivity. }
  unfold escape_char.
  repeat match goal with
         | |- context [if ?b then _ else _] => destruct b eqn:?
         end; try reflexivity.
  - cbn. unfold printable_ascii.
    match goal with
    | H : (32 <=? c) && (c <=? 126) = true |- _ => now rewrite H
    end.
  - apply Hu.
  - rewrite printable_app, !Hu. reflexivity.
Qed.

Lemma printable_json_string s : forallb printable_ascii (json_string s) = true.
Proof.
  unfold json_string. rewrite !printable_app.
  assert (H : forallb printable_ascii (flat_map escape_char s) = true).
  { induction s as [|c s IH]; [reflexivity|].
    cbn [flat_map]. now rewrite printable_app, printable_escape_char, IH. }
  now rewrite H.
Qed.

Lemma printable_json_dumps_compact payload :
  forallb printable_ascii (json_dumps_compact payload) = true.
Proof.
  unfold json_dumps_compact. rewrite !printable_app.
  assert (Hs : forall v, forallb printable_ascii (json_scalar v) = true).
  { intros [[]|s|n]; cbn [json_scalar];
      [reflexivity|reflexivity|apply printable_json_string
      |apply printable_str_of_int]. }
  assert (Hj : forall parts,
            (forall x, In x parts -> forallb printable_ascii x = true) ->
            forallb printable_ascii (join (py ",") parts) = true).
  { induction parts as [|x rest IH]; intros H; [reflexivity|].
    cbn [join]. destruct rest as [|y rest'].
    - apply H. now left.
    - rewrite !printable_app, (H x (or_introl eq_refl)).
      rewrite IH; [reflexivity|]. intros z Hz. apply H. now right. }
  rewrite Hj; [reflexivity|].
  intros x Hx. apply in_map_iff in Hx. destruct Hx as ([k v] & <- & _).
  cbn [fst snd]. now rewrite !printable_app, printable_json_string, Hs.
Qed.

(** Every response body is printable ASCII, whatever the application name,
    the request identifier, the bucket name or an error text hold. *)
Theorem response_body_is_ascii rt g event context p :
  forallb printable_ascii (body (fst (lambda_handler rt g event context p)))
  = true.
Proof.
  destruct (lambda_handler_outcome rt g event context p)
    as [msg Hr _ | Hr _ | body_str key data _ _ Hr _]; rewrite Hr;
    try destruct (stored rt g (S3 p) key data);
    apply printable_json_dumps_compact.
Qed.

(* ------------------------------------------------------------------ *)
(** ** The local harness *)

(** The local harness runs in dry-run unless [DRY_RUN] was set beforehand
    to something else: when [DRY_RUN] is not set, or is set to a dry-run
    spelling, and [json.dumps] writes the sample payload as a text that
    [json.loads] reads back, the harness sends nothing, builds no client,
    and prints the 200 for the key
    "zoo_landing_page/2025/08/27/1756276595877-567890ab.json". *)
Theorem local_test_is_a_dry_run rt text data :
  match environ rt (py "DRY_RUN") with
  | Some value => dry_run_enabled value = true
  | None => True
  end ->
  json_dumps rt sample_payload = inr text ->
  text <> [] ->
  json_loads rt text = inr sample_payload ->
  utf8_bytes text = Some data ->
  exists p',
    local_test rt
    = inr (_json_response 200
             [(py "ok", JBool true);
              (py "bucket",
               JStr (os_getenv rt (py "RAW_BUCKET_NAME") (py "zoolanding-data-raw")));
              (py "key",
               JStr (py "zoo_landing_page/2025/08/27/1756276595877-567890ab.json"));
              (py "size", JInt (Z.of_nat (List.length data)));
              (py "dryRun", JBool true)], p')
    /\ s3_requests p' = []
    /\ S3 p' = None.
Proof.
  intros Henv Hdumps Htext Hloads Henc.
  set (rt' := setdefault rt (py "DRY_RUN") (py "1")).
  set (event := [(py "isBase64Encoded", PBool false); (py "body", PStr text)]).
  set (p0 := {| S3 := None; stdout := []; s3_requests := [] |}).
  assert (Hdry : DRY_RUN (module_globals rt') = true).
  { cbn [module_globals DRY_RUN]. unfold os_getenv, rt'.
    cbn [environ setdefault]. rewrite pystr_eqb_refl.
    destruct (environ rt (py "DRY_RUN")); [exact Henv|reflexivity]. }
  assert (Hbucket : RAW_BUCKET_NAME (module_globals rt')
                    = os_getenv rt (py "RAW_BUCKET_NAME")
                        (py "zoolanding-data-raw")).
  { cbn [module_globals RAW_BUCKET_NAME]. unfold os_getenv, rt'.
    cbn [environ setdefault].
    replace (pystr_eqb (py "RAW_BUCKET_NAME") (py "DRY_RUN")) with false
      by (vm_compute; reflexivity).
    reflexivity. }
  assert (Hbody : _decode_body rt' event = inr text).
  { unfold _decode_body, event.
    replace (dict_get _ (py "body") PNone) with (PStr text)
      by (vm_compute; reflexivity).
    replace (dict_get _ (py "isBase64Encoded") (PBool false))
      with (PBool false) by (vm_compute; reflexivity).
    destruct text; [contradiction|reflexivity]. }
  destruct (lambda_handler_valid rt' (module_globals rt') event Ctx text
              [(py "appName", PStr (py "zoo_landing_page"));
               (py "timestamp", PInt 1756276595877);
               (py "name", PStr (py "cta_click"))]
              (py "zoo_landing_page") 1756276595877
              (py "2025") (py "08") (py "27") data p0)
    as [Hr Hs];
    [exact Hbody | exact Hloads | vm_compute; reflexivity
    | vm_compute; reflexivity | vm_compute; reflexivity | exact Henc |].
  exists (snd (lambda_handler rt' (module_globals rt') event Ctx p0)).
  split; [|split].
  - unfold local_test. fold rt'. cbn [json_dumps setdefault].
    change (json_dumps rt' sample_payload) with (json_dumps rt sample_payload).
    rewrite Hdumps. cbn [bindE]. fold event p0. f_equal.
    rewrite (surjective_pairing (lambda_handler rt' (module_globals rt') event Ctx p0)).
    f_equal. rewrite Hr. unfold stored, success_body. rewrite Hdry, Hbucket.
    cbn [orb app]. f_equal.
  - rewrite Hs. unfold sent. rewrite Hdry. reflexivity.
  - destruct (lambda_handler_continues rt' (module_globals rt') event Ctx p0)
      as (_ & _ & _ & Hnew).
    destruct (S3 (snd (lambda_handler rt' (module_globals rt') event Ctx p0)))
      as [client|]; [|reflexivity].
    destruct (Hnew client eq_refl) as [H | [H _]].
    + discriminate H.
    + rewrite Hdry in H. discriminate H.
Qed.

(** Witness: a runtime with [DRY_RUN] not set, whose [json] writes and reads
    the sample. *)
Lemma local_test_is_a_dry_run_witness :
  exists p',
    local_test codec_runtime
    = inr (_json_response 200
             [(py "ok", JBool true);
              (py "bucket", JStr (py "zoolanding-data-raw"));
              (py "key",
               JStr (py "zoo_landing_page/2025/08/27/1756276595877-567890ab.json"));
              (py "size", JInt 80);
              (py "dryRun", JBool true)], p')
    /\ s3_requests p' = []
    /\ S3 p' = None.
Proof.
  apply (local_test_is_a_dry_run codec_runtime sample_text
           (map byte_of_Z sample_text)).
  - vm_compute. exact I.
  - vm_compute. reflexivity.
  - vm_compute. discriminate.
  - vm_compute. reflexivity.
  - vm_compute. reflexivity.
Defined.
